(** * MovieGen: the Ken-Burns slideshow assembler, [agents/burns_ffmpeg.py]

    A shallow embedding of the script that turns the beat images of a scene
    and its narration into a video, and the properties of its effect
    synthesizer and of its staged ffmpeg pipeline.

    Conventions of the embedding.
    - Python floats are read as rationals ([Q]); rounding is not modelled.
      Their printed form ([repr]/[str] of a float) is a parameter.
    - The global Mersenne Twister of module [random] is a pair of streams
      of outcomes with a read position each.
    - The file system is a finite map from paths to contents, an external
      process is a transition supplied by the environment.
    - Console output is recorded only where a property speaks of it. *)

From Stdlib Require Import QArith Qabs Qminmax ZArith Lia Lqa.
From Stdlib Require Import String Ascii.
From stdpp Require Import gmap strings list pretty sorting.

Local Open Scope string_scope.

(** ** Numbers *)

(** [a < b] on floats, as a test. *)
Definition Qlt_bool (a b : Q) : bool := negb (Qle_bool b a).

(** [int(x)] of a float: truncation toward zero. *)
Definition int_of_float (x : Q) : Z := Z.quot (Qnum x) (Z.pos (Qden x)).

(** [str(n)] / [f"{n}"] of an int. *)
Definition str_int (n : Z) : string := pretty n.

(** [f"{n:02d}"] of a non-negative int: at least two digits, zero padded. *)
Definition fmt_02d (n : nat) : string :=
  if (n <? 10)%nat then "0" ++ str_int (Z.of_nat n) else str_int (Z.of_nat n).

(** ** The random number generator *)

Module Rng.

(** [floats] are the successive results of [random.random()], [picks] the
    successive raw integers behind [random.choice]; [fpos] and [ipos]
    count how many of each were consumed. *)
Record state : Type := mk {
  floats : nat -> Q;
  picks : nat -> nat;
  fpos : nat;
  ipos : nat
}.

Definition Rand (A : Type) : Type := state -> A * state.

Definition ret {A} (a : A) : Rand A := fun s => (a, s).

Definition bind {A B} (m : Rand A) (k : A -> Rand B) : Rand B :=
  fun s => let (a, s') := m s in k a s'.

(** [random.random()] *)
Definition random : Rand Q :=
  fun s => (floats s (fpos s), mk (floats s) (picks s) (S (fpos s)) (ipos s)).

(** [random._randbelow(n)] for [n > 0] *)
Definition randbelow (n : nat) : Rand nat :=
  fun s => ((picks s (ipos s) mod n)%nat,
            mk (floats s) (picks s) (fpos s) (S (ipos s))).

(** [random.uniform(a, b)] is [a + (b - a) * random()]. *)
Definition uniform (a b : Q) : Rand Q :=
  bind random (fun u => ret (a + (b - a) * u)%Q).

(** [random.choice(seq)] on a non-empty sequence [x :: xs]. *)
Definition choice {A} (x : A) (xs : list A) : Rand A :=
  bind (randbelow (length (x :: xs))) (fun i => ret (nth i (x :: xs) x)).

(** Every result of [random()] lies in the unit interval.  [random()]
    itself stays below 1; the closed bound also covers the rounding by
    which [uniform] may return its upper end. *)
Definition unit_floats (s : state) : Prop :=
  forall i, (0 <= floats s i /\ floats s i <= 1)%Q.

End Rng.

Import Rng.

Declare Scope rand_scope.
Delimit Scope rand_scope with rand.
Notation "x <- m ;; k" := (Rng.bind m (fun x => k))
  (at level 100, m at next level, right associativity) : rand_scope.

(** ** The clip effect synthesizer: [generate_random_zoompan] *)

(** The six numbers the function draws (its local variables). *)
Record motion : Type := Motion {
  zoom_start : Q;
  zoom_end : Q;
  x_start : Q;
  y_start : Q;
  x_end : Q;
  y_end : Q
}.

(** "Ensure some movement": the block the source writes once for x and once
    for y.
<<
    if abs(end - start) < 0.1:
        end = start + (0.2 if random.choice([True, False]) else -0.2)
        end = max(0, min(0.3, end))
>> *)
Definition ensure_movement (start end_ : Q) : Rand Q :=
  (if Qlt_bool (Qabs (end_ - start)) 0.1 then
     up <- choice true [false] ;;
     let end_ := (start + (if up : bool then 0.2 else - 0.2))%Q in
     ret (Qmax 0 (Qmin 0.3 end_))
   else ret end_)%rand.

(** Lines 46-68: the draws of zoom and pan. *)
Definition draw_motion : Rand motion :=
  (zoom_start <- uniform 1.0 1.4 ;;
   zoom_end <- uniform 1.2 1.5 ;;
   swap <- choice true [false] ;;
   let (zoom_start, zoom_end) :=
     if swap : bool then (zoom_end, zoom_start) else (zoom_start, zoom_end) in
   x_start <- uniform 0 0.3 ;;
   y_start <- uniform 0 0.3 ;;
   x_end <- uniform 0 0.3 ;;
   y_end <- uniform 0 0.3 ;;
   x_end <- ensure_movement x_start x_end ;;
   y_end <- ensure_movement y_start y_end ;;
   ret (Motion zoom_start zoom_end x_start y_start x_end y_end))%rand.

Definition easing_types : string * list string := ("", ["in"; "out"; "in_out"]).

Section Synthesizer.

(** The text Python prints for a float inside an f-string. *)
Variable repr : Q -> string.

(** Line 75. *)
Definition zoom_expr (m : motion) (duration_frames : Z) : string :=
  "'if(lte(on,1)," ++ repr (zoom_start m) ++ "," ++ repr (zoom_start m)
  ++ "+(" ++ repr (zoom_end m) ++ "-" ++ repr (zoom_start m)
  ++ ")*pow((on-1)/(" ++ str_int duration_frames ++ "-1),2))'".

(** Lines 76 and 77 are one template, at the x and at the y coordinates. *)
Definition pan_expr (start end_ : Q) (duration_frames : Z) : string :=
  "'" ++ repr start ++ "+(" ++ repr end_ ++ "-" ++ repr start
  ++ ")*pow(on/" ++ str_int duration_frames ++ ",1.5)'".

(** Line 80. *)
Definition zoompan_filter (m : motion) (duration_frames : Z) : string :=
  "zoompan=z=" ++ zoom_expr m duration_frames
  ++ ":x=iw*" ++ pan_expr (x_start m) (x_end m) duration_frames
  ++ ":y=ih*" ++ pan_expr (y_start m) (y_end m) duration_frames
  ++ ":d=" ++ str_int duration_frames ++ ":s=768x1280".

Definition generate_random_zoompan (duration_frames : Z) : Rand string :=
  (m <- draw_motion ;;
   easing <- choice (fst easing_types) (snd easing_types) ;;
   ret (zoompan_filter m duration_frames))%rand.

End Synthesizer.

(** ** The expression language of the zoompan filter

    The strings above are expressions of ffmpeg's evaluator.  Their syntax
    trees, printed back by [render], give them a meaning: [eval] computes the
    value of an expression at output frame number [on]. *)

Inductive expr : Type :=
| Lit (text : string) (value : Q)   (* a number, as written *)
| On                                (* the output frame number *)
| Add (a b : expr)
| Sub (a b : expr)
| Mul (a b : expr)
| Div (a b : expr)
| Par (a : expr)                    (* ( a ) *)
| Pow (a b : expr)                  (* pow(a,b) *)
| Lte (a b : expr)                  (* lte(a,b) *)
| If (c a b : expr).                (* if(c,a,b) *)

Fixpoint render (e : expr) : string :=
  match e with
  | Lit text _ => text
  | On => "on"
  | Add a b => render a ++ "+" ++ render b
  | Sub a b => render a ++ "-" ++ render b
  | Mul a b => render a ++ "*" ++ render b
  | Div a b => render a ++ "/" ++ render b
  | Par a => "(" ++ render a ++ ")"
  | Pow a b => "pow(" ++ render a ++ "," ++ render b ++ ")"
  | Lte a b => "lte(" ++ render a ++ "," ++ render b ++ ")"
  | If c a b => "if(" ++ render c ++ "," ++ render a ++ "," ++ render b ++ ")"
  end.

Section Evaluation.

(** [pow(x, y)] for an exponent that is not an integer. *)
Variable rpow : Q -> Q -> Q.

(** [pow(x, y)]: the y-th power when [y] is an integer. *)
Definition pow (x y : Q) : Q :=
  if Qeq_bool y (inject_Z (int_of_float y))
  then Qpower x (int_of_float y) else rpow x y.

Fixpoint eval (on : Q) (e : expr) : Q :=
  match e with
  | Lit _ value => value
  | On => on
  | Add a b => eval on a + eval on b
  | Sub a b => eval on a - eval on b
  | Mul a b => eval on a * eval on b
  | Div a b => eval on a / eval on b
  | Par a => eval on a
  | Pow a b => pow (eval on a) (eval on b)
  | Lte a b => if Qle_bool (eval on a) (eval on b) then 1 else 0
  | If c a b => if Qeq_bool (eval on c) 0 then eval on b else eval on a
  end%Q.

End Evaluation.

Section Curves.

Variable repr : Q -> string.

Definition lit_float (x : Q) : expr := Lit (repr x) x.
Definition lit_int (n : Z) : expr := Lit (str_int n) (inject_Z n).

(** The denominator of the zoom progress, [(duration_frames-1)]. *)
Definition zoom_denominator (duration_frames : Z) : expr :=
  Par (Sub (lit_int duration_frames) (lit_int 1)).

(** The syntax tree of the text of line 75, between its quotes. *)
Definition zoom_curve (m : motion) (duration_frames : Z) : expr :=
  If (Lte On (lit_int 1))
     (lit_float (zoom_start m))
     (Add (lit_float (zoom_start m))
          (Mul (Par (Sub (lit_float (zoom_end m)) (lit_float (zoom_start m))))
               (Pow (Div (Par (Sub On (lit_int 1)))
                         (zoom_denominator duration_frames))
                    (lit_int 2)))).

(** The syntax tree of the text of lines 76 and 77, between the quotes. *)
Definition pan_curve (start end_ : Q) (duration_frames : Z) : expr :=
  Add (lit_float start)
      (Mul (Par (Sub (lit_float end_) (lit_float start)))
           (Pow (Div On (lit_int duration_frames)) (Lit "1.5" 1.5))).

End Curves.

(** ** Python's string and path functions, as the script uses them *)

Module Py.

(** [sub in s] *)
Fixpoint contains (sub s : string) : bool :=
  String.prefix sub s
  || match s with
     | "" => false
     | String _ rest => contains sub rest
     end.

(** [s.split(sep)] for a non-empty separator.  [skip] counts the
    characters of a separator just matched that are still to be passed,
    [cur] is the piece being read. *)
Fixpoint split_go (sep : string) (skip : nat) (cur s : string) : list string :=
  match s with
  | "" => [cur]
  | String c rest =>
      match skip with
      | S k => split_go sep k cur rest
      | O =>
          if String.prefix sep s
          then cur :: split_go sep (String.length sep - 1) "" rest
          else split_go sep 0 (cur ++ String c "") rest
      end
  end.

Definition split (sep s : string) : list string := split_go sep 0 "" s.

(** [s.replace(old, new)] for a non-empty [old]. *)
Fixpoint replace_go (old new : string) (skip : nat) (s : string) : string :=
  match s with
  | "" => ""
  | String c rest =>
      match skip with
      | S k => replace_go old new k rest
      | O =>
          if String.prefix old s
          then new ++ replace_go old new (String.length old - 1) rest
          else String c (replace_go old new 0 rest)
      end
  end.

Definition replace (old new s : string) : string := replace_go old new 0 s.

(** White space of [str.split()] and [str.strip()], within ASCII. *)
Definition is_space (c : ascii) : bool :=
  let n := nat_of_ascii c in
  (n =? 32)%nat || ((9 <=? n)%nat && (n <=? 13)%nat)
  || ((28 <=? n)%nat && (n <=? 31)%nat).

(** [s.split()] : the maximal runs of characters that are not white space. *)
Fixpoint split_ws_go (cur : option string) (s : string) : list string :=
  match s with
  | "" => match cur with Some w => [w] | None => [] end
  | String c rest =>
      if is_space c
      then match cur with
           | Some w => w :: split_ws_go None rest
           | None => split_ws_go None rest
           end
      else split_ws_go (Some (default "" cur ++ String c "")) rest
  end.

Definition split_ws (s : string) : list string := split_ws_go None s.

Fixpoint lstrip (s : string) : string :=
  match s with
  | String c rest => if is_space c then lstrip rest else s
  | "" => ""
  end.

(** [s.strip()] *)
Definition strip (s : string) : string :=
  String.rev (lstrip (String.rev (lstrip s))).

(** Line boundaries of [str.splitlines()], within ASCII. *)
Definition is_linebreak (c : ascii) : bool :=
  let n := nat_of_ascii c in
  ((10 <=? n)%nat && (n <=? 13)%nat) || ((28 <=? n)%nat && (n <=? 30)%nat).

(** [s.splitlines()]: [after_cr] remembers that the last break was a
    carriage return, so that a line feed right after it is the same break. *)
Fixpoint splitlines_go (after_cr : bool) (cur : option string) (s : string)
  : list string :=
  match s with
  | "" => match cur with Some l => [l] | None => [] end
  | String c rest =>
      if after_cr && (nat_of_ascii c =? 10)%nat
      then splitlines_go false cur rest
      else if is_linebreak c
      then default "" cur :: splitlines_go (nat_of_ascii c =? 13)%nat None rest
      else splitlines_go false (Some (default "" cur ++ String c "")) rest
  end.

Definition splitlines (s : string) : list string := splitlines_go false None s.

(** [s[i:j]] and [s[i:]] for indices within the usual range. *)
Definition slice (i j : nat) (s : string) : string :=
  String.substring i (j - i) s.

Definition slice_from (i : nat) (s : string) : string :=
  String.substring i (String.length s - i) s.

(** [os.path.join(a, b)] of [posixpath]. *)
Definition path_join (a b : string) : string :=
  if String.prefix "/" b then b
  else if (String.length a =? 0)%nat || String.prefix "/" (String.rev a)
  then a ++ b
  else a ++ "/" ++ b.

(** [" ".join(l)] is only printed by the script and is left out. *)

End Py.

(** ** The world of the script *)

(** What [subprocess.run(..., capture_output=True, text=True)] returns. *)
Record completed : Type := Completed {
  returncode : Z;
  stdout : string;
  stderr : string
}.

(** The messages of the script that the properties below speak of. *)
Inductive notice : Type :=
| NoImagesFound                          (* line 151 *)
| ClipError                              (* line 197 *)
| MissingClips (paths : list string)     (* lines 208-209 *)
| ConcatFailed                           (* lines 239-240 *)
| TempVideoNotCreated                    (* line 243 *)
| AudioSilentOrInvalid                   (* line 288 *)
| AudioNotFound                          (* line 291 *)
| AudioVerified                          (* line 325 *)
| AudioStreamNotDetected                 (* line 327, the warning *)
| SubtitleError                          (* lines 355-356 *)
| NoSubtitleFile                         (* line 358 *)
| MusicTrimError                         (* line 381 *)
| MusicMixError                          (* lines 403-404 *)
| CleanupComplete                        (* line 415 *)
| MuxFailed.                             (* lines 417-419 *)

(** What a run does to its surroundings, in order. *)
Inductive event : Type :=
| Ran (argv : list string) (outcome : option completed)
| Wrote (path text : string)
| Removed (path : string)
| Printed (n : notice).

(** How a piece of the script ends: with a value, by [exit(code)], or by an
    exception (caught by an enclosing [try], or ending the process with a
    traceback and a non-zero status). *)
Inductive result (A : Type) : Type :=
| Value (a : A)
| Exit (code : Z)
| Raised.
Arguments Value {A} a.
Arguments Exit {A} code.
Arguments Raised {A}.

Record config : Type := Config {
  scene_path : option string;
  image_folder : string;
  audio_file : string;
  output_file : string
}.

(** Lines 101-108. *)
Definition configure (scene_path : option string) : config :=
  match scene_path with
  | Some p => Config scene_path p (Py.path_join p "speech.mp3")
                     (Py.path_join p "movie.mp4")
  | None => Config scene_path "./static/" "narration.mp3" "movie.mp4"
  end.

(** [fps = 25], line 162. *)
Definition fps : Z := 25.

(** Lines 155 and 163: [time_per_image] and [frames_per_image]. *)
Definition time_per_image (audio_duration : Q) (num_images : nat) : Q :=
  (audio_duration / inject_Z (Z.of_nat num_images))%Q.

Definition frames_per_image (audio_duration : Q) (num_images : nat) : Z :=
  int_of_float (time_per_image audio_duration num_images * inject_Z fps)%Q.

Definition newline : string := String (ascii_of_nat 10) "".

(** Lines 214-218: the text written to [concat_list.txt]. *)
Definition manifest (abspath : string -> string) (temp_clips : list string)
  : string :=
  String.concat ""
    (map (fun clip => "file '" ++ abspath clip ++ "'" ++ newline) temp_clips).

(** Line 177: the name of the clip of image number [i] (from 0). *)
Definition temp_clip_path (image_folder : string) (i : nat) : string :=
  Py.path_join image_folder ("temp_clip_" ++ fmt_02d (i + 1) ++ ".mp4").

Definition concat_file (image_folder : string) : string :=
  Py.path_join image_folder "concat_list.txt".

Definition temp_video (image_folder : string) : string :=
  Py.path_join image_folder "temp_video.mp4".

Definition subtitled_output (image_folder : string) : string :=
  Py.path_join image_folder "movie_subtitled.mp4".

Definition final_output (image_folder : string) : string :=
  Py.path_join image_folder "movie_final.mp4".

(** The command lines. *)

(** Lines 181-192. *)
Definition cmd_clip (repr : Q -> string) (image_file zoompan_filter : string)
    (time_per_image : Q) (temp_clip : string) : list string :=
  ["ffmpeg"; "-y"; "-loop"; "1"; "-i"; image_file; "-c:v"; "libx264";
   "-preset"; "fast"; "-pix_fmt"; "yuv420p";
   "-vf"; zoompan_filter ++ ",fps=" ++ str_int fps;
   "-t"; repr time_per_image; temp_clip].

(** Lines 224-234. *)
Definition cmd_concat (abspath : string -> string) (image_folder : string)
  : list string :=
  ["ffmpeg"; "-y"; "-f"; "concat"; "-safe"; "0";
   "-i"; abspath (concat_file image_folder);
   "-c:v"; "libx264"; "-preset"; "fast"; "-pix_fmt"; "yuv420p";
   temp_video image_folder].

(** Lines 293-307. *)
Definition cmd_audio (temp_video audio_file output_file : string) : list string :=
  ["ffmpeg"; "-y"; "-i"; temp_video; "-i"; audio_file;
   "-map"; "0:v:0"; "-map"; "1:a:0"; "-c:v"; "copy"; "-c:a"; "aac";
   "-b:a"; "128k"; "-ac"; "2"; "-ar"; "44100"; "-shortest"; output_file].

(** Lines 315-322. *)
Definition verify_cmd (output_file : string) : list string :=
  ["ffprobe"; "-v"; "quiet"; "-select_streams"; "a";
   "-show_entries"; "stream=codec_name,duration"; "-of"; "csv=p=0";
   output_file].

(** Lines 342-349. *)
Definition cmd_sub (output_file filter_arg subtitled_output : string)
  : list string :=
  ["ffmpeg"; "-y"; "-i"; output_file; "-vf"; filter_arg; "-c:a"; "copy";
   subtitled_output].

(** Lines 370-377. *)
Definition trim_cmd (repr : Q -> string) (music_file : string)
    (speech_duration : Q) (trimmed_music : string) : list string :=
  ["ffmpeg"; "-y"; "-i"; music_file; "-ss"; "0"; "-t"; repr speech_duration;
   "-acodec"; "copy"; trimmed_music].

(** Lines 386-397. *)
Definition mix_cmd (subtitled_output trimmed_music final_output : string)
  : list string :=
  ["ffmpeg"; "-y"; "-i"; subtitled_output; "-i"; trimmed_music;
   "-filter_complex";
   "[0:a][1:a]amix=inputs=2:duration=first:dropout_transition=2[aout]";
   "-map"; "0:v"; "-map"; "[aout]"; "-c:v"; "copy"; "-c:a"; "aac";
   "-shortest"; final_output].

(** Lines 253-259 and 269-274: the two probes of [is_audio_silent]. *)
Definition cmd_probe_duration (audio_file : string) : list string :=
  ["ffprobe"; "-v"; "error"; "-show_entries"; "format=duration";
   "-of"; "default=noprint_wrappers=1:nokey=1"; audio_file].

Definition cmd_volumedetect (audio_file : string) : list string :=
  ["ffmpeg"; "-i"; audio_file; "-af"; "volumedetect"; "-f"; "null"; "-"].

(** Lines 23-29. *)
Definition cmd_ffprobe_json (audio_file : string) : list string :=
  ["ffprobe"; "-v"; "quiet"; "-print_format"; "json"; "-show_format";
   audio_file].

(** Lines 335-340: the argument of the subtitles filter. *)
Definition subtitle_filter_arg (abspath : string -> string) (srt_file : string)
  : string :=
  let abs_srt := Py.replace "\" "/" (abspath srt_file) in
  let abs_srt :=
    if String.eqb (Py.slice 1 3 abs_srt) ":/"
    then Py.slice 0 1 abs_srt ++ "\:" ++ Py.slice_from 2 abs_srt
    else abs_srt in
  "subtitles='" ++ abs_srt ++ "'".

(** What one line of the volume analysis says about the mean volume. *)
Inductive reading : Type :=
| NoReading            (* the line does not carry one *)
| Unreadable           (* it does, and reading it raises *)
| MeanVolume (v : Q).

(** A track of the music catalogue: its name and the address of its audio. *)
Record track : Type := Track { track_name : string; track_audio : string }.

(** ** The script monad *)

Declare Scope script_scope.
Delimit Scope script_scope with script.

Section Script.

(** The state of everything outside the script and its files: other
    processes, the network, clocks. *)
Context {E : Type}.

Record world : Type := World {
  files : gmap string string;   (* the paths that exist, with their contents *)
  rng : Rng.state;
  outside : E
}.

Definition Script (A : Type) : Type := world -> result A * world * list event.

Definition pure {A} (a : A) : Script A := fun w => (Value a, w, []).

Definition bind {A B} (m : Script A) (k : A -> Script B) : Script B :=
  fun w =>
    match m w with
    | (Value a, w1, t1) =>
        match k a w1 with (r, w2, t2) => (r, w2, (t1 ++ t2)%list) end
    | (Exit code, w1, t1) => (Exit code, w1, t1)
    | (Raised, w1, t1) => (Raised, w1, t1)
    end.

Definition exit {A} (code : Z) : Script A := fun w => (Exit code, w, []).

Definition raise {A} : Script A := fun w => (Raised, w, []).

(** [try: m  except Exception: handler].  [exit] is not an [Exception]. *)
Definition try_except {A} (m handler : Script A) : Script A :=
  fun w =>
    match m w with
    | (Raised, w1, t1) =>
        match handler w1 with (r, w2, t2) => (r, w2, (t1 ++ t2)%list) end
    | other => other
    end.

Definition print (n : notice) : Script unit :=
  fun w => (Value tt, w, [Printed n]).

(** [os.path.exists(path)] *)
Definition path_exists (path : string) : Script bool :=
  fun w => (Value (bool_decide (is_Some (files w !! path))), w, []).

(** [os.remove(path)] *)
Definition os_remove (path : string) : Script unit :=
  fun w =>
    match files w !! path with
    | Some _ => (Value tt, World (delete path (files w)) (rng w) (outside w),
                 [Removed path])
    | None => (Raised, w, [])
    end.

(** [with open(path, 'w') as f: f.write(text)] *)
Definition write_file (path text : string) : Script unit :=
  fun w => (Value tt, World (<[path := text]> (files w)) (rng w) (outside w),
            [Wrote path text]).

(** A call into module [random]. *)
Definition draw {A} (m : Rand A) : Script A :=
  fun w => let (a, s) := m (rng w) in
           (Value a, World (files w) s (outside w), []).

End Script.

Arguments world : clear implicits.
Arguments Script : clear implicits.

Notation "x <- m ;; k" := (bind m (fun x => k))
  (at level 100, m at next level, right associativity) : script_scope.
Notation "m ;;; k" := (bind m (fun _ => k))
  (at level 100, right associativity) : script_scope.

(** ** The script *)

Section Pipeline.

Context {E : Type}.

(** The text of a float, [repr]. *)
Variable repr : Q -> string.
(** [float(s)]; [None] when it raises [ValueError]. *)
Variable float : string -> option Q.
(** [float(json.loads(s)['format']['duration'])]; [None] when any step
    of it raises. *)
Variable json_duration : string -> option Q.
(** [os.path.abspath] in the working directory of the run. *)
Variable abspath : string -> string.
(** [glob.glob(pattern)] on a file system. *)
Variable glob : string -> gmap string string -> list string.
(** [os.path.getmtime] *)
Variable getmtime : string -> E -> Q.
(** An external process: given the command line, it does what it does to
    the files and to the outside, and completes, or cannot be started
    ([None]: [subprocess.run] raises). *)
Variable process :
  list string -> gmap string string -> E ->
  option completed * gmap string string * E.
(** The catalogue query of lines 122-130 and the download of line 135;
    [None] when the request or the decoding of its answer raises. *)
Variable jamendo_tracks : string -> E -> option (list track) * E.
Variable download : string -> E -> option string * E.

Local Open Scope script_scope.

(** [subprocess.run(argv, capture_output=True, text=True)] *)
Definition subprocess_run (argv : list string) : Script E completed :=
  fun w =>
    match process argv (files w) (outside w) with
    | (Some c, fs, e) => (Value c, World fs (rng w) e, [Ran argv (Some c)])
    | (None, fs, e) => (Raised, World fs (rng w) e, [Ran argv None])
    end.

Definition glob_glob (pattern : string) : Script E (list string) :=
  fun w => (Value (glob pattern (files w)), w, []).

(** Lines 20-35. *)
Definition get_audio_duration (audio_file : string) : Script E Q :=
  try_except
    (result <- subprocess_run (cmd_ffprobe_json audio_file) ;;
     match json_duration (stdout result) with
     | Some duration => pure duration
     | None => raise
     end)
    (pure 30.0%Q).

(** Lines 37-41. *)
Definition get_image_files (image_folder : string) : Script E (list string) :=
  let pattern := Py.path_join image_folder "beat_*.png" in
  images <- glob_glob pattern ;;
  pure (merge_sort String.le images).

(** Lines 277-282, the body of the loop over the lines of the analysis. *)
Definition read_mean_volume (line : string) : reading :=
  if Py.contains "mean_volume" line then
    let parts := Py.split "mean_volume:" line in
    if (1 <? length parts)%nat then
      match head (Py.split_ws (nth 1 parts "")) with
      | None => Unreadable
      | Some token =>
          match float (Py.replace "dB" "" token) with
          | None => Unreadable
          | Some mean_vol => MeanVolume mean_vol
          end
      end
    else NoReading
  else NoReading.

(** Lines 276-283: [Some true] is [return True], [Some false] the
    [return False] after the loop, [None] an exception. *)
Fixpoint scan_mean_volume (lines : list string) : option bool :=
  match lines with
  | [] => Some false
  | line :: rest =>
      match read_mean_volume line with
      | NoReading => scan_mean_volume rest
      | Unreadable => None
      | MeanVolume mean_vol =>
          if Qlt_bool mean_vol (-60) then Some true
          else scan_mean_volume rest
      end
  end.

(** Lines 252-265: [true] when the function returns [True] here. *)
Definition duration_is_zero_or_unreadable (audio_file : string)
  : Script E bool :=
  try_except
    (result <- subprocess_run (cmd_probe_duration audio_file) ;;
     match float (Py.strip (stdout result)) with
     | Some duration => pure (Qeq_bool duration 0)
     | None => raise
     end)
    (pure true).

(** Lines 268-285. *)
Definition volume_is_below_threshold (audio_file : string) : Script E bool :=
  try_except
    (result <- subprocess_run (cmd_volumedetect audio_file) ;;
     match scan_mean_volume (Py.splitlines (stderr result)) with
     | Some verdict => pure verdict
     | None => raise
     end)
    (pure false).

(** Lines 249-285. *)
Definition is_audio_silent (audio_file : string) : Script E bool :=
  silent <- duration_is_zero_or_unreadable audio_file ;;
  if silent : bool then pure true
  else volume_is_below_threshold audio_file.

(** Lines 170-197: the loop over the images, [i] counting them from 0 and
    [temp_clips] growing by one path per image. *)
Fixpoint render_clips (image_folder : string) (audio_duration : Q)
    (num_images : nat) (i : nat) (image_files : list string)
    (temp_clips : list string) : Script E (list string) :=
  match image_files with
  | [] => pure temp_clips
  | image_file :: rest =>
      zoompan_filter <-
        draw (generate_random_zoompan repr
                (frames_per_image audio_duration num_images)) ;;
      let temp_clip := temp_clip_path image_folder i in
      let temp_clips := (temp_clips ++ [temp_clip])%list in
      result <-
        subprocess_run
          (cmd_clip repr image_file zoompan_filter
             (time_per_image audio_duration num_images) temp_clip) ;;
      (if negb (returncode result =? 0)%Z then print ClipError else pure tt) ;;;
      render_clips image_folder audio_duration num_images (S i) rest temp_clips
  end.

(** Lines 202-205: the clips that do not exist. *)
Definition find_missing_clips (temp_clips : list string)
  : Script E (list string) :=
  fun w =>
    (Value (filter (fun clip => files w !! clip = None) temp_clips), w, []).

(** Lines 201-245: the concatenation stage. *)
Definition concat_stage (image_folder : string) (temp_clips : list string)
  : Script E unit :=
  missing_clips <- find_missing_clips temp_clips ;;
  match missing_clips with
  | _ :: _ => print (MissingClips missing_clips) ;;; exit 1
  | [] =>
      write_file (concat_file image_folder) (manifest abspath temp_clips) ;;;
      result_concat <- subprocess_run (cmd_concat abspath image_folder) ;;
      if negb (returncode result_concat =? 0)%Z
      then print ConcatFailed ;;; exit 1
      else
        made <- path_exists (temp_video image_folder) ;;
        if negb made then print TempVideoNotCreated ;;; exit 1
        else pure tt
  end.

(** Lines 287-309: the checks of the narration and the mux; the value is
    [result_audio]. *)
Definition mux_stage (cfg : config) : Script E completed :=
  silent <- is_audio_silent (audio_file cfg) ;;
  if silent : bool then print AudioSilentOrInvalid ;;; exit 1
  else
    found <- path_exists (audio_file cfg) ;;
    if negb found then print AudioNotFound ;;; exit 1
    else
      subprocess_run
        (cmd_audio (temp_video (image_folder cfg)) (audio_file cfg)
           (output_file cfg)).

(** Lines 313-327. *)
Definition verify_audio (output_file : string) : Script E unit :=
  verify_result <- subprocess_run (verify_cmd output_file) ;;
  if (returncode verify_result =? 0)%Z
     && negb (String.eqb (Py.strip (stdout verify_result)) "")
  then print AudioVerified
  else print AudioStreamNotDetected.

(** Lines 331-358. *)
Definition subtitle_stage (cfg : config) : Script E unit :=
  let srt_file := Py.path_join (image_folder cfg) "speech.srt" in
  present <- path_exists srt_file ;;
  if present : bool then
    result_sub <-
      subprocess_run
        (cmd_sub (output_file cfg) (subtitle_filter_arg abspath srt_file)
           (subtitled_output (image_folder cfg))) ;;
    if (returncode result_sub =? 0)%Z then pure tt else print SubtitleError
  else print NoSubtitleFile.

(** Lines 361-404. *)
Definition music_stage (cfg : config) : Script E unit :=
  music_files <-
    glob_glob (Py.path_join (image_folder cfg) "music_*.mp3") ;;
  match music_files with
  | [] => pure tt
  | music_file :: _ =>
      speech_duration <- get_audio_duration (audio_file cfg) ;;
      let trimmed_music :=
        Py.path_join (image_folder cfg) "music_trimmed.mp3" in
      trim_result <-
        subprocess_run
          (trim_cmd repr music_file speech_duration trimmed_music) ;;
      if negb (returncode trim_result =? 0)%Z then print MusicTrimError
      else
        mix_result <-
          subprocess_run
            (mix_cmd (subtitled_output (image_folder cfg)) trimmed_music
               (final_output (image_folder cfg))) ;;
        if (returncode mix_result =? 0)%Z then pure tt
        else print MusicMixError
  end.

(** Lines 408-410. *)
Fixpoint remove_clips (temp_clips : list string) : Script E unit :=
  match temp_clips with
  | [] => pure tt
  | temp_clip :: rest =>
      present <- path_exists temp_clip ;;
      (if present : bool then os_remove temp_clip else pure tt) ;;;
      remove_clips rest
  end.

(** Lines 406-415. *)
Definition cleanup (image_folder : string) (temp_clips : list string)
  : Script E unit :=
  remove_clips temp_clips ;;;
  present <- path_exists (concat_file image_folder) ;;
  (if present : bool then os_remove (concat_file image_folder) else pure tt) ;;;
  print CleanupComplete.

(** Lines 311-419: what follows the mux. *)
Definition after_mux (cfg : config) (temp_clips : list string)
    (result_audio : completed) : Script E unit :=
  if (returncode result_audio =? 0)%Z then
    verify_audio (output_file cfg) ;;;
    subtitle_stage cfg ;;;
    music_stage cfg ;;;
    cleanup (image_folder cfg) temp_clips
  else print MuxFailed.

(** Lines 147-419. *)
Definition pipeline (cfg : config) : Script E unit :=
  image_files <- get_image_files (image_folder cfg) ;;
  let num_images := length image_files in
  if (num_images =? 0)%nat then print NoImagesFound ;;; exit 1
  else
    audio_duration <- get_audio_duration (audio_file cfg) ;;
    temp_clips <-
      render_clips (image_folder cfg) audio_duration num_images
        0 image_files [] ;;
    concat_stage (image_folder cfg) temp_clips ;;;
    result_audio <- mux_stage cfg ;;
    after_mux cfg temp_clips result_audio.

(** [max(scene_dirs, key=os.path.getmtime)]: the first of the latest. *)
Definition latest_scene (e : E) (first : string) (others : list string)
  : string :=
  fold_left
    (fun best dir =>
       if Qlt_bool (getmtime best e) (getmtime dir e) then dir else best)
    others first.

(** Lines 93-98. *)
Definition find_scene : Script E (option string) :=
  scene_dirs <- glob_glob "./static/scene_*/" ;;
  fun w =>
    match scene_dirs with
    | [] => (Value None, w, [])
    | d :: ds => (Value (Some (latest_scene (outside w) d ds)), w, [])
    end.

(** [requests.get(url).json()['results']], lines 122-130. *)
Definition request_tracks (client_id : string) : Script E (list track) :=
  fun w =>
    match jamendo_tracks client_id (outside w) with
    | (Some tracks, e) => (Value tracks, World (files w) (rng w) e, [])
    | (None, e) => (Raised, World (files w) (rng w) e, [])
    end.

(** [requests.get(audio_url).content], line 135. *)
Definition request_content (audio_url : string) : Script E string :=
  fun w =>
    match download audio_url (outside w) with
    | (Some content, e) => (Value content, World (files w) (rng w) e, [])
    | (None, e) => (Raised, World (files w) (rng w) e, [])
    end.

(** Lines 110-140. *)
Definition fetch_jamendo_track (client_id : string)
    (scene_path : option string) : Script E unit :=
  tracks <- request_tracks client_id ;;
  match tracks with
  | [] => raise
  | t :: ts =>
      track <- draw (choice t ts) ;;
      content <- request_content (track_audio track) ;;
      match scene_path with
      | None => raise
      | Some dir =>
          write_file
            (Py.path_join dir ("music_" ++ track_name track ++ ".mp3"))
            content
      end
  end.

(** The whole module, run as a script; [client_id] is the environment
    variable [JAMENDO_CLIENT] (lines 12-15). *)
Definition main (client_id : option string) : Script E unit :=
  match client_id with
  | None => raise
  | Some id =>
      if String.eqb id "" then raise
      else
        scene_path <- find_scene ;;
        let cfg := configure scene_path in
        fetch_jamendo_track id scene_path ;;;
        pipeline cfg
  end.

End Pipeline.

(** * Vocabulary of the properties *)

(** ** Of the synthesizer *)

(** On draws from the unit interval, [m] returns a value that satisfies [P]
    and leaves such draws behind. *)
Definition ensures {A} (m : Rand A) (P : A -> Prop) : Prop :=
  forall s, unit_floats s -> P (fst (m s)) /\ unit_floats (snd (m s)).

(** The ranges of the six numbers. *)
Definition in_ranges (m : motion) : Prop :=
  ((1 <= zoom_start m /\ zoom_start m <= 1.5)
   /\ (1 <= zoom_end m /\ zoom_end m <= 1.5)
   /\ (0 <= x_start m /\ x_start m <= 0.3)
   /\ (0 <= y_start m /\ y_start m <= 0.3)
   /\ (0 <= x_end m /\ x_end m <= 0.3)
   /\ (0 <= y_end m /\ y_end m <= 0.3))%Q.

(** Pan start and end differ by at least 0.1 on each axis. *)
Definition moves (m : motion) : Prop :=
  (0.1 <= Qabs (x_end m - x_start m) /\ 0.1 <= Qabs (y_end m - y_start m))%Q.

(** A generator that reads the given outcomes, in order, and zeros after
    them. *)
Definition rng_of (fs : list Q) (ps : list nat) : Rng.state :=
  Rng.mk (fun i => nth i fs 0%Q) (fun i => nth i ps 0%nat) 0 0.

(** Draws on which the pan along x starts at 0.25, first ends at 0.28, and
    is nudged upward. *)
Definition clamped_draws : Rng.state :=
  rng_of [0.5; 0.5; 5 # 6; 0.5; 14 # 15; 0.1]%Q [1; 0; 0]%nat.

(** Draws on which the pan along x starts at 0, first ends at 0.05, and is
    nudged downward. *)
Definition still_draws : Rng.state :=
  rng_of [0.5; 0.5; 0; 0.5; 1 # 6; 0.1]%Q [1; 1; 0]%nat.

(** The position, among the picks, of the one that chooses the easing. *)
Definition easing_pick (s : Rng.state) : nat := ipos (snd (draw_motion s)).

(** Two generators that agree on the floats, on the positions, and on the
    picks before position [k]. *)
Definition same_until (k : nat) (s1 s2 : Rng.state) : Prop :=
  (forall i, floats s1 i = floats s2 i)
  /\ fpos s1 = fpos s2
  /\ ipos s1 = ipos s2
  /\ (forall i, (i < k)%nat -> picks s1 i = picks s2 i).

(** [m] only moves forward, and on generators that agree until a position
    it does not read beyond, it returns the same value and keeps them in
    agreement. *)
Definition stable {A} (m : Rand A) : Prop :=
  (forall s, (ipos s <= ipos (snd (m s)))%nat)
  /\ forall k s1 s2,
       same_until k s1 s2 -> (ipos (snd (m s1)) <= k)%nat ->
       fst (m s1) = fst (m s2) /\ same_until k (snd (m s1)) (snd (m s2)).

(** ** Of the narration check *)

(** The duration read from the probe: none when the probe could not be run
    or did not print a number. *)
Definition probed_duration (float : string -> option Q)
    (outcome : option completed) : option Q :=
  match outcome with
  | Some c => float (Py.strip (stdout c))
  | None => None
  end.

(** The volume analysis measures a mean volume below [threshold]: one of
    its lines reads so, and no line before it is unreadable. *)
Definition reads_below (float : string -> option Q) (threshold : Q)
    (lines : list string) : Prop :=
  exists pre line post v,
    lines = (pre ++ line :: post)%list
    /\ Forall (fun l => read_mean_volume float l <> Unreadable) pre
    /\ read_mean_volume float line = MeanVolume v
    /\ (v < threshold)%Q.

(** The volume analysis yields no reading of the mean volume. *)
Definition no_reading (float : string -> option Q) (lines : list string)
  : Prop :=
  Forall (fun l => read_mean_volume float l = NoReading) lines.

Section Narration.

Context {E : Type}.
Variable float : string -> option Q.
Variable process :
  list string -> gmap string string -> E ->
  option completed * gmap string string * E.

(** The outcome of the duration probe in [w] and the world it leaves. *)
Definition duration_probe (audio_file : string) (w : world E)
  : option completed :=
  (process (cmd_probe_duration audio_file) (files w) (outside w)).1.1.

Definition after_duration_probe (audio_file : string) (w : world E)
  : world E :=
  let o := process (cmd_probe_duration audio_file) (files w) (outside w) in
  World o.1.2 (rng w) o.2.

(** The outcome of the volume analysis in [w] and the world it leaves. *)
Definition volume_probe (audio_file : string) (w : world E)
  : option completed :=
  (process (cmd_volumedetect audio_file) (files w) (outside w)).1.1.

Definition after_volume_probe (audio_file : string) (w : world E)
  : world E :=
  let o := process (cmd_volumedetect audio_file) (files w) (outside w) in
  World o.1.2 (rng w) o.2.

(** The classification in the words of the description: the probed
    duration is unreadable or zero, or the mean volume measured after the
    duration probe is below -60 dB. *)
Definition silent_or_invalid (audio_file : string) (w : world E) : Prop :=
  probed_duration float (duration_probe audio_file w) = None
  \/ (exists d, probed_duration float (duration_probe audio_file w) = Some d
                /\ (d == 0)%Q)
  \/ (exists c,
        volume_probe audio_file (after_duration_probe audio_file w) = Some c
        /\ reads_below float (-60) (Py.splitlines (stderr c))).

(** The outcome of the mux in [w]. *)
Definition mux_run (cfg : config) (w : world E)
  : option completed * gmap string string * E :=
  process
    (cmd_audio (temp_video (image_folder cfg)) (audio_file cfg)
       (output_file cfg))
    (files w) (outside w).

End Narration.

(** An event is one of the two probes of the narration. *)
Definition is_probe (audio_file : string) (e : event) : Prop :=
  exists o, e = Ran (cmd_probe_duration audio_file) o
            \/ e = Ran (cmd_volumedetect audio_file) o.

(** Reading the mean volume raises: a line is unreadable, and no line before
    it reads below the threshold or is unreadable itself. *)
Definition reading_raises (float : string -> option Q) (threshold : Q)
    (lines : list string) : Prop :=
  exists pre line post,
    lines = (pre ++ line :: post)%list
    /\ Forall (fun l => match read_mean_volume float l with
                        | NoReading => True
                        | Unreadable => False
                        | MeanVolume v => ~ (v < threshold)%Q
                        end) pre
    /\ read_mean_volume float line = Unreadable.

(** ** An example environment

    A small stand-in for the programs the script runs, to exercise the
    statements on concrete scenes.  The content of a media file is a line of
    words: its duration in seconds, then its mean volume in dB if it has
    sound. *)

Module Studio.

Definition digit (c : ascii) : option Z :=
  let n := nat_of_ascii c in
  if (48 <=? n)%nat && (n <=? 57)%nat then Some (Z.of_nat (n - 48)) else None.

Fixpoint read_digits (s : string) (acc : Z) : option Z :=
  match s with
  | "" => Some acc
  | String c rest =>
      match digit c with
      | Some d => read_digits rest (10 * acc + d)
      | None => None
      end
  end.

(** An unsigned decimal numeral such as [12] or [12.5]. *)
Definition read_decimal (s : string) : option Q :=
  match Py.split "." s with
  | [i] =>
      if String.eqb i "" then None
      else match read_digits i 0 with
           | Some a => Some (inject_Z a)
           | None => None
           end
  | [i; f] =>
      if String.eqb (i ++ f) "" then None
      else match read_digits i 0, read_digits f 0 with
           | Some a, Some b =>
               let scale := (10 ^ Z.of_nat (String.length f))%Z in
               Some (Qred (inject_Z (a * scale + b) / inject_Z scale))
           | _, _ => None
           end
  | _ => None
  end.

(** [float] on decimal numerals with an optional sign. *)
Definition float (s : string) : option Q :=
  match s with
  | String c rest =>
      if (nat_of_ascii c =? 45)%nat
      then match read_decimal rest with
           | Some q => Some (- q)%Q
           | None => None
           end
      else read_decimal s
  | "" => None
  end.

Definition json_duration (s : string) : option Q := float (Py.strip s).

Definition repr (q : Q) : string :=
  str_int (Qnum (Qred q)) ++ "/" ++ str_int (Z.pos (Qden (Qred q))).

(** The run works in [/work]. *)
Definition abspath (p : string) : string :=
  if String.prefix "/" p then p
  else if String.prefix "./" p then "/work/" ++ Py.slice_from 2 p
  else "/work/" ++ p.

Definition relative (p : string) : string :=
  if String.prefix "/work/" p then "./" ++ Py.slice_from 6 p else p.

Definition ends_with (suffix s : string) : bool :=
  String.prefix (String.rev suffix) (String.rev s).

(** [glob] for a pattern with one star, which stands for any characters
    other than a slash. *)
Definition glob (pattern : string) (fs : gmap string string) : list string :=
  match Py.split "*" pattern with
  | [pre; suf] =>
      filter
        (fun path =>
           String.prefix pre path && ends_with suf path
           && (String.length pre + String.length suf <=? String.length path)%nat
           && negb (Py.contains "/"
                      (Py.slice (String.length pre)
                         (String.length path - String.length suf) path)))
        (map fst (map_to_list fs))
  | _ => []
  end.

(** The files named after [-i] on a command line. *)
Fixpoint inputs_of (argv : list string) : list string :=
  match argv with
  | [] => []
  | a :: rest =>
      (if String.eqb a "-i" then option_list (head rest) else [])
      ++ inputs_of rest
  end%list.

Definition failed (message : string) : completed := Completed 1 "" message.

(** [ffprobe] prints the duration of the file named last; [ffmpeg] fails
    when an input is missing (looking up absolute paths from [/work]),
    prints the mean volume of its input when it
    analyses, and otherwise writes the file named last, with the content of
    its last input. *)
Definition process (argv : list string) (fs : gmap string string) (e : unit)
  : option completed * gmap string string * unit :=
  let target := default "" (last argv) in
  match argv with
  | "ffprobe" :: _ =>
      match fs !! target with
      | Some content =>
          (Some (Completed 0
                   (default "" (head (Py.split_ws content)) ++ newline) ""),
           fs, e)
      | None => (Some (failed "No such file or directory"), fs, e)
      end
  | "ffmpeg" :: _ =>
      match mapM (fun i => fs !! relative i) (inputs_of argv) with
      | None => (Some (failed "No such file or directory"), fs, e)
      | Some contents =>
          let content := default "" (last contents) in
          if String.eqb target "-" then
            (Some (Completed 0 ""
                     match Py.split_ws content with
                     | _ :: volume :: _ =>
                         "[Parsed_volumedetect_0 @ 0x0] mean_volume: "
                         ++ volume ++ " dB" ++ newline
                     | _ => ""
                     end),
             fs, e)
          else (Some (Completed 0 "" ""), <[target := content]> fs, e)
      end
  | _ => (None, fs, e)
  end.

Definition getmtime (path : string) (e : unit) : Q := 0.

Definition jamendo_tracks (client_id : string) (e : unit)
  : option (list track) * unit :=
  (Some [Track "calm" "https://example.org/calm.mp3"], e).

Definition download (url : string) (e : unit) : option string * unit :=
  (Some "200.0 -18.0", e).

(** A scene with three images and a narration of 12 seconds at -20 dB. *)
Definition scene : gmap string string :=
  list_to_map
    [("./static/scene_1/", "");
     ("./static/scene_1/beat_01.png", "image");
     ("./static/scene_1/beat_02.png", "image");
     ("./static/scene_1/beat_03.png", "image");
     ("./static/scene_1/speech.mp3", "12.0 -20.0")].

Definition cfg : config := configure (Some "./static/scene_1/").

Definition world_of (fs : gmap string string) : world unit :=
  World fs (rng_of [] []) tt.

Definition pipeline : Script unit unit :=
  pipeline repr float json_duration abspath glob process cfg.

Definition main : Script unit unit :=
  main repr float json_duration abspath glob getmtime process
    jamendo_tracks download (Some "id").

End Studio.

(** ** Of whole runs *)

(** Every run of [m] leaves a trace of events that satisfy [P]. *)
Definition traced {E A : Type} (P : event -> Prop) (m : Script E A) : Prop :=
  forall w, Forall P (m w).2.

(** The event is the rendering of a clip with the timing of a narration of
    [audio_duration] seconds over [num_images] images, or the report of its
    failure. *)
Definition clip_event (repr : Q -> string) (image_folder : string)
    (audio_duration : Q) (num_images : nat) (e : event) : Prop :=
  e = Printed ClipError
  \/ exists image_file m i o,
       e = Ran (cmd_clip repr image_file
                  (zoompan_filter repr m
                     (frames_per_image audio_duration num_images))
                  (time_per_image audio_duration num_images)
                  (temp_clip_path image_folder i)) o.

(** No run of [m] ends by [exit]. *)
Definition never_exits {E A : Type} (m : Script E A) : Prop :=
  forall w code, (m w).1.1 <> Exit code.

(** The event runs a process. *)
Definition is_run (e : event) : Prop := exists argv o, e = Ran argv o.

(** The event removes a file. *)
Definition is_removal (e : event) : Prop := exists path, e = Removed path.

(** The event is none of: the removal of a file, the report that cleanup
    is complete, a run of the mux. *)
Definition quiet (cfg : config) (e : event) : Prop :=
  match e with
  | Removed _ => False
  | Printed n => n <> CleanupComplete
  | Ran argv _ =>
      argv <> cmd_audio (temp_video (image_folder cfg)) (audio_file cfg)
                (output_file cfg)
  | Wrote _ _ => True
  end.

(** The clips of [n] images, in order. *)
Definition clips_of (image_folder : string) (n : nat) : list string :=
  map (temp_clip_path image_folder) (seq 0 n).

(** The run reported that cleanup is complete. *)
Definition cleaned_up (t : list event) : Prop := In (Printed CleanupComplete) t.

(** The mux was run and exited with status zero. *)
Definition mux_succeeded (cfg : config) (t : list event) : Prop :=
  exists c,
    In (Ran (cmd_audio (temp_video (image_folder cfg)) (audio_file cfg)
               (output_file cfg)) (Some c)) t
    /\ returncode c = 0%Z.

(** Every process can be started: [subprocess.run] does not raise. *)
Definition always_starts {E : Type}
    (process : list string -> gmap string string -> E ->
               option completed * gmap string string * E) : Prop :=
  forall argv fs e, is_Some (process argv fs e).1.1.

(** The law of cleanup, for a run of the script over [n] images that ended
    with [r] in [w] after the events [t]; [total] says that every process
    of the run could be started. *)
Definition cleanup_law {E : Type} (total : Prop) (cfg : config) (n : nat)
    (r : result unit) (w : world E) (t : list event) : Prop :=
  (cleaned_up t <-> r = Value tt /\ mux_succeeded cfg t)
  /\ (total -> mux_succeeded cfg t -> r = Value tt)
  /\ (cleaned_up t ->
      (forall clip, In clip (clips_of (image_folder cfg) n) ->
                    files w !! clip = None)
      /\ files w !! concat_file (image_folder cfg) = None)
  /\ (~ cleaned_up t -> Forall (fun e => ~ is_removal e) t)
  /\ ~ In (Removed (temp_video (image_folder cfg))) t.

(** ** Of the music mix *)

(** The event is a run of the mix that reads its video and narration from
    [input]. *)
Definition is_mix_of (input : string) (cfg : config) (e : event) : Prop :=
  exists trimmed_music o,
    e = Ran (mix_cmd input trimmed_music (final_output (image_folder cfg))) o.

(** The event is a run of the mix. *)
Definition is_mix (cfg : config) (e : event) : Prop :=
  exists input, is_mix_of input cfg e.

(** Every mix of the run reads the muxed video, [movie.mp4]. *)
Definition mixes_read_muxed_video (cfg : config) (t : list event) : Prop :=
  forall e, In e t -> is_mix cfg e -> is_mix_of (output_file cfg) cfg e.

(** Every mix of the run reads [movie_subtitled.mp4]. *)
Definition mixes_read_subtitled_output (cfg : config) (e : event) : Prop :=
  is_mix cfg e -> is_mix_of (subtitled_output (image_folder cfg)) cfg e.

(** The example scene with a music candidate and no subtitle file. *)
Definition scene_with_music : gmap string string :=
  <["./static/scene_1/music_calm.mp3" := "200.0 -18.0"]> Studio.scene.

(** Scenes for the examples: the clips of the three images, all or but the
    last; a narration without sound; a silent narration. *)
Definition two_clips : gmap string string :=
  <["./static/scene_1/temp_clip_01.mp4" := "4.0"]>
    (<["./static/scene_1/temp_clip_02.mp4" := "4.0"]> Studio.scene).

Definition three_clips : gmap string string :=
  <["./static/scene_1/temp_clip_03.mp4" := "4.0"]> two_clips.

Definition scene_without_volume : gmap string string :=
  <["./static/scene_1/speech.mp3" := "12.0"]> Studio.scene.

Definition scene_with_silence : gmap string string :=
  <["./static/scene_1/speech.mp3" := "12.0 -91.0"]> Studio.scene.

(** * Further vocabulary *)

(** ** Of the pan and of the zoom *)

(** After the nudge and the clamp, the pan along an axis moves by at least
    0.1, or it started within 0.1 of the bound it was nudged toward and ends
    on that bound. *)
Definition moves_or_clamped (start end_ : Q) : Prop :=
  (0.1 <= Qabs (end_ - start)
   \/ (0.2 < start /\ end_ == 0.3)
   \/ (start < 0.1 /\ end_ == 0))%Q.

(** Draws on which both pans start at 0.15 and first end right there. *)
Definition central_draws : Rng.state :=
  rng_of [0.5; 0.5; 0.5; 0.5; 0.5; 0.5]%Q [0; 1; 0; 2]%nat.

(** ** Of the stages *)

(** The command lines a run started, in order. *)
Fixpoint commands (t : list event) : list (list string) :=
  match t with
  | [] => []
  | Ran argv _ :: rest => argv :: commands rest
  | _ :: rest => commands rest
  end.

(** The image a clip command reads and the clip it writes (lines 185 and
    191 of the command of lines 181-192). *)
Definition clip_input (argv : list string) : string := nth 5 argv "".
Definition clip_output (argv : list string) : string := default "" (last argv).

(** A stand-in for the encoder that fails on every image. *)
Definition failing_process (argv : list string) (fs : gmap string string)
    (e : unit) : option completed * gmap string string * unit :=
  (Some (Studio.failed "Invalid data found when processing input"), fs, e).

(** The world after a process was run in [w]. *)
Definition world_after {E : Type}
    (process : list string -> gmap string string -> E ->
               option completed * gmap string string * E)
    (argv : list string) (w : world E) : world E :=
  let o := process argv (files w) (outside w) in World o.1.2 (rng w) o.2.

(** The outcome of a process run in [w]. *)
Definition outcome_of {E : Type}
    (process : list string -> gmap string string -> E ->
               option completed * gmap string string * E)
    (argv : list string) (w : world E) : option completed :=
  (process argv (files w) (outside w)).1.1.

(** The example scene with a subtitle file. *)
Definition scene_with_subtitles : gmap string string :=
  <["./static/scene_1/speech.srt" := "cues"]>
    (<["./static/scene_1/movie.mp4" := "12.0 -20.0"]> Studio.scene).

(** * Properties *)

(** ** Strings *)

Lemma append_assoc (a b c : string) : (a ++ b) ++ c = a ++ (b ++ c).
Proof.
  induction a as [|ch a IH]; [reflexivity|].
  change (String ch ((a ++ b) ++ c) = String ch (a ++ (b ++ c))).
  now rewrite IH.
Qed.

Example str_int_1 : str_int 1 = "1".
Proof. reflexivity. Qed.

Example str_int_2 : str_int 2 = "2".
Proof. reflexivity. Qed.

(** The emitted texts are the renderings of the syntax trees. *)
Lemma zoom_expr_render repr m d :
  zoom_expr repr m d = "'" ++ render (zoom_curve repr m d) ++ "'".
Proof.
  unfold zoom_expr, zoom_curve, zoom_denominator, lit_float, lit_int.
  cbn [render]. rewrite str_int_1, str_int_2.
  cbn [String.append]. rewrite !append_assoc. reflexivity.
Qed.

Lemma pan_expr_render repr a b d :
  pan_expr repr a b d = "'" ++ render (pan_curve repr a b d) ++ "'".
Proof.
  unfold pan_expr, pan_curve, lit_float, lit_int.
  cbn [render]. cbn [String.append]. rewrite !append_assoc. reflexivity.
Qed.

(** ** The helpers on small inputs *)

Example int_of_float_down : int_of_float (7 # 2) = 3%Z.
Proof. reflexivity. Qed.

Example int_of_float_up : int_of_float (- (7 # 2)) = (-3)%Z.
Proof. reflexivity. Qed.

Example fmt_02d_pads : fmt_02d 3 = "03" /\ fmt_02d 12 = "12" /\ fmt_02d 123 = "123".
Proof. repeat split; reflexivity. Qed.

Example split_ends : Py.split "," "a,b," = ["a"; "b"; ""].
Proof. reflexivity. Qed.

Example split_ws_runs : Py.split_ws "  -27.3 dB  " = ["-27.3"; "dB"].
Proof. reflexivity. Qed.

Example replace_all : Py.replace "dB" "" "-27.3dB" = "-27.3".
Proof. reflexivity. Qed.

Example splitlines_breaks :
  Py.splitlines ("a" ++ String (ascii_of_nat 13) newline ++ "b" ++ newline
                 ++ newline ++ "c" ++ newline)
  = ["a"; "b"; ""; "c"].
Proof. reflexivity. Qed.

Example path_join_cases :
  Py.path_join "./static/scene_1/" "movie.mp4" = "./static/scene_1/movie.mp4"
  /\ Py.path_join "static" "movie.mp4" = "static/movie.mp4"
  /\ Py.path_join "" "movie.mp4" = "movie.mp4"
  /\ Py.path_join "static" "/tmp/movie.mp4" = "/tmp/movie.mp4".
Proof. repeat split; reflexivity. Qed.

Example subtitle_filter_arg_drive :
  subtitle_filter_arg (fun p => "C:\scene\" ++ p) "speech.srt"
  = "subtitles='C\:/scene/speech.srt'".
Proof. reflexivity. Qed.

Example read_mean_volume_line :
  read_mean_volume Studio.float
    "[Parsed_volumedetect_0 @ 0x55d] mean_volume: -27.3 dB"
  = MeanVolume (- (273 # 10))
  /\ read_mean_volume Studio.float "[Parsed_volumedetect_0 @ 0x55d] max_volume: -5.0 dB"
     = NoReading
  /\ read_mean_volume Studio.float "mean_volume: n/a" = Unreadable
  /\ read_mean_volume Studio.float "mean_volume:" = Unreadable.
Proof. repeat split; reflexivity. Qed.

Example generate_random_zoompan_text :
  fst (generate_random_zoompan Studio.repr 100 (rng_of [] []))
  = "zoompan=z='if(lte(on,1),6/5,6/5+(1/1-6/5)*pow((on-1)/(100-1),2))':x=iw*'0/1+(1/5-0/1)*pow(on/100,1.5)':y=ih*'0/1+(1/5-0/1)*pow(on/100,1.5)':d=100:s=768x1280".
Proof. reflexivity. Qed.

(** ** The synthesizer *)

Lemma Qlt_bool_iff a b : Qlt_bool a b = true <-> (a < b)%Q.
Proof.
  unfold Qlt_bool. rewrite negb_true_iff.
  destruct (Qle_bool b a) eqn:E.
  - apply Qle_bool_iff in E. split; [discriminate | intros H; exfalso; lra].
  - split; [intros _ | reflexivity].
    apply Qnot_le_lt. intros H. apply Qle_bool_iff in H. congruence.
Qed.

Lemma ensures_ret {A} (a : A) (P : A -> Prop) : P a -> ensures (Rng.ret a) P.
Proof. intros HP s Hs. split; assumption. Qed.

Lemma ensures_bind {A B} (m : Rand A) (k : A -> Rand B) P Q :
  ensures m P -> (forall a, P a -> ensures (k a) Q) -> ensures (Rng.bind m k) Q.
Proof.
  intros Hm Hk s Hs. unfold Rng.bind.
  destruct (Hm s Hs) as [Ha Hs']. destruct (m s) as [a s']. cbn in *.
  exact (Hk a Ha s' Hs').
Qed.

Lemma ensures_uniform a b :
  (a <= b)%Q -> ensures (uniform a b) (fun x => a <= x /\ x <= b)%Q.
Proof.
  intros Hab s Hs. cbn. split; [|exact Hs].
  destruct (Hs (fpos s)) as [H0 H1].
  split; nra.
Qed.

Lemma ensures_choice {A} (x : A) xs : ensures (choice x xs) (fun _ => True).
Proof. intros s Hs. split; [exact I | exact Hs]. Qed.

Lemma ensures_ensure_movement a b :
  (0 <= b /\ b <= 0.3)%Q ->
  ensures (ensure_movement a b) (fun x => 0 <= x /\ x <= 0.3)%Q.
Proof.
  intros Hb. unfold ensure_movement.
  destruct (Qlt_bool (Qabs (b - a)) 0.1).
  - eapply ensures_bind; [apply ensures_choice|].
    intros up _. apply ensures_ret. split.
    + apply Q.le_max_l.
    + apply Q.max_lub; [lra | apply Q.le_min_l].
  - apply ensures_ret. exact Hb.
Qed.

(** The first part of the effect invariant holds on every run: both zoom
    factors lie in [1, 1.5] and the four pan coordinates in [0, 0.3]. *)
Lemma draw_motion_in_ranges : ensures draw_motion in_ranges.
Proof.
  unfold draw_motion.
  eapply ensures_bind; [apply (ensures_uniform 1.0 1.4); lra|]. intros zs Hzs.
  eapply ensures_bind; [apply (ensures_uniform 1.2 1.5); lra|]. intros ze Hze.
  eapply ensures_bind; [apply ensures_choice|]. intros swap _.
  assert (Hz : forall z1 z2, (if swap then (ze, zs) else (zs, ze)) = (z1, z2) ->
             (1 <= z1 /\ z1 <= 1.5)%Q /\ (1 <= z2 /\ z2 <= 1.5)%Q).
  { intros z1 z2 Heq. destruct swap; inversion Heq; subst; split; lra. }
  destruct (if swap then (ze, zs) else (zs, ze)) as [z1 z2].
  destruct (Hz z1 z2 eq_refl) as [Hz1 Hz2].
  eapply ensures_bind; [apply (ensures_uniform 0 0.3); lra|]. intros xs Hxs.
  eapply ensures_bind; [apply (ensures_uniform 0 0.3); lra|]. intros ys Hys.
  eapply ensures_bind; [apply (ensures_uniform 0 0.3); lra|]. intros xe Hxe.
  eapply ensures_bind; [apply (ensures_uniform 0 0.3); lra|]. intros ye Hye.
  eapply ensures_bind; [apply ensures_ensure_movement; exact Hxe|]. intros xe' Hxe'.
  eapply ensures_bind; [apply ensures_ensure_movement; exact Hye|]. intros ye' Hye'.
  apply ensures_ret. unfold in_ranges. cbn [zoom_start zoom_end x_start y_start x_end y_end].
  cbv beta in *. tauto.
Qed.

Lemma clamped_draws_unit : unit_floats clamped_draws.
Proof.
  intros i. unfold clamped_draws, rng_of. cbn [floats].
  do 6 (destruct i as [|i]; [cbn; split; lra|]).
  destruct i; cbn; split; lra.
Qed.

Lemma still_draws_unit : unit_floats still_draws.
Proof.
  intros i. unfold still_draws, rng_of. cbn [floats].
  do 6 (destruct i as [|i]; [cbn; split; lra|]).
  destruct i; cbn; split; lra.
Qed.

(** C1. The effect invariant as a whole fails on runs of the synthesizer,
    although every value is within its range.  With pan x drawn as 0.25
    then 0.28 and the nudge going up, the end is clamped to 0.3: the two
    differ by 0.05 < 0.1.  With pan x drawn as 0 then 0.05 and the nudge
    going down, the end is clamped to 0: there is no movement along x. *)
Theorem generate_random_zoompan_clamped_nudge :
  (unit_floats clamped_draws
   /\ in_ranges (fst (draw_motion clamped_draws))
   /\ (x_start (fst (draw_motion clamped_draws)) == 0.25)%Q
   /\ (x_end (fst (draw_motion clamped_draws)) == 0.3)%Q
   /\ ~ moves (fst (draw_motion clamped_draws)))
  /\ (unit_floats still_draws
      /\ in_ranges (fst (draw_motion still_draws))
      /\ (x_start (fst (draw_motion still_draws)) == 0)%Q
      /\ (x_end (fst (draw_motion still_draws)) == 0)%Q
      /\ ~ moves (fst (draw_motion still_draws))).
Proof.
  split.
  - split; [exact clamped_draws_unit|].
    split; [apply draw_motion_in_ranges, clamped_draws_unit|].
    split; [reflexivity|]. split; [reflexivity|].
    intros [Hx _]. revert Hx. vm_compute. intros H. apply H. reflexivity.
  - split; [exact still_draws_unit|].
    split; [apply draw_motion_in_ranges, still_draws_unit|].
    split; [reflexivity|]. split; [reflexivity|].
    intros [Hx _]. revert Hx. vm_compute. intros H. apply H. reflexivity.
Qed.
(** C6. The expressions emitted for a clip are the concrete syntax of the
    motion curves, and these compute: for the zoom, [zoom_start] while the
    frame number is at most 1 and otherwise
    [zoom_start + (zoom_end - zoom_start) * ((on-1)/(D-1))^2]; for each pan
    coordinate, [start + (end - start) * pow(on/D, 1.5)]. *)
Theorem motion_curves_follow_formulas
    (repr : Q -> string) (rpow : Q -> Q -> Q) (m : motion) (D : Z) (on : Q) :
  zoompan_filter repr m D =
    "zoompan=z=" ++ zoom_expr repr m D
    ++ ":x=iw*" ++ pan_expr repr (x_start m) (x_end m) D
    ++ ":y=ih*" ++ pan_expr repr (y_start m) (y_end m) D
    ++ ":d=" ++ str_int D ++ ":s=768x1280"
  /\ zoom_expr repr m D = "'" ++ render (zoom_curve repr m D) ++ "'"
  /\ pan_expr repr (x_start m) (x_end m) D =
       "'" ++ render (pan_curve repr (x_start m) (x_end m) D) ++ "'"
  /\ pan_expr repr (y_start m) (y_end m) D =
       "'" ++ render (pan_curve repr (y_start m) (y_end m) D) ++ "'"
  /\ eval rpow on (zoom_curve repr m D) =
       (if Qle_bool on 1 then zoom_start m
        else zoom_start m
             + (zoom_end m - zoom_start m)
               * ((on - 1) / (inject_Z D - 1)) ^ 2)%Q
  /\ eval rpow on (pan_curve repr (x_start m) (x_end m) D) =
       (x_start m + (x_end m - x_start m) * rpow (on / inject_Z D) 1.5)%Q
  /\ eval rpow on (pan_curve repr (y_start m) (y_end m) D) =
       (y_start m + (y_end m - y_start m) * rpow (on / inject_Z D) 1.5)%Q.
Proof.
  split; [reflexivity|].
  split; [apply zoom_expr_render|].
  split; [apply pan_expr_render|].
  split; [apply pan_expr_render|].
  split; [|split; reflexivity].
  unfold zoom_curve, zoom_denominator, lit_float, lit_int. cbn [eval].
  change (inject_Z 1) with 1%Q.
  destruct (Qle_bool on 1); reflexivity.
Qed.

Lemma stable_ret {A} (a : A) : stable (Rng.ret a).
Proof.
  split; [intros s; cbn; lia|].
  intros k s1 s2 H _. split; [reflexivity | exact H].
Qed.

Lemma stable_bind {A B} (m : Rand A) (k : A -> Rand B) :
  stable m -> (forall a, stable (k a)) -> stable (Rng.bind m k).
Proof.
  intros [Hm1 Hm2] Hk. split.
  - intros s. unfold Rng.bind. specialize (Hm1 s).
    destruct (m s) as [a s']. cbn in *.
    destruct (Hk a) as [Hk1 _]. specialize (Hk1 s'). lia.
  - intros n s1 s2 Hs Hle. unfold Rng.bind in *.
    specialize (Hm2 n s1 s2 Hs).
    destruct (m s1) as [a1 s1'], (m s2) as [a2 s2']. cbn in *.
    destruct (Hk a1) as [Hk1 Hk2].
    assert (Hle' : (ipos s1' <= n)%nat) by (specialize (Hk1 s1'); lia).
    destruct (Hm2 Hle') as [<- Hs'].
    exact (Hk2 n s1' s2' Hs' Hle).
Qed.

Lemma stable_random : stable random.
Proof.
  split; [intros s; cbn; lia|].
  intros k s1 s2 (Hf & Hfp & Hip & Hp) _. cbn.
  split; [rewrite Hfp; apply Hf|].
  repeat split; cbn; auto.
Qed.

Lemma stable_randbelow n : stable (randbelow n).
Proof.
  split; [intros s; cbn; lia|].
  intros k s1 s2 (Hf & Hfp & Hip & Hp) Hle. cbn in *.
  split; [rewrite <- Hip, Hp by lia; reflexivity|].
  repeat split; cbn; auto.
Qed.

Lemma stable_uniform a b : stable (uniform a b).
Proof.
  apply stable_bind; [apply stable_random | intros; apply stable_ret].
Qed.

Lemma stable_choice {A} (x : A) xs : stable (choice x xs).
Proof.
  apply stable_bind; [apply stable_randbelow | intros; apply stable_ret].
Qed.

Lemma stable_ensure_movement a b : stable (ensure_movement a b).
Proof.
  unfold ensure_movement. destruct (Qlt_bool _ _).
  - apply stable_bind; [apply stable_choice | intros; apply stable_ret].
  - apply stable_ret.
Qed.

Lemma stable_draw_motion : stable draw_motion.
Proof.
  unfold draw_motion.
  apply stable_bind; [apply stable_uniform | intros zs].
  apply stable_bind; [apply stable_uniform | intros ze].
  apply stable_bind; [apply stable_choice | intros swap].
  destruct (if swap then (ze, zs) else (zs, ze)) as [z1 z2].
  do 4 (apply stable_bind; [apply stable_uniform | intros ?]).
  do 2 (apply stable_bind; [apply stable_ensure_movement | intros ?]).
  apply stable_ret.
Qed.

Lemma generate_random_zoompan_filter repr D s :
  fst (generate_random_zoompan repr D s) = zoompan_filter repr (fst (draw_motion s)) D.
Proof.
  unfold generate_random_zoompan, Rng.bind. destruct (draw_motion s) as [m s'].
  reflexivity.
Qed.

(** C7. Two runs on the same frame count whose draws agree everywhere but
    at the pick that chooses the easing return the same filter. *)
Theorem zoompan_filter_ignores_easing
    (repr : Q -> string) (D : Z) (s1 s2 : Rng.state) :
  (forall i, floats s1 i = floats s2 i) ->
  fpos s1 = fpos s2 ->
  ipos s1 = ipos s2 ->
  (forall i, i <> easing_pick s1 -> picks s1 i = picks s2 i) ->
  fst (generate_random_zoompan repr D s1) = fst (generate_random_zoompan repr D s2).
Proof.
  intros Hf Hfp Hip Hp.
  rewrite !generate_random_zoompan_filter.
  destruct stable_draw_motion as [_ H].
  destruct (H (easing_pick s1) s1 s2) as [-> _]; [|unfold easing_pick; lia|reflexivity].
  repeat split; auto. intros i Hi. apply Hp. lia.
Qed.

Lemma zoompan_filter_ignores_easing_witness :
  let s1 := rng_of [0.5; 0.5; 5 # 6; 0.5; 14 # 15; 0.1]%Q [1; 0; 0]%nat in
  let s2 := rng_of [0.5; 0.5; 5 # 6; 0.5; 14 # 15; 0.1]%Q [1; 0; 3]%nat in
  picks s1 (easing_pick s1) <> picks s2 (easing_pick s1)
  /\ fst (generate_random_zoompan (fun _ => "q") 50 s1)
     = fst (generate_random_zoompan (fun _ => "q") 50 s2).
Proof.
  intros s1 s2. split; [vm_compute; discriminate|].
  apply (zoompan_filter_ignores_easing (fun _ => "q") 50 s1 s2).
  - reflexivity.
  - reflexivity.
  - reflexivity.
  - intros i Hi. change (easing_pick s1) with 2%nat in Hi.
    destruct i as [|[|[|i]]]; [reflexivity | reflexivity | congruence |].
    unfold s1, s2, rng_of. cbn [picks].
    destruct i; reflexivity.
Defined.

(** ** The concatenation stage *)

Arguments Py.path_join : simpl never.
Arguments temp_video : simpl never.
Arguments concat_file : simpl never.
Arguments subtitled_output : simpl never.
Arguments final_output : simpl never.
Arguments temp_clip_path : simpl never.
Arguments cmd_clip : simpl never.
Arguments cmd_concat : simpl never.
Arguments cmd_audio : simpl never.
Arguments verify_cmd : simpl never.
Arguments cmd_sub : simpl never.
Arguments trim_cmd : simpl never.
Arguments mix_cmd : simpl never.
Arguments cmd_probe_duration : simpl never.
Arguments cmd_volumedetect : simpl never.
Arguments cmd_ffprobe_json : simpl never.
Arguments subtitle_filter_arg : simpl never.
Arguments manifest : simpl never.

Lemma manifest_cons abspath clip clips :
  manifest abspath (clip :: clips)
  = ("file '" ++ abspath clip ++ "'" ++ newline) ++ manifest abspath clips.
Proof.
  unfold manifest. cbn [map String.concat].
  destruct (map _ clips) eqn:E.
  - cbn [String.concat]. generalize ("file '" ++ abspath clip ++ "'" ++ newline).
    intros s. induction s as [|c s IH]; [reflexivity|].
    change (String c s = String c (s ++ "")). now rewrite <- IH.
  - reflexivity.
Qed.

(** C3. If some listed clip does not exist, the concatenation stage exits
    with status 1, having only reported the absent paths: no process was
    run and the world, hence [temp_video.mp4], is as it was.  If all exist,
    it writes the manifest, one [file '<absolute path>'] line per clip in
    order, and runs the encoder on it, re-encoding the video with libx264
    and no audio into [temp_video.mp4]. *)
Theorem concat_stage_checks_clips {E : Type} (abspath : string -> string)
    (process : list string -> gmap string string -> E ->
               option completed * gmap string string * E)
    (image_folder : string) (temp_clips : list string) (w : world E) :
  let missing := filter (fun clip => files w !! clip = None) temp_clips in
  (missing <> [] ->
   concat_stage abspath process image_folder temp_clips w
   = (Exit 1, w, [Printed (MissingClips missing)]))
  /\ (missing = [] ->
      let text := manifest abspath temp_clips in
      let argv := cmd_concat abspath image_folder in
      let w1 := World (<[concat_file image_folder := text]> (files w))
                  (rng w) (outside w) in
      exists r w' rest,
        concat_stage abspath process image_folder temp_clips w
        = (r, w',
           Wrote (concat_file image_folder) text
           :: Ran argv (process argv (files w1) (outside w1)).1.1 :: rest)
        /\ Forall (fun e => exists n, e = Printed n) rest)
  /\ cmd_concat abspath image_folder
     = ["ffmpeg"; "-y"; "-f"; "concat"; "-safe"; "0";
        "-i"; abspath (concat_file image_folder);
        "-c:v"; "libx264"; "-preset"; "fast"; "-pix_fmt"; "yuv420p";
        temp_video image_folder]
  /\ manifest abspath [] = ""
  /\ (forall clip clips,
        manifest abspath (clip :: clips)
        = ("file '" ++ abspath clip ++ "'" ++ newline) ++ manifest abspath clips).
Proof.
  intros missing.
  split; [|split; [|split; [reflexivity | split; [reflexivity | apply manifest_cons]]]].
  - intros Hm. unfold concat_stage, bind, find_missing_clips.
    fold missing. destruct missing as [|c cs]; [congruence|]. reflexivity.
  - intros Hm text argv w1. unfold concat_stage, bind, find_missing_clips.
    fold missing. rewrite Hm. cbn [write_file app]. fold text argv w1.
    unfold subprocess_run.
    destruct (process argv (files w1) (outside w1)) as [[[c|] fs] e]; cbn.
    + destruct (returncode c =? 0)%Z; cbn.
      * destruct (bool_decide _); cbn; eauto 10.
      * eauto 10.
    + eauto 10.
Qed.

(** ** The narration check and the mux *)

Section NarrationFacts.

Context {E : Type}.
Variable float : string -> option Q.
Variable process :
  list string -> gmap string string -> E ->
  option completed * gmap string string * E.

Lemma scan_mean_volume_below lines :
  scan_mean_volume float lines = Some true <-> reads_below float (-60) lines.
Proof.
  split.
  - induction lines as [|l rest IH]; cbn; [discriminate|].
    destruct (read_mean_volume float l) as [| |v] eqn:R.
    + intros H. destruct (IH H) as (pre & line & post & x & -> & Hp & Hl & Hx).
      exists (l :: pre), line, post, x. repeat split; auto.
      constructor; [congruence | exact Hp].
    + discriminate.
    + destruct (Qlt_bool v (-60)) eqn:B.
      * intros _. exists [], l, rest, v. repeat split; auto.
        now apply Qlt_bool_iff.
      * intros H. destruct (IH H) as (pre & line & post & x & -> & Hp & Hl & Hx).
        exists (l :: pre), line, post, x. repeat split; auto.
        constructor; [congruence | exact Hp].
  - intros (pre & line & post & x & -> & Hp & Hl & Hx).
    induction Hp as [|l pre Hl' Hp IH]; cbn.
    + rewrite Hl. apply Qlt_bool_iff in Hx. now rewrite Hx.
    + destruct (read_mean_volume float l) as [| |v]; [exact IH | congruence |].
      destruct (Qlt_bool v (-60)); [reflexivity | exact IH].
Qed.

Lemma scan_mean_volume_no_reading lines :
  no_reading float lines -> scan_mean_volume float lines = Some false.
Proof.
  induction 1 as [|l rest Hl _ IH]; cbn; [reflexivity|].
  now rewrite Hl.
Qed.

(** What [is_audio_silent] does, step by step. *)
Lemma is_audio_silent_run audio_file (w : world E) :
  let o1 := duration_probe process audio_file w in
  let w1 := after_duration_probe process audio_file w in
  let o2 := volume_probe process audio_file w1 in
  let w2 := after_volume_probe process audio_file w1 in
  let ran1 := Ran (cmd_probe_duration audio_file) o1 in
  let ran2 := Ran (cmd_volumedetect audio_file) o2 in
  is_audio_silent float process audio_file w
  = match probed_duration float o1 with
    | None => (Value true, w1, [ran1])
    | Some d =>
        if Qeq_bool d 0 then (Value true, w1, [ran1])
        else
          (Value
             match o2 with
             | Some c =>
                 match scan_mean_volume float (Py.splitlines (stderr c)) with
                 | Some verdict => verdict
                 | None => false
                 end
             | None => false
             end,
           w2, [ran1; ran2])
    end.
Proof.
  intros o1 w1 o2 w2 ran1 ran2.
  subst o1 w1 o2 w2 ran1 ran2.
  unfold is_audio_silent, duration_is_zero_or_unreadable,
    volume_is_below_threshold, duration_probe, after_duration_probe,
    volume_probe, after_volume_probe, bind, try_except, subprocess_run,
    probed_duration.
  destruct (process (cmd_probe_duration audio_file) (files w) (outside w))
    as [[[c1|] fs1] e1]; cbn; [|reflexivity].
  destruct (float (Py.strip (stdout c1))) as [d|]; cbn; [|reflexivity].
  destruct (Qeq_bool d 0); cbn; [reflexivity|].
  destruct (process (cmd_volumedetect audio_file) fs1 e1)
    as [[[c2|] fs2] e2]; cbn; [|reflexivity].
  destruct (scan_mean_volume float (Py.splitlines (stderr c2))) as [v|];
    reflexivity.
Qed.

End NarrationFacts.

Section MuxFacts.

Context {E : Type}.
Variable float : string -> option Q.
Variable process :
  list string -> gmap string string -> E ->
  option completed * gmap string string * E.

(** [is_audio_silent] always returns, after running probes only, and its
    verdict is the classification of the description. *)
Lemma is_audio_silent_verdict audio_file (w : world E) :
  exists silent w1 probes,
    is_audio_silent float process audio_file w = (Value silent, w1, probes)
    /\ Forall (is_probe audio_file) probes
    /\ (silent = true <-> silent_or_invalid float process audio_file w).
Proof.
  pose proof (is_audio_silent_run float process audio_file w) as Hrun.
  cbv zeta in Hrun. unfold silent_or_invalid.
  set (o1 := duration_probe process audio_file w) in *.
  set (w1 := after_duration_probe process audio_file w) in *.
  set (o2 := volume_probe process audio_file w1) in *.
  assert (P1 : is_probe audio_file (Ran (cmd_probe_duration audio_file) o1))
    by (exists o1; now left).
  assert (P2 : is_probe audio_file (Ran (cmd_volumedetect audio_file) o2))
    by (exists o2; now right).
  destruct (probed_duration float o1) as [d|] eqn:Hd.
  - destruct (Qeq_bool d 0) eqn:Hz.
    + eexists _, _, _. split; [exact Hrun|]. split; [auto|].
      split; [intros _|reflexivity].
      right; left. exists d. split; [reflexivity | now apply Qeq_bool_iff].
    + eexists _, _, _. split; [exact Hrun|]. split; [auto|].
      split.
      * intros Hv. right; right.
        destruct o2 as [c|]; [|discriminate]. exists c. split; [reflexivity|].
        apply scan_mean_volume_below.
        destruct (scan_mean_volume float _) as [v|]; congruence.
      * intros [H|[(d' & H & H0)|(c & Hc & Hb)]]; [discriminate| |].
        -- injection H as <-. apply Qeq_bool_iff in H0. congruence.
        -- rewrite Hc. apply scan_mean_volume_below in Hb. now rewrite Hb.
  - eexists _, _, _. split; [exact Hrun|]. split; [auto|].
    split; [intros _; now left | reflexivity].
Qed.

(** The three ways of the mux stage. *)
Lemma mux_stage_cases (cfg : config) (w : world E) :
  exists silent w1 probes,
    is_audio_silent float process (audio_file cfg) w
    = (Value silent, w1, probes)
    /\ Forall (is_probe (audio_file cfg)) probes
    /\ (silent = true <-> silent_or_invalid float process (audio_file cfg) w)
    /\ (silent = true ->
        mux_stage float process cfg w
        = (Exit 1, w1, probes ++ [Printed AudioSilentOrInvalid])%list)
    /\ (silent = false -> files w1 !! audio_file cfg = None ->
        mux_stage float process cfg w
        = (Exit 1, w1, probes ++ [Printed AudioNotFound])%list)
    /\ (silent = false -> is_Some (files w1 !! audio_file cfg) ->
        let o := mux_run process cfg w1 in
        mux_stage float process cfg w
        = (match o.1.1 with Some c => Value c | None => Raised end,
           World o.1.2 (rng w1) o.2,
           probes
           ++ [Ran (cmd_audio (temp_video (image_folder cfg))
                      (audio_file cfg) (output_file cfg)) o.1.1])%list).
Proof.
  destruct (is_audio_silent_verdict (audio_file cfg) w)
    as (silent & w1 & probes & Hrun & Hp & Hiff).
  exists silent, w1, probes. split; [exact Hrun|]. split; [exact Hp|].
  split; [exact Hiff|].
  unfold mux_stage, bind. rewrite Hrun.
  split; [|split].
  + intros ->. reflexivity.
  + intros -> Hnone. cbn. rewrite Hnone.
    rewrite bool_decide_eq_false_2 by (intros [? ?]; discriminate).
    reflexivity.
  + intros -> Hsome. cbn.
    rewrite bool_decide_eq_true_2 by exact Hsome. cbn.
    unfold subprocess_run, mux_run.
    destruct (process _ (files w1) (outside w1)) as [[[c|] fs] e];
      cbn; rewrite ?app_nil_r; reflexivity.
Qed.

End MuxFacts.

(** C4. The narration is classified as silent or invalid exactly when its
    probed duration is unreadable or zero or its measured mean volume is
    below -60 dB.  Then the stage exits with status 1 after the probes,
    without running the mux.  Otherwise, the narration file being there, it
    runs the mux: video copied, audio to AAC at 128k, two channels, 44100 Hz,
    cut to the shorter input.  The check of the audio stream of the result
    never exits: a missing stream is only reported. *)
Theorem mux_stage_silence_check {E : Type} (float : string -> option Q)
    (process : list string -> gmap string string -> E ->
               option completed * gmap string string * E)
    (cfg : config) (w : world E) :
  (exists silent w1 probes,
     is_audio_silent float process (audio_file cfg) w
     = (Value silent, w1, probes)
     /\ Forall (is_probe (audio_file cfg)) probes
     /\ (silent = true <-> silent_or_invalid float process (audio_file cfg) w)
     /\ (silent = true ->
         mux_stage float process cfg w
         = (Exit 1, w1, probes ++ [Printed AudioSilentOrInvalid])%list)
     /\ (silent = false -> files w1 !! audio_file cfg = None ->
         mux_stage float process cfg w
         = (Exit 1, w1, probes ++ [Printed AudioNotFound])%list)
     /\ (silent = false -> is_Some (files w1 !! audio_file cfg) ->
         let o := mux_run process cfg w1 in
         mux_stage float process cfg w
         = (match o.1.1 with Some c => Value c | None => Raised end,
            World o.1.2 (rng w1) o.2,
            probes
            ++ [Ran (cmd_audio (temp_video (image_folder cfg))
                       (audio_file cfg) (output_file cfg)) o.1.1])%list))
  /\ cmd_audio (temp_video (image_folder cfg)) (audio_file cfg) (output_file cfg)
     = ["ffmpeg"; "-y"; "-i"; temp_video (image_folder cfg);
        "-i"; audio_file cfg; "-map"; "0:v:0"; "-map"; "1:a:0";
        "-c:v"; "copy"; "-c:a"; "aac"; "-b:a"; "128k"; "-ac"; "2";
        "-ar"; "44100"; "-shortest"; output_file cfg]
  /\ (forall w' : world E,
        let o := process (verify_cmd (output_file cfg)) (files w') (outside w') in
        exists r w'' t,
          verify_audio process (output_file cfg) w' = (r, w'', t)
          /\ (forall code, r <> Exit code)
          /\ (forall c, o.1.1 = Some c ->
                returncode c <> 0%Z \/ Py.strip (stdout c) = "" ->
                r = Value tt
                /\ t = [Ran (verify_cmd (output_file cfg)) (Some c);
                        Printed AudioStreamNotDetected])).
Proof.
  split; [|split; [reflexivity|]].
  - apply mux_stage_cases.
  - intros w' o. unfold verify_audio, bind, subprocess_run. subst o.
    destruct (process _ (files w') (outside w')) as [[[c|] fs] e]; cbn.
    + destruct ((returncode c =? 0)%Z && negb (String.eqb (Py.strip (stdout c)) ""))
        eqn:Hok; cbn.
      * eexists _, _, _. split; [reflexivity|]. split; [discriminate|].
        intros c' [= <-] Hbad. exfalso.
        apply andb_true_iff in Hok as [H1 H2].
        apply Z.eqb_eq in H1. apply negb_true_iff in H2.
        apply String.eqb_neq in H2. tauto.
      * eexists _, _, _. split; [reflexivity|]. split; [discriminate|].
        intros c' [= <-] _. split; reflexivity.
    + eexists _, _, _. split; [reflexivity|]. split; [discriminate|].
      intros c' [=].
Qed.

Lemma scan_mean_volume_raises float lines :
  reading_raises float (-60) lines -> scan_mean_volume float lines = None.
Proof.
  intros (pre & line & post & -> & Hp & Hl).
  induction Hp as [|l pre Hl' Hp IH]; cbn.
  - now rewrite Hl.
  - destruct (read_mean_volume float l) as [| |v]; [exact IH | contradiction |].
    destruct (Qlt_bool v (-60)) eqn:B; [|exact IH].
    apply Qlt_bool_iff in B. contradiction.
Qed.

(** C10. When the duration probe reads a non-zero duration and the volume
    analysis cannot be run, or reading its mean volume raises, or it has no
    mean-volume line, [is_audio_silent] returns [False]; the stage then runs
    the mux (the narration file being there). *)
Theorem is_audio_silent_lenient {E : Type} (float : string -> option Q)
    (process : list string -> gmap string string -> E ->
               option completed * gmap string string * E)
    (cfg : config) (w : world E) (d : Q) :
  let audio := audio_file cfg in
  let w1 := after_duration_probe process audio w in
  let w2 := after_volume_probe process audio w1 in
  let probes := [Ran (cmd_probe_duration audio) (duration_probe process audio w);
                 Ran (cmd_volumedetect audio) (volume_probe process audio w1)] in
  probed_duration float (duration_probe process audio w) = Some d ->
  ~ (d == 0)%Q ->
  volume_probe process audio w1 = None
  \/ (exists c, volume_probe process audio w1 = Some c
                /\ (reading_raises float (-60) (Py.splitlines (stderr c))
                    \/ no_reading float (Py.splitlines (stderr c)))) ->
  is_audio_silent float process audio w = (Value false, w2, probes)
  /\ (is_Some (files w2 !! audio) ->
      let o := mux_run process cfg w2 in
      mux_stage float process cfg w
      = (match o.1.1 with Some c => Value c | None => Raised end,
         World o.1.2 (rng w2) o.2,
         probes
         ++ [Ran (cmd_audio (temp_video (image_folder cfg)) audio
                    (output_file cfg)) o.1.1])%list).
Proof.
  intros audio w1 w2 probes Hd Hnz Hvol.
  assert (Hrun : is_audio_silent float process audio w = (Value false, w2, probes)).
  { rewrite is_audio_silent_run. fold audio. rewrite Hd.
    destruct (Qeq_bool d 0) eqn:Hz; [apply Qeq_bool_iff in Hz; contradiction|].
    fold w1 w2. subst probes. f_equal. f_equal. f_equal.
    destruct Hvol as [-> | (c & -> & [Hr | Hn])]; [reflexivity | |].
    - now rewrite (scan_mean_volume_raises _ _ Hr).
    - now rewrite (scan_mean_volume_no_reading _ _ Hn). }
  split; [exact Hrun|].
  intros Hsome. unfold mux_stage, bind. fold audio. rewrite Hrun. cbn.
  rewrite bool_decide_eq_true_2 by exact Hsome. cbn.
  unfold subprocess_run, mux_run.
  destruct (process _ (files w2) (outside w2)) as [[[c|] fs] e]; reflexivity.
Qed.

(** ** Traces *)

Section TraceRules.

Context {E : Type}.
Variable P : event -> Prop.

Lemma traced_pure {A} (a : A) : traced P (pure (E := E) a).
Proof. intros w. constructor. Qed.

Lemma traced_exit {A} code : traced P (exit (E := E) (A := A) code).
Proof. intros w. constructor. Qed.

Lemma traced_raise {A} : traced P (raise (E := E) (A := A)).
Proof. intros w. constructor. Qed.

Lemma traced_bind {A B} (m : Script E A) (k : A -> Script E B) :
  traced P m -> (forall a, traced P (k a)) -> traced P (bind m k).
Proof.
  intros Hm Hk w. unfold bind. specialize (Hm w).
  destruct (m w) as [[[a|code|] w1] t1]; cbn in *; auto.
  specialize (Hk a w1). destruct (k a w1) as [[r w2] t2]; cbn in *.
  apply Forall_app; auto.
Qed.

Lemma traced_try_except {A} (m h : Script E A) :
  traced P m -> traced P h -> traced P (try_except m h).
Proof.
  intros Hm Hh w. unfold try_except. specialize (Hm w).
  destruct (m w) as [[[a|code|] w1] t1]; cbn in *; auto.
  specialize (Hh w1). destruct (h w1) as [[r w2] t2]; cbn in *.
  apply Forall_app; auto.
Qed.

Lemma traced_print n : P (Printed n) -> traced P (print (E := E) n).
Proof. intros H w. cbn. auto. Qed.

Lemma traced_path_exists path : traced P (path_exists (E := E) path).
Proof. intros w. constructor. Qed.

Lemma traced_os_remove path :
  P (Removed path) -> traced P (os_remove (E := E) path).
Proof.
  intros H w. unfold os_remove. destruct (files w !! path); cbn; auto.
Qed.

Lemma traced_write_file path text :
  P (Wrote path text) -> traced P (write_file (E := E) path text).
Proof. intros H w. cbn. auto. Qed.

Lemma traced_draw {A} (m : Rand A) : traced P (draw (E := E) m).
Proof. intros w. unfold draw. destruct (m (rng w)). constructor. Qed.

Lemma traced_subprocess_run process argv :
  (forall o, P (Ran argv o)) -> traced P (subprocess_run (E := E) process argv).
Proof.
  intros H w. unfold subprocess_run.
  destruct (process argv (files w) (outside w)) as [[[c|] fs] e]; cbn; auto.
Qed.

Lemma traced_glob_glob glob pattern : traced P (glob_glob (E := E) glob pattern).
Proof. intros w. constructor. Qed.

Lemma traced_find_missing_clips clips :
  traced P (find_missing_clips (E := E) clips).
Proof. intros w. constructor. Qed.

End TraceRules.

Lemma traced_mono {E A} (P Q : event -> Prop) (m : Script E A) :
  (forall e, P e -> Q e) -> traced P m -> traced Q m.
Proof. intros H Hm w. eapply Forall_impl; [apply Hm | exact H]. Qed.

Create HintDb traced discriminated.
#[export] Hint Resolve traced_pure traced_exit traced_raise traced_bind
  traced_try_except traced_print traced_path_exists traced_os_remove
  traced_write_file traced_draw traced_subprocess_run traced_glob_glob
  traced_find_missing_clips : traced.

(** Steps through the branches of a piece of script. *)
Ltac trace_step :=
  match goal with
  | |- traced _ (if ?b then _ else _) => destruct b
  | |- traced _ (match ?x with _ => _ end) => destruct x
  | |- forall _, _ => intro
  | |- traced _ (bind _ _) => apply traced_bind
  | |- traced _ (try_except _ _) => apply traced_try_except
  | |- traced _ _ => solve [eauto with traced]
  end.

Ltac trace := repeat trace_step.

(** ** The stages, one by one *)

Section Stages.

Context {E : Type}.
Variable repr : Q -> string.
Variable float : string -> option Q.
Variable json_duration : string -> option Q.
Variable abspath : string -> string.
Variable glob : string -> gmap string string -> list string.
Variable process :
  list string -> gmap string string -> E ->
  option completed * gmap string string * E.

Lemma bind_inv {A B} (m : Script E A) (k : A -> Script E B) w r w' t :
  bind m k w = (r, w', t) ->
  (exists a w1 t1 t2,
      m w = (Value a, w1, t1) /\ k a w1 = (r, w', t2) /\ t = (t1 ++ t2)%list)
  \/ (exists code, m w = (Exit code, w', t) /\ r = Exit code)
  \/ (m w = (Raised, w', t) /\ r = Raised).
Proof.
  unfold bind. destruct (m w) as [[[a|code|] w1] t1].
  - destruct (k a w1) as [[r2 w2] t2] eqn:Hk. intros [= <- <- <-].
    left. eauto 10.
  - intros [= <- <- <-]. right; left. eauto.
  - intros [= <- <- <-]. right; right. eauto.
Qed.

(** The probe of the duration always returns a duration. *)
Lemma get_audio_duration_returns audio (w : world E) :
  exists T w1 o,
    get_audio_duration json_duration process audio w
    = (Value T, w1, [Ran (cmd_ffprobe_json audio) o]).
Proof.
  unfold get_audio_duration, try_except, bind, subprocess_run.
  destruct (process _ (files w) (outside w)) as [[[c|] fs] e]; cbn.
  - destruct (json_duration (stdout c)); cbn; eauto.
  - eauto.
Qed.

Lemma get_image_files_returns folder (w : world E) :
  get_image_files glob folder w
  = (Value (merge_sort String.le (glob (Py.path_join folder "beat_*.png") (files w))),
     w, []).
Proof. reflexivity. Qed.

(** The loop over the images: every event is the rendering of a clip with
    the timing of the run; the loop does not exit; and when it returns,
    one path was added per image, numbered from [i]. *)
Lemma render_clips_run folder T N images : forall i clips (w : world E),
  match render_clips repr process folder T N i images clips w with
  | (r, w', t) =>
      Forall (clip_event repr folder T N) t
      /\ (forall code, r <> Exit code)
      /\ (forall clips', r = Value clips' ->
            clips' = (clips ++ map (temp_clip_path folder)
                                (seq i (length images)))%list)
  end.
Proof.
  induction images as [|img rest IH]; intros i clips w.
  - cbn. split; [constructor|]. split; [discriminate|].
    intros ? [= <-]. now rewrite app_nil_r.
  - cbn [render_clips]. unfold bind at 1.
    unfold draw at 1.
    rewrite (surjective_pairing (generate_random_zoompan _ _ _)).
    rewrite generate_random_zoompan_filter.
    set (m := (draw_motion (rng w)).1).
    set (w0 := World _ _ _).
    unfold bind at 1. unfold subprocess_run at 1.
    assert (Hc : forall o, clip_event repr folder T N
              (Ran (cmd_clip repr img (zoompan_filter repr m (frames_per_image T N))
                      (time_per_image T N) (temp_clip_path folder i)) o)).
    { intros o. right. eauto 10. }
    destruct (process _ (files w0) (outside w0)) as [[[c|] fs] e].
    + unfold bind at 1.
      set (w1 := World fs _ e).
      assert (Hp : exists tp, (if negb (returncode c =? 0)%Z
                       then print ClipError else pure tt) w1 = (Value tt, w1, tp)
                      /\ Forall (clip_event repr folder T N) tp).
      { destruct (negb _); cbn; eexists; split; try reflexivity.
        - constructor; [now left | constructor].
        - constructor. }
      destruct Hp as (tp & -> & Htp).
      specialize (IH (S i) (clips ++ [temp_clip_path folder i])%list w1).
      destruct (render_clips _ _ _ _ _ _ _ _ w1) as [[r w'] t].
      destruct IH as (Ht & Hne & Hv).
      split; [|split].
      * constructor; [apply Hc|]. apply Forall_app; auto.
      * exact Hne.
      * intros clips' Hr. rewrite (Hv clips' Hr).
        cbn [length seq map]. now rewrite <- app_assoc.
    + split; [|split]; [|discriminate|discriminate].
      constructor; [apply Hc | constructor].
Qed.

End Stages.

(** ** Paths *)

Lemma path_join_inj a b1 b2 :
  String.prefix "/" b1 = false -> String.prefix "/" b2 = false ->
  Py.path_join a b1 = Py.path_join a b2 -> b1 = b2.
Proof.
  unfold Py.path_join. intros -> ->.
  destruct (_ || _); intros H.
  - now apply String.app_inj in H.
  - apply String.app_inj in H. now apply (String.app_inj "/") in H.
Qed.

Lemma temp_video_not_a_clip folder i : temp_video folder <> temp_clip_path folder i.
Proof.
  unfold temp_video, temp_clip_path. intros H.
  apply path_join_inj in H; [|reflexivity|reflexivity].
  cbv [String.append] in H. discriminate.
Qed.

Lemma temp_video_not_the_manifest folder : temp_video folder <> concat_file folder.
Proof.
  unfold temp_video, concat_file. intros H.
  apply path_join_inj in H; [|reflexivity|reflexivity]. discriminate.
Qed.

(** ** Cleanup *)

Section Cleanup.

Context {E : Type}.

Lemma remove_clips_run clips : forall w : world E,
  match remove_clips clips w with
  | (r, w', t) =>
      r = Value tt
      /\ Forall (fun e => exists p, e = Removed p /\ p ∈ clips) t
      /\ (forall p, files w' !! p
                    = if decide (p ∈ clips) then None else files w !! p)
  end.
Proof.
  induction clips as [|c rest IH]; intros w.
  - cbn. split; [reflexivity|]. split; [constructor|]. intros p.
    rewrite decide_False by apply not_elem_of_nil. reflexivity.
  - cbn [remove_clips]. unfold bind at 1, path_exists at 1.
    unfold bind at 1.
    destruct (files w !! c) as [content|] eqn:Hc.
    + rewrite bool_decide_eq_true_2 by eauto.
      unfold os_remove. rewrite Hc.
      set (w1 := World _ _ _). specialize (IH w1).
      destruct (remove_clips rest w1) as [[r w'] t].
      destruct IH as (-> & Ht & Hf).
      split; [reflexivity|]. split.
      * constructor; [exists c; split; [reflexivity | apply elem_of_cons; now left]|].
        eapply Forall_impl; [exact Ht|]. intros e (p & -> & Hp).
        exists p. split; [reflexivity | apply elem_of_cons; now right].
      * intros p. rewrite Hf. subst w1. cbn [files].
        destruct (decide (p ∈ rest)) as [Hin|Hnin].
        -- rewrite decide_True by (apply elem_of_cons; now right). reflexivity.
        -- destruct (decide (c = p)) as [->|Hne].
           ++ rewrite decide_True by (apply elem_of_cons; now left).
              apply lookup_delete_eq.
           ++ rewrite decide_False
                by (rewrite elem_of_cons; intros [?|?]; congruence).
              now apply lookup_delete_ne.
    + rewrite bool_decide_eq_false_2 by (intros [? ?]; congruence).
      cbn [pure app]. specialize (IH w).
      destruct (remove_clips rest w) as [[r w'] t].
      destruct IH as (-> & Ht & Hf).
      split; [reflexivity|]. split.
      * eapply Forall_impl; [exact Ht|]. intros e (p & -> & Hp).
        exists p. split; [reflexivity | apply elem_of_cons; now right].
      * intros p. rewrite Hf.
        destruct (decide (p ∈ rest)) as [Hin|Hnin].
        -- rewrite decide_True by (apply elem_of_cons; now right). reflexivity.
        -- destruct (decide (c = p)) as [->|Hne].
           ++ rewrite decide_True by (apply elem_of_cons; now left).
              now rewrite Hc.
           ++ rewrite decide_False
                by (rewrite elem_of_cons; intros [?|?]; congruence).
              reflexivity.
Qed.

(** Cleanup always completes: it removes clips and the manifest, nothing
    else, and leaves none of them behind. *)
Lemma cleanup_run folder clips (w : world E) :
  exists w' removals,
    cleanup folder clips w
    = (Value tt, w', removals ++ [Printed CleanupComplete])%list
    /\ Forall (fun e => exists p, e = Removed p
                        /\ (In p clips \/ p = concat_file folder)) removals
    /\ (forall p, In p clips -> files w' !! p = None)
    /\ files w' !! concat_file folder = None.
Proof.
  unfold cleanup. unfold bind at 1.
  pose proof (remove_clips_run clips w) as H.
  destruct (remove_clips clips w) as [[r w1] t1].
  destruct H as (-> & Ht1 & Hf1).
  assert (Ht1' : Forall (fun e => exists p, e = Removed p
                        /\ (In p clips \/ p = concat_file folder)) t1).
  { eapply Forall_impl; [exact Ht1|]. intros e (p & -> & Hp).
    apply list_elem_of_In in Hp. eauto. }
  unfold bind at 1, path_exists at 1. unfold bind at 1.
  destruct (files w1 !! concat_file folder) as [content|] eqn:Hc.
  - rewrite bool_decide_eq_true_2 by eauto.
    unfold os_remove. rewrite Hc. cbn [print app].
    eexists _, (t1 ++ [Removed (concat_file folder)])%list.
    split; [now rewrite <- app_assoc|]. split; [|split].
    + apply Forall_app. split; [exact Ht1'|]. constructor; eauto.
    + intros p Hp. cbn [files].
      destruct (decide (concat_file folder = p)) as [->|Hne];
        [apply lookup_delete_eq|].
      rewrite lookup_delete_ne by exact Hne. rewrite Hf1.
      rewrite decide_True by now apply list_elem_of_In. reflexivity.
    + cbn [files]. apply lookup_delete_eq.
  - rewrite bool_decide_eq_false_2 by (intros [? ?]; congruence).
    cbn [pure print app].
    eexists _, t1. split; [reflexivity|]. split; [exact Ht1'|]. split.
    + intros p Hp. rewrite Hf1.
      rewrite decide_True by now apply list_elem_of_In. reflexivity.
    + exact Hc.
Qed.

End Cleanup.

(** ** Quiet stages *)

Lemma quiet_run cfg argv o : length argv <> 22%nat -> quiet cfg (Ran argv o).
Proof. intros H Heq. apply H. rewrite Heq. reflexivity. Qed.

Ltac quiet_event :=
  match goal with
  | |- forall _, _ => intro; quiet_event
  | |- quiet _ (Wrote _ _) => exact I
  | |- quiet _ (Printed _) => cbn; discriminate
  | |- quiet _ (Ran _ _) =>
      apply quiet_run;
      unfold cmd_clip, cmd_concat, verify_cmd, cmd_sub, trim_cmd, mix_cmd,
        cmd_probe_duration, cmd_volumedetect, cmd_ffprobe_json;
      cbn [length]; lia
  end.

#[export] Hint Extern 1 (quiet _ _) => quiet_event : traced.
#[export] Hint Extern 1 (forall _, quiet _ _) => quiet_event : traced.

Section QuietStages.

Context {E : Type}.
Variable repr : Q -> string.
Variable float : string -> option Q.
Variable json_duration : string -> option Q.
Variable abspath : string -> string.
Variable glob : string -> gmap string string -> list string.
Variable process :
  list string -> gmap string string -> E ->
  option completed * gmap string string * E.
Variable cfg : config.

Lemma quiet_get_audio_duration audio :
  traced (E := E) (quiet cfg) (get_audio_duration json_duration process audio).
Proof. unfold get_audio_duration. trace. Qed.

Lemma quiet_concat_stage folder clips :
  traced (E := E) (quiet cfg) (concat_stage abspath process folder clips).
Proof. unfold concat_stage. trace. Qed.

Lemma quiet_verify_audio out :
  traced (E := E) (quiet cfg) (verify_audio process out).
Proof. unfold verify_audio. trace. Qed.

Lemma quiet_subtitle_stage c :
  traced (E := E) (quiet cfg) (subtitle_stage abspath process c).
Proof. unfold subtitle_stage. trace. Qed.

Lemma quiet_music_stage c :
  traced (E := E) (quiet cfg)
    (music_stage repr json_duration glob process c).
Proof.
  unfold music_stage. trace_step; [trace|]. intros music_files.
  destruct music_files; [trace|].
  apply traced_bind; [apply quiet_get_audio_duration|]. trace.
Qed.

Lemma quiet_clip_event folder T N e :
  clip_event repr folder T N e -> quiet cfg e.
Proof.
  intros [-> | (img & m & i & o & ->)]; [cbn; discriminate|quiet_event].
Qed.

Lemma quiet_probe audio e : is_probe audio e -> quiet cfg e.
Proof. intros (o & [-> | ->]); quiet_event. Qed.

End QuietStages.

(** ** The law of cleanup *)

Section CleanupLaw.

Context {E : Type}.
Variable total : Prop.
Variable cfg : config.
Variable n : nat.

Lemma quiet_not_cleaned t : Forall (quiet cfg) t -> ~ cleaned_up t.
Proof.
  intros H Hin. rewrite Forall_forall in H.
  apply list_elem_of_In in Hin. now apply (H _ Hin).
Qed.

Lemma quiet_not_mux t : Forall (quiet cfg) t -> ~ mux_succeeded cfg t.
Proof.
  intros H (c & Hin & _). rewrite Forall_forall in H.
  apply list_elem_of_In in Hin. now apply (H _ Hin).
Qed.

Lemma quiet_no_removal t :
  Forall (quiet cfg) t -> Forall (fun e => ~ is_removal e) t.
Proof.
  intros H. eapply Forall_impl; [exact H|].
  intros e He (p & ->). exact He.
Qed.

Lemma cleaned_up_app t0 t :
  ~ cleaned_up t0 -> (cleaned_up (t0 ++ t) <-> cleaned_up t).
Proof. unfold cleaned_up. rewrite in_app_iff. tauto. Qed.

Lemma mux_succeeded_app t0 t :
  ~ mux_succeeded cfg t0 ->
  (mux_succeeded cfg (t0 ++ t) <-> mux_succeeded cfg t).
Proof.
  intros H0. unfold mux_succeeded in *. split.
  - intros (c & Hin & Hc). apply in_app_iff in Hin as [Hin|Hin]; eauto.
    exfalso. eauto.
  - intros (c & Hin & Hc). exists c. rewrite in_app_iff. auto.
Qed.

(** A run that was quiet obeys the law: nothing was cleaned, nothing
    removed. *)
Lemma law_quiet r (w : world E) t :
  Forall (quiet cfg) t -> cleanup_law total cfg n r w t.
Proof.
  intros H. pose proof (quiet_not_cleaned t H) as Hc.
  pose proof (quiet_not_mux t H) as Hm.
  split; [|split; [|split; [|split]]].
  - split; [tauto | intros [_ ?]; tauto].
  - tauto.
  - tauto.
  - intros _. now apply quiet_no_removal.
  - intros Hin. rewrite Forall_forall in H.
    apply list_elem_of_In in Hin. exact (H _ Hin).
Qed.

(** Quiet events before a run that obeys the law do not break it. *)
Lemma law_prefix r (w : world E) t0 t :
  Forall (quiet cfg) t0 -> cleanup_law total cfg n r w t ->
  cleanup_law total cfg n r w (t0 ++ t).
Proof.
  intros H (L1 & L0 & L2 & L3 & L4).
  pose proof (quiet_not_cleaned t0 H) as Hc.
  pose proof (quiet_not_mux t0 H) as Hm.
  unfold cleanup_law.
  rewrite (cleaned_up_app t0 t Hc), (mux_succeeded_app t0 t Hm).
  split; [exact L1|]. split; [exact L0|]. split; [exact L2|]. split.
  - intros Hn. apply Forall_app. split; [now apply quiet_no_removal | auto].
  - rewrite in_app_iff. intros [Hin|Hin]; [|tauto].
    rewrite Forall_forall in H. apply list_elem_of_In in Hin.
    exact (H _ Hin).
Qed.

Local Abbreviation mux :=
  (cmd_audio (temp_video (image_folder cfg)) (audio_file cfg)
     (output_file cfg)).

Lemma not_cleaned_after_mux o t :
  Forall (quiet cfg) t -> ~ cleaned_up (Ran mux o :: t).
Proof.
  intros H [Hin|Hin]; [discriminate|]. now apply (quiet_not_cleaned t H).
Qed.

Lemma no_removal_after_mux o t :
  Forall (quiet cfg) t -> Forall (fun e => ~ is_removal e) (Ran mux o :: t).
Proof.
  intros H. constructor; [intros (p & [=])|]. now apply quiet_no_removal.
Qed.

Lemma temp_video_kept_after_mux o t :
  Forall (quiet cfg) t ->
  ~ In (Removed (temp_video (image_folder cfg))) (Ran mux o :: t).
Proof.
  intros H [Hin|Hin]; [discriminate|].
  rewrite Forall_forall in H. apply list_elem_of_In in Hin. exact (H _ Hin).
Qed.

(** The mux ran, and the run then ended otherwise than with a value, which
    takes a process that could not be started. *)
Lemma law_after_failure r (w : world E) o t :
  Forall (quiet cfg) t -> r <> Value tt -> ~ total ->
  cleanup_law total cfg n r w (Ran mux o :: t).
Proof.
  intros H Hr Hnt. pose proof (not_cleaned_after_mux o t H) as Hc.
  split; [|split; [|split; [|split]]].
  - split; [tauto | intros [? _]; tauto].
  - tauto.
  - tauto.
  - intros _. now apply no_removal_after_mux.
  - now apply temp_video_kept_after_mux.
Qed.

(** The mux did not exit with status zero. *)
Lemma law_mux_failed r (w : world E) o t :
  (forall c, o = Some c -> returncode c <> 0%Z) -> Forall (quiet cfg) t ->
  cleanup_law total cfg n r w (Ran mux o :: t).
Proof.
  intros Ho H. pose proof (not_cleaned_after_mux o t H) as Hc.
  assert (Hm : ~ mux_succeeded cfg (Ran mux o :: t)).
  { intros (c & [Hin|Hin] & Hz).
    - injection Hin as ->. exact (Ho c eq_refl Hz).
    - apply (quiet_not_mux t H). exists c. auto. }
  split; [|split; [|split; [|split]]].
  - split; [tauto | intros [_ ?]; tauto].
  - tauto.
  - tauto.
  - intros _. now apply no_removal_after_mux.
  - now apply temp_video_kept_after_mux.
Qed.

(** The mux exited with status zero and the run went through cleanup. *)
Lemma law_success (w : world E) c t1 removals :
  returncode c = 0%Z ->
  Forall (quiet cfg) t1 ->
  Forall (fun e => exists p, e = Removed p
                   /\ (In p (clips_of (image_folder cfg) n)
                       \/ p = concat_file (image_folder cfg))) removals ->
  (forall p, In p (clips_of (image_folder cfg) n) -> files w !! p = None) ->
  files w !! concat_file (image_folder cfg) = None ->
  cleanup_law total cfg n (Value tt) w
    (Ran mux (Some c) :: t1 ++ removals ++ [Printed CleanupComplete]).
Proof.
  intros Hz H1 H2 Hclips Hconcat.
  assert (Hc : cleaned_up (Ran mux (Some c) :: t1 ++ removals
                           ++ [Printed CleanupComplete])).
  { right. rewrite !in_app_iff. right; right. now left. }
  split; [|split; [|split; [|split]]].
  - split; [|intros _; exact Hc]. intros _. split; [reflexivity|].
    exists c. split; [now left | exact Hz].
  - reflexivity.
  - intros _. split; assumption.
  - tauto.
  - intros [Hin|Hin]; [discriminate|].
    rewrite !in_app_iff in Hin. destruct Hin as [Hin|[Hin|[Hin|[]]]].
    + rewrite Forall_forall in H1. apply list_elem_of_In in Hin.
      exact (H1 _ Hin).
    + rewrite Forall_forall in H2. apply list_elem_of_In in Hin.
      destruct (H2 _ Hin) as (p & [= <-] & [Hp | Hp]).
      * unfold clips_of in Hp. apply in_map_iff in Hp as (i & Hi & _).
        symmetry in Hi. revert Hi. apply temp_video_not_a_clip.
      * revert Hp. apply temp_video_not_the_manifest.
    + discriminate.
Qed.

End CleanupLaw.

Section Returns.

Context {E : Type}.
Variable repr : Q -> string.
Variable json_duration : string -> option Q.
Variable abspath : string -> string.
Variable glob : string -> gmap string string -> list string.
Variable process :
  list string -> gmap string string -> E ->
  option completed * gmap string string * E.
Hypothesis started : always_starts process.

Lemma subprocess_run_returns argv (w : world E) :
  exists c w', subprocess_run process argv w = (Value c, w', [Ran argv (Some c)]).
Proof.
  unfold subprocess_run. pose proof (started argv (files w) (outside w)) as [c Hc].
  destruct (process argv (files w) (outside w)) as [[o fs] e]. cbn in Hc.
  subst o. eauto.
Qed.

Lemma verify_audio_returns out (w : world E) :
  (verify_audio process out w).1.1 = Value tt.
Proof.
  unfold verify_audio, bind.
  destruct (subprocess_run_returns (verify_cmd out) w) as (c & w' & ->).
  destruct (_ && _); reflexivity.
Qed.

Lemma subtitle_stage_returns c (w : world E) :
  (subtitle_stage abspath process c w).1.1 = Value tt.
Proof.
  unfold subtitle_stage, bind, path_exists.
  destruct (bool_decide _); [|reflexivity].
  destruct (subprocess_run_returns
              (cmd_sub (output_file c)
                 (subtitle_filter_arg abspath
                    (Py.path_join (image_folder c) "speech.srt"))
                 (subtitled_output (image_folder c))) w) as (r & w' & ->).
  destruct (returncode r =? 0)%Z; reflexivity.
Qed.

Lemma music_stage_returns c (w : world E) :
  (music_stage repr json_duration glob process c w).1.1 = Value tt.
Proof.
  unfold music_stage, bind at 1, glob_glob.
  destruct (glob _ (files w)) as [|music_file others]; [reflexivity|].
  cbn [app]. unfold bind at 1.
  destruct (get_audio_duration_returns json_duration process (audio_file c) w)
    as (T & w1 & o & ->).
  unfold bind at 1.
  destruct (subprocess_run_returns
              (trim_cmd repr music_file T
                 (Py.path_join (image_folder c) "music_trimmed.mp3")) w1)
    as (r & w2 & ->).
  destruct (returncode r =? 0)%Z; cbn [negb]; [|reflexivity].
  unfold bind.
  destruct (subprocess_run_returns
              (mix_cmd (subtitled_output (image_folder c))
                 (Py.path_join (image_folder c) "music_trimmed.mp3")
                 (final_output (image_folder c))) w2)
    as (r3 & w3 & ->).
  destruct (returncode r3 =? 0)%Z; reflexivity.
Qed.

End Returns.

Section AfterMux.

Context {E : Type}.
Variable repr : Q -> string.
Variable float : string -> option Q.
Variable json_duration : string -> option Q.
Variable abspath : string -> string.
Variable glob : string -> gmap string string -> list string.
Variable process :
  list string -> gmap string string -> E ->
  option completed * gmap string string * E.
Variable cfg : config.
Variable n : nat.

Local Abbreviation mux :=
  (cmd_audio (temp_video (image_folder cfg)) (audio_file cfg)
     (output_file cfg)).

(** What follows the mux obeys the law. *)
Lemma after_mux_law c (w : world E) :
  match after_mux repr json_duration abspath glob process cfg
          (clips_of (image_folder cfg) n) c w with
  | (r, w', t) =>
      cleanup_law (always_starts process) cfg n r w' (Ran mux (Some c) :: t)
  end.
Proof.
  unfold after_mux. destruct (returncode c =? 0)%Z eqn:Hz.
  - apply Z.eqb_eq in Hz.
    destruct (bind _ _ w) as [[r w'] t] eqn:Hrun.
    apply bind_inv in Hrun
      as [(? & w1 & t1 & t1' & Hv & Hrun & ->)|[(code & Hv & ->)|(Hv & ->)]].
    2,3: pose proof (quiet_verify_audio process cfg (output_file cfg) w) as Q;
         rewrite Hv in Q; apply law_after_failure; [exact Q | discriminate |];
         intros St; pose proof (verify_audio_returns process St (output_file cfg) w) as R;
         rewrite Hv in R; discriminate R.
    pose proof (quiet_verify_audio process cfg (output_file cfg) w) as Q1.
    rewrite Hv in Q1. cbn in Q1.
    apply bind_inv in Hrun
      as [(? & w2 & t2 & t2' & Hs & Hrun & ->)|[(code & Hs & ->)|(Hs & ->)]].
    2,3: pose proof (quiet_subtitle_stage abspath process cfg cfg w1) as Q;
         rewrite Hs in Q; apply law_after_failure;
         [apply Forall_app; auto | discriminate |];
         intros St; pose proof (subtitle_stage_returns abspath process St cfg w1) as R;
         rewrite Hs in R; discriminate R.
    pose proof (quiet_subtitle_stage abspath process cfg cfg w1) as Q2.
    rewrite Hs in Q2. cbn in Q2.
    apply bind_inv in Hrun
      as [(? & w3 & t3 & t3' & Hm & Hrun & ->)|[(code & Hm & ->)|(Hm & ->)]].
    2,3: pose proof (quiet_music_stage repr json_duration glob process cfg cfg w2) as Q;
         rewrite Hm in Q; apply law_after_failure;
         [repeat (apply Forall_app; split); auto | discriminate |];
         intros St;
         pose proof (music_stage_returns repr json_duration glob process St cfg w2) as R;
         rewrite Hm in R; discriminate R.
    pose proof (quiet_music_stage repr json_duration glob process cfg cfg w2) as Q3.
    rewrite Hm in Q3. cbn in Q3.
    destruct (cleanup_run (image_folder cfg) (clips_of (image_folder cfg) n) w3)
      as (w4 & removals & Hc & Hrm & Hclips & Hconcat).
    rewrite Hc in Hrun. injection Hrun as <- <- <-.
    replace (t1 ++ t2 ++ t3 ++ removals ++ [Printed CleanupComplete])%list
      with ((t1 ++ t2 ++ t3) ++ removals ++ [Printed CleanupComplete])%list
      by now rewrite <- !app_assoc.
    apply law_success; auto.
    repeat (apply Forall_app; split); auto.
  - apply Z.eqb_neq in Hz. cbn.
    apply law_mux_failed; [intros ? [= <-]; exact Hz|].
    constructor; [cbn; discriminate | constructor].
Qed.

End AfterMux.

Section PipelineLaw.

Context {E : Type}.
Variable repr : Q -> string.
Variable float : string -> option Q.
Variable json_duration : string -> option Q.
Variable abspath : string -> string.
Variable glob : string -> gmap string string -> list string.
Variable process :
  list string -> gmap string string -> E ->
  option completed * gmap string string * E.
Variable cfg : config.

(** The mux stage: quiet events, then either the exit with status 1 or
    the run of the mux, last. *)
Lemma mux_stage_run (w : world E) :
  match mux_stage float process cfg w with
  | (r, w', t) =>
      exists t0,
        Forall (quiet cfg) t0
        /\ ((t = t0 /\ r = Exit 1)
            \/ exists o,
                 t = (t0 ++ [Ran (cmd_audio (temp_video (image_folder cfg))
                                    (audio_file cfg) (output_file cfg)) o])%list
                 /\ match o with
                    | Some c => r = Value c
                    | None => r = Raised
                    end)
  end.
Proof.
  destruct (mux_stage_cases float process cfg w)
    as (silent & w1 & probes & _ & Hp & _ & Hs & Hn & Hm).
  assert (Hq : Forall (quiet cfg) probes).
  { eapply Forall_impl; [exact Hp|]. apply quiet_probe. }
  destruct silent.
  - rewrite (Hs eq_refl). eexists. split; [|left; split; reflexivity].
    apply Forall_app. split; [exact Hq|]. constructor; [cbn; discriminate|constructor].
  - destruct (files w1 !! audio_file cfg) as [content|] eqn:Hf.
    + rewrite (Hm eq_refl (ex_intro _ content eq_refl)). cbv zeta.
      exists probes. split; [exact Hq|]. right.
      exists (mux_run process cfg w1).1.1. split; [reflexivity|].
      destruct (mux_run process cfg w1).1.1; reflexivity.
    + rewrite (Hn eq_refl eq_refl). eexists. split; [|left; split; reflexivity].
      apply Forall_app. split; [exact Hq|]. constructor; [cbn; discriminate|constructor].
Qed.

Lemma pipeline_cleanup_law (w : world E) :
  let n := length (glob (Py.path_join (image_folder cfg) "beat_*.png") (files w)) in
  match pipeline repr float json_duration abspath glob process cfg w with
  | (r, w', t) => cleanup_law (always_starts process) cfg n r w' t
  end.
Proof.
  intros n. unfold pipeline. unfold bind at 1.
  rewrite get_image_files_returns.
  set (images := merge_sort String.le _).
  assert (Hn : length images = n).
  { subst images n. apply Permutation_length, merge_sort_Permutation. }
  rewrite Hn. cbn [app].
  destruct (n =? 0)%nat.
  { cbn. apply law_quiet. constructor; [cbn; discriminate | constructor]. }
  destruct (bind _ _ w) as [[r w'] t] eqn:Hrun.
  destruct (get_audio_duration_returns json_duration process (audio_file cfg) w)
    as (T & w1 & o & HT).
  pose proof (quiet_get_audio_duration json_duration process cfg (audio_file cfg) w) as Q1.
  rewrite HT in Q1. cbn in Q1.
  apply bind_inv in Hrun
    as [(? & ? & ? & t1' & Hv1 & Hrun & ->)|[(code & Hv1 & ->)|(Hv1 & ->)]];
    rewrite HT in Hv1; try discriminate.
  injection Hv1 as <- <- <-.
  pose proof (render_clips_run repr process (image_folder cfg) T n images 0 [] w1) as HR.
  apply bind_inv in Hrun
    as [(clips & w2 & t2 & t2' & Hv2 & Hrun & ->)|[(code & Hv2 & ->)|(Hv2 & ->)]];
    rewrite Hv2 in HR; destruct HR as (HR1 & HR2 & HR3).
  2: { exfalso. exact (HR2 code eq_refl). }
  2: { apply law_prefix; [exact Q1|]. apply law_quiet.
       eapply Forall_impl; [exact HR1 | apply quiet_clip_event]. }
  assert (Q2 : Forall (quiet cfg) t2)
    by (eapply Forall_impl; [exact HR1 | apply quiet_clip_event]).
  rewrite (HR3 clips eq_refl) in Hrun. cbn [app] in Hrun. rewrite Hn in Hrun.
  fold (clips_of (image_folder cfg) n) in Hrun.
  apply law_prefix; [exact Q1|]. apply law_prefix; [exact Q2|].
  pose proof (quiet_concat_stage abspath process cfg (image_folder cfg)
                (clips_of (image_folder cfg) n) w2) as Q3.
  apply bind_inv in Hrun
    as [(? & w3 & t3 & t3' & Hv3 & Hrun & ->)|[(code & Hv3 & ->)|(Hv3 & ->)]];
    rewrite Hv3 in Q3; cbn in Q3; try (apply law_quiet; exact Q3).
  apply law_prefix; [exact Q3|].
  pose proof (mux_stage_run w3) as HM.
  apply bind_inv in Hrun
    as [(c & w4 & t4 & t4' & Hv4 & Hrun & ->)|[(code & Hv4 & ->)|(Hv4 & ->)]];
    rewrite Hv4 in HM; destruct HM as (t0 & Q4 & [[-> Hr]|(o' & -> & Ho)]);
    try discriminate.
  - destruct o' as [c'|]; [|discriminate Ho]. injection Ho as <-.
    rewrite <- app_assoc. apply law_prefix; [exact Q4|]. cbn [app].
    pose proof (after_mux_law repr json_duration abspath glob process cfg n c w4) as HA.
    rewrite Hrun in HA. exact HA.
  - apply law_quiet. exact Q4.
  - destruct o'; discriminate Ho.
  - destruct o' as [c'|]; [discriminate Ho|].
    apply law_prefix; [exact Q4|].
    apply law_mux_failed; [discriminate | constructor].
Qed.

End PipelineLaw.

(** ** Timing *)

Lemma int_of_float_truncates (x : Q) :
  ((0 <= x -> inject_Z (int_of_float x) <= x /\ x < inject_Z (int_of_float x) + 1)
   /\ (x <= 0 -> inject_Z (int_of_float x) - 1 < x /\ x <= inject_Z (int_of_float x)))%Q.
Proof.
  destruct x as [a b]. unfold int_of_float. cbn [Qnum Qden].
  unfold Qminus. unfold Qle, Qlt, Qplus, Qopp, inject_Z. cbn [Qnum Qden].
  assert (Hb : Z.pos b <> 0%Z) by discriminate.
  assert (Hb' : (0 < Z.pos b)%Z) by reflexivity.
  split; intros H.
  - assert (Ha : (0 <= a)%Z) by lia.
    pose proof (Z.mul_quot_le a (Z.pos b) Ha Hb).
    pose proof (Z.mul_succ_quot_gt a (Z.pos b) Ha Hb').
    lia.
  - assert (Ha : (a <= 0)%Z) by lia.
    pose proof (Z.mul_quot_ge a (Z.pos b) Ha Hb).
    pose proof (Z.mul_pred_quot_lt a (Z.pos b) Ha Hb').
    lia.
Qed.

Lemma time_per_image_sums (T : Q) (N : nat) :
  N <> 0%nat ->
  (inject_Z (Z.of_nat N) * time_per_image T N == T)%Q.
Proof.
  intros HN. unfold time_per_image. field.
  intros H. apply HN.
  unfold Qeq in H. cbn in H. lia.
Qed.

Section PipelineStart.

Context {E : Type}.
Variable repr : Q -> string.
Variable float : string -> option Q.
Variable json_duration : string -> option Q.
Variable abspath : string -> string.
Variable glob : string -> gmap string string -> list string.
Variable process :
  list string -> gmap string string -> E ->
  option completed * gmap string string * E.

(** With no image, the script reports it and exits with status 1. *)
Lemma pipeline_no_images cfg (w : world E) :
  glob (Py.path_join (image_folder cfg) "beat_*.png") (files w) = [] ->
  pipeline repr float json_duration abspath glob process cfg w
  = (Exit 1, w, [Printed NoImagesFound]).
Proof.
  intros H. unfold pipeline, bind at 1. rewrite get_image_files_returns, H.
  reflexivity.
Qed.

(** With images, it probes the narration and then renders the clips with
    the duration it read and the number of images. *)
Lemma pipeline_renders cfg (w w1 : world E) T t1 :
  let images :=
    merge_sort String.le
      (glob (Py.path_join (image_folder cfg) "beat_*.png") (files w)) in
  images <> [] ->
  get_audio_duration json_duration process (audio_file cfg) w = (Value T, w1, t1) ->
  exists rest,
    (pipeline repr float json_duration abspath glob process cfg w).2
    = (t1 ++ (render_clips repr process (image_folder cfg) T (length images)
                0 images [] w1).2 ++ rest)%list.
Proof.
  intros images Hne HT. unfold pipeline, bind at 1.
  rewrite get_image_files_returns. fold images. cbn [app].
  destruct images as [|img rest]; [congruence|].
  cbn [length Nat.eqb]. unfold bind at 1. rewrite HT.
  unfold bind at 1.
  destruct (render_clips _ _ _ _ _ _ _ _ w1) as [[[clips|code|] w2] t2]; cbn [snd].
  - destruct (bind _ _ w2) as [[r w'] t]. cbn [snd]. eauto.
  - exists []. now rewrite app_nil_r.
  - exists []. now rewrite app_nil_r.
Qed.

(** The first thing the loop does with an image is to render its clip, with
    a filter for [frames_per_image] frames. *)
Lemma render_clips_first folder T N i img rest clips (w : world E) :
  exists o t,
    (render_clips repr process folder T N i (img :: rest) clips w).2
    = Ran (cmd_clip repr img
             (zoompan_filter repr (draw_motion (rng w)).1 (frames_per_image T N))
             (time_per_image T N) (temp_clip_path folder i)) o :: t.
Proof.
  cbn [render_clips]. unfold bind at 1. unfold draw at 1.
  rewrite (surjective_pairing (generate_random_zoompan _ _ _)).
  rewrite generate_random_zoompan_filter.
  set (w0 := World _ _ _).
  unfold bind at 1. unfold subprocess_run at 1.
  destruct (process _ (files w0) (outside w0)) as [[[c|] fs] e].
  - destruct (bind _ _ _) as [[r w'] t]. cbn. eauto.
  - cbn. eauto.
Qed.

End PipelineStart.

Section WholeScript.

Context {E : Type}.
Variable repr : Q -> string.
Variable float : string -> option Q.
Variable json_duration : string -> option Q.
Variable abspath : string -> string.
Variable glob : string -> gmap string string -> list string.
Variable getmtime : string -> E -> Q.
Variable process :
  list string -> gmap string string -> E ->
  option completed * gmap string string * E.
Variable jamendo_tracks : string -> E -> option (list track) * E.
Variable download : string -> E -> option string * E.

Lemma never_exits_bind {A B} (m : Script E A) (k : A -> Script E B) :
  never_exits m -> (forall a, never_exits (k a)) -> never_exits (bind m k).
Proof.
  intros Hm Hk w code. unfold bind. specialize (Hm w).
  destruct (m w) as [[[a|c|] w1] t1]; cbn in *.
  - specialize (Hk a w1 code). destruct (k a w1) as [[r w2] t2]. exact Hk.
  - exfalso. exact (Hm c eq_refl).
  - discriminate.
Qed.

Lemma never_exits_request_tracks id : never_exits (request_tracks jamendo_tracks id).
Proof.
  intros w code. unfold request_tracks.
  destruct (jamendo_tracks id (outside w)) as [[?|] ?]; discriminate.
Qed.

Lemma never_exits_request_content url : never_exits (request_content download url).
Proof.
  intros w code. unfold request_content.
  destruct (download url (outside w)) as [[?|] ?]; discriminate.
Qed.

Lemma never_exits_draw {A} (m : Rand A) : never_exits (draw (E := E) m).
Proof. intros w code. unfold draw. destruct (m (rng w)). discriminate. Qed.

Lemma fetch_jamendo_track_never_exits id sp :
  never_exits (fetch_jamendo_track jamendo_tracks download id sp).
Proof.
  unfold fetch_jamendo_track.
  apply never_exits_bind; [apply never_exits_request_tracks|].
  intros [|t ts]; [discriminate|].
  apply never_exits_bind; [apply never_exits_draw|]. intros track.
  apply never_exits_bind; [apply never_exits_request_content|]. intros content.
  destruct sp; discriminate.
Qed.

Lemma traced_request_tracks P id :
  traced P (request_tracks jamendo_tracks id).
Proof.
  intros w. unfold request_tracks.
  destruct (jamendo_tracks id (outside w)) as [[?|] ?]; constructor.
Qed.

Lemma traced_request_content P url :
  traced P (request_content download url).
Proof.
  intros w. unfold request_content.
  destruct (download url (outside w)) as [[?|] ?]; constructor.
Qed.

(** Fetching the music runs no process. *)
Lemma fetch_jamendo_track_runs_nothing id sp :
  traced (E := E) (fun e => ~ is_run e)
    (fetch_jamendo_track jamendo_tracks download id sp).
Proof.
  assert (Hw : forall p text, ~ is_run (Wrote p text))
    by (intros p text (a & o & [=])).
  unfold fetch_jamendo_track.
  apply traced_bind; [apply traced_request_tracks|].
  intros [|t ts]; [apply traced_raise|].
  apply traced_bind; [apply traced_draw|]. intros track.
  apply traced_bind; [apply traced_request_content|]. intros content.
  destruct sp; [apply traced_write_file, Hw | apply traced_raise].
Qed.

(** Before the pipeline the script runs no process: it either raises, or
    goes on to the pipeline of the scene it found. *)
Lemma main_reaches_pipeline client_id (w : world E) :
  match main repr float json_duration abspath glob getmtime process
          jamendo_tracks download client_id w with
  | (r, w', t) =>
      (r = Raised /\ Forall (fun e => ~ is_run e) t)
      \/ exists sp w1 t0 t1,
           Forall (fun e => ~ is_run e) t0
           /\ pipeline repr float json_duration abspath glob process
                (configure sp) w1 = (r, w', t1)
           /\ t = (t0 ++ t1)%list
  end.
Proof.
  unfold main. destruct client_id as [id|]; [|left; split; [reflexivity|constructor]].
  destruct (String.eqb id ""); [left; split; [reflexivity|constructor]|].
  unfold bind at 1.
  assert (Hs : exists sp, find_scene glob getmtime w = (Value sp, w, [])).
  { unfold find_scene, bind, glob_glob.
    destruct (glob _ (files w)); cbn; eauto. }
  destruct Hs as (sp & ->). cbn [app].
  pose proof (fetch_jamendo_track_runs_nothing id sp w) as Hf.
  pose proof (fetch_jamendo_track_never_exits id sp w) as Hx.
  unfold bind at 1.
  destruct (fetch_jamendo_track _ _ id sp w) as [[[[]|code|] w1] t0];
    cbn [fst snd] in Hf, Hx.
  - destruct (pipeline _ _ _ _ _ _ _ w1) as [[r w'] t1] eqn:Hp.
    right. exists sp, w1, t0, t1. auto.
  - exfalso. exact (Hx code eq_refl).
  - left. auto.
Qed.

End WholeScript.

(** ** Whole runs *)


(** C9. Whenever the narration gives each image less than 0.08 seconds,
    the frame count is at most 1 and the loop passes it to the synthesizer
    as it is: the clip is rendered with a zoom expression whose progress is
    divided by [(duration_frames-1)], which is zero or negative. *)
Theorem short_clips_divide_by_nothing {E : Type} (repr : Q -> string)
    (float json_duration : string -> option Q) (abspath : string -> string)
    (glob : string -> gmap string string -> list string)
    (process : list string -> gmap string string -> E ->
               option completed * gmap string string * E)
    (T : Q) (N : nat) :
  N <> 0%nat ->
  (T / inject_Z (Z.of_nat N) < 0.08)%Q ->
  let D := frames_per_image T N in
  (D <= 1)%Z
  /\ (forall cfg (w w1 : world E) img others t1,
        merge_sort String.le
          (glob (Py.path_join (image_folder cfg) "beat_*.png") (files w))
        = img :: others ->
        length (img :: others) = N ->
        get_audio_duration json_duration process (audio_file cfg) w
        = (Value T, w1, t1) ->
        exists o rest,
          (pipeline repr float json_duration abspath glob process cfg w).2
          = (t1 ++ Ran (cmd_clip repr img
                          (zoompan_filter repr (draw_motion (rng w1)).1 D)
                          (time_per_image T N)
                          (temp_clip_path (image_folder cfg) 0)) o :: rest)%list)
  /\ (forall m,
        zoompan_filter repr m D
        = "zoompan=z=" ++ zoom_expr repr m D
          ++ ":x=iw*" ++ pan_expr repr (x_start m) (x_end m) D
          ++ ":y=ih*" ++ pan_expr repr (y_start m) (y_end m) D
          ++ ":d=" ++ str_int D ++ ":s=768x1280"
        /\ zoom_expr repr m D = "'" ++ render (zoom_curve repr m D) ++ "'"
        /\ zoom_curve repr m D
           = If (Lte On (lit_int 1))
               (lit_float repr (zoom_start m))
               (Add (lit_float repr (zoom_start m))
                  (Mul (Par (Sub (lit_float repr (zoom_end m))
                               (lit_float repr (zoom_start m))))
                     (Pow (Div (Par (Sub On (lit_int 1))) (zoom_denominator D))
                        (lit_int 2)))))
  /\ render (zoom_denominator D) = "(" ++ str_int D ++ "-1)"
  /\ (forall rpow on,
        eval rpow on (zoom_denominator D) = (inject_Z D - 1)%Q
        /\ (eval rpow on (zoom_denominator D) <= 0)%Q).
Proof.
  intros HN Hshort D.
  assert (HD : (D <= 1)%Z).
  { subst D. unfold frames_per_image.
    set (x := (time_per_image T N * inject_Z fps)%Q).
    assert (Hx : (x < 2)%Q).
    { subst x. unfold time_per_image. change (inject_Z fps) with 25%Q. lra. }
    destruct (int_of_float_truncates x) as [Hpos Hneg].
    destruct (Qlt_le_dec x 0) as [Hlt|Hge].
    - destruct (Hneg (Qlt_le_weak _ _ Hlt)) as [H1 H2].
      assert (H : (inject_Z (int_of_float x) < inject_Z 1)%Q)
        by (change (inject_Z 1) with 1%Q; lra).
      rewrite <- Zlt_Qlt in H. lia.
    - destruct (Hpos Hge) as [H1 H2].
      assert (H : (inject_Z (int_of_float x) < inject_Z 2)%Q)
        by (change (inject_Z 2) with 2%Q; lra).
      rewrite <- Zlt_Qlt in H. lia. }
  split; [exact HD|]. split; [|split; [|split]].
  - intros cfg w w1 img others t1 Himg HL HT.
    destruct (pipeline_renders repr float json_duration abspath glob process
                cfg w w1 T t1) as (rest & Hrun); [rewrite Himg; discriminate | exact HT |].
    rewrite Himg, HL in Hrun.
    destruct (render_clips_first repr process (image_folder cfg) T N 0 img others
                [] w1) as (o & t & Hfirst).
    rewrite Hfirst in Hrun. exists o, (t ++ rest)%list. exact Hrun.
  - intros m. split; [reflexivity|]. split; [apply zoom_expr_render | reflexivity].
  - unfold zoom_denominator, lit_int. cbn [render]. rewrite str_int_1, !append_assoc. reflexivity.
  - intros rpow on. split; [reflexivity|].
    unfold zoom_denominator, lit_int. cbn [eval].
    change (inject_Z 1) with 1%Q.
    assert (H : (inject_Z D <= inject_Z 1)%Q) by (rewrite <- Zle_Qle; exact HD).
    change (inject_Z 1) with 1%Q in H. lra.
Qed.

(** C8. The clips and the manifest are removed exactly when the script
    returns after a mux that exited with status zero, which it does whatever
    the exit status of the subtitle, trim and mix processes, as long as they
    can be started; then none of the clips is left, nor the manifest.  In
    every other run nothing is removed.  The script never removes
    [temp_video.mp4]. *)
Theorem cleanup_exactly_on_success {E : Type} (repr : Q -> string)
    (float json_duration : string -> option Q) (abspath : string -> string)
    (glob : string -> gmap string string -> list string)
    (process : list string -> gmap string string -> E ->
               option completed * gmap string string * E)
    (cfg : config) (w : world E) :
  let n := length (glob (Py.path_join (image_folder cfg) "beat_*.png") (files w)) in
  match pipeline repr float json_duration abspath glob process cfg w with
  | (r, w', t) =>
      (cleaned_up t <-> r = Value tt /\ mux_succeeded cfg t)
      /\ (always_starts process -> mux_succeeded cfg t -> r = Value tt)
      /\ (cleaned_up t ->
          (forall clip, In clip (clips_of (image_folder cfg) n) ->
                        files w' !! clip = None)
          /\ files w' !! concat_file (image_folder cfg) = None)
      /\ (~ cleaned_up t -> Forall (fun e => ~ is_removal e) t)
      /\ ~ In (Removed (temp_video (image_folder cfg))) t
  end.
Proof.
  exact (pipeline_cleanup_law repr float json_duration abspath glob process cfg w).
Qed.

(** ** The music mix *)

Lemma not_a_mix cfg argv o : length argv <> 18%nat -> ~ is_mix cfg (Ran argv o).
Proof.
  intros H (input & trimmed & o' & [= -> _]). apply H. reflexivity.
Qed.

Ltac mix_event :=
  match goal with
  | |- forall _, _ => intro; mix_event
  | |- mixes_read_subtitled_output _ (Ran (mix_cmd _ _ _) _) =>
      intros _; eexists _, _; reflexivity
  | |- mixes_read_subtitled_output _ (Ran _ _) =>
      intros Hmix; exfalso; revert Hmix; apply not_a_mix;
      unfold cmd_clip, cmd_concat, cmd_audio, verify_cmd, cmd_sub, trim_cmd,
        cmd_probe_duration, cmd_volumedetect, cmd_ffprobe_json;
      cbn [length]; lia
  | |- mixes_read_subtitled_output _ _ =>
      intros (input & trimmed & o' & [=])
  end.

#[export] Hint Extern 1 (mixes_read_subtitled_output _ _) => mix_event : traced.
#[export] Hint Extern 1 (forall _, mixes_read_subtitled_output _ _) =>
  mix_event : traced.

Section MusicMix.

Context {E : Type}.
Variable repr : Q -> string.
Variable float : string -> option Q.
Variable json_duration : string -> option Q.
Variable abspath : string -> string.
Variable glob : string -> gmap string string -> list string.
Variable process :
  list string -> gmap string string -> E ->
  option completed * gmap string string * E.
Variable cfg : config.

Local Abbreviation law := (mixes_read_subtitled_output cfg).

Lemma mix_law_get_audio_duration audio :
  traced (E := E) law (get_audio_duration json_duration process audio).
Proof. unfold get_audio_duration. trace. Qed.

Lemma mix_law_music_stage :
  traced (E := E) law (music_stage repr json_duration glob process cfg).
Proof.
  unfold music_stage. trace_step; [trace|]. intros music_files.
  destruct music_files; [trace|].
  apply traced_bind; [apply mix_law_get_audio_duration|]. trace.
Qed.

Lemma mix_law_render_clips folder T N images i clips :
  traced (E := E) law (render_clips repr process folder T N i images clips).
Proof.
  intros w.
  pose proof (render_clips_run repr process folder T N images i clips w) as H.
  destruct (render_clips _ _ _ _ _ _ _ _ w) as [[r w'] t].
  eapply Forall_impl; [exact (proj1 H)|].
  intros e [-> | (img & m & j & o & ->)]; mix_event.
Qed.

Lemma mix_law_remove_clips clips : traced (E := E) law (remove_clips clips).
Proof.
  induction clips as [|c rest IH]; cbn [remove_clips]; [trace|].
  apply traced_bind; [trace|]. intros present.
  apply traced_bind; [destruct present; trace | intros _; exact IH].
Qed.

Lemma mix_law_is_audio_silent audio :
  traced (E := E) law (is_audio_silent float process audio).
Proof.
  unfold is_audio_silent, duration_is_zero_or_unreadable,
    volume_is_below_threshold. trace.
Qed.

(** Every mix of a run of the script reads [movie_subtitled.mp4]. *)
Lemma mix_law_pipeline :
  traced (E := E) law
    (pipeline repr float json_duration abspath glob process cfg).
Proof.
  unfold pipeline, get_image_files.
  apply traced_bind; [trace|]. intros images.
  destruct (length images =? 0)%nat; [trace|].
  apply traced_bind; [apply mix_law_get_audio_duration|]. intros T.
  apply traced_bind; [apply mix_law_render_clips|]. intros clips.
  apply traced_bind; [unfold concat_stage; trace|]. intros _.
  apply traced_bind.
  { unfold mux_stage. apply traced_bind; [apply mix_law_is_audio_silent|]. trace. }
  intros c. unfold after_mux. destruct (returncode c =? 0)%Z; [|trace].
  apply traced_bind; [unfold verify_audio; trace|]. intros _.
  apply traced_bind; [unfold subtitle_stage; trace|]. intros _.
  apply traced_bind; [apply mix_law_music_stage|]. intros _.
  unfold cleanup.
  apply traced_bind; [apply mix_law_remove_clips|]. trace.
Qed.

(** With a candidate and a trim that exits with status zero, the stage runs
    the mix on [movie_subtitled.mp4]. *)
Lemma music_stage_mixes music_file others (w : world E) :
  glob (Py.path_join (image_folder cfg) "music_*.mp3") (files w)
  = music_file :: others ->
  exists T w1 o1,
    get_audio_duration json_duration process (audio_file cfg) w
    = (Value T, w1, [Ran (cmd_ffprobe_json (audio_file cfg)) o1])
    /\ let trimmed := Py.path_join (image_folder cfg) "music_trimmed.mp3" in
       let trim := trim_cmd repr music_file T trimmed in
       forall c fs e,
         process trim (files w1) (outside w1) = (Some c, fs, e) ->
         returncode c = 0%Z ->
         exists o3 rest,
           (music_stage repr json_duration glob process cfg w).2
           = ([Ran (cmd_ffprobe_json (audio_file cfg)) o1;
               Ran trim (Some c);
               Ran (mix_cmd (subtitled_output (image_folder cfg)) trimmed
                      (final_output (image_folder cfg))) o3] ++ rest)%list
           /\ Forall (fun e => e = Printed MusicMixError) rest.
Proof.
  intros Hg.
  destruct (get_audio_duration_returns json_duration process (audio_file cfg) w)
    as (T & w1 & o1 & HT).
  exists T, w1, o1. split; [exact HT|]. intros trimmed trim c fs e Htrim Hz.
  unfold music_stage, bind at 1, glob_glob. rewrite Hg. cbn [app].
  unfold bind at 1. rewrite HT.
  unfold bind at 1, subprocess_run at 1. fold trimmed trim. rewrite Htrim.
  rewrite Hz. cbn [Z.eqb negb].
  unfold bind at 1, subprocess_run at 1.
  cbn [files outside].
  destruct (process (mix_cmd _ _ _) fs e) as [[[c3|] fs3] e3].
  - destruct (returncode c3 =? 0)%Z; cbn; eexists _, _; split; try reflexivity;
      repeat constructor.
  - cbn. eexists _, _; split; try reflexivity. constructor.
Qed.

End MusicMix.

(** Finds an event in an explicit trace. *)
Ltac find_in_trace := repeat (first [left; reflexivity | right]).

(** C2, as the code has it.  Every mix of a run reads its video and
    narration from [movie_subtitled.mp4], whether the subtitle stage wrote
    it, was skipped or failed; and with a music candidate and a trim that
    exits with status zero, the music stage runs that mix. *)
Theorem music_mix_reads_subtitled_output {E : Type} (repr : Q -> string)
    (float json_duration : string -> option Q) (abspath : string -> string)
    (glob : string -> gmap string string -> list string)
    (process : list string -> gmap string string -> E ->
               option completed * gmap string string * E)
    (cfg : config) (w : world E) :
  Forall (mixes_read_subtitled_output cfg)
    (pipeline repr float json_duration abspath glob process cfg w).2
  /\ (forall music_file others,
        glob (Py.path_join (image_folder cfg) "music_*.mp3") (files w)
        = music_file :: others ->
        exists T w1 o1,
          get_audio_duration json_duration process (audio_file cfg) w
          = (Value T, w1, [Ran (cmd_ffprobe_json (audio_file cfg)) o1])
          /\ let trimmed := Py.path_join (image_folder cfg) "music_trimmed.mp3" in
             let trim := trim_cmd repr music_file T trimmed in
             forall c fs e,
               process trim (files w1) (outside w1) = (Some c, fs, e) ->
               returncode c = 0%Z ->
               exists o3 rest,
                 (music_stage repr json_duration glob process cfg w).2
                 = ([Ran (cmd_ffprobe_json (audio_file cfg)) o1;
                     Ran trim (Some c);
                     Ran (mix_cmd (subtitled_output (image_folder cfg)) trimmed
                            (final_output (image_folder cfg))) o3] ++ rest)%list
                 /\ Forall (fun e => e = Printed MusicMixError) rest).
Proof.
  split.
  - apply mix_law_pipeline.
  - intros music_file others Hg. now apply music_stage_mixes with others.
Qed.

(** C2, as stated, fails on the example scene with a music candidate and no
    subtitle file: the subtitle stage is skipped, and the mix is run on
    [movie_subtitled.mp4], which is not there, not on [movie.mp4]. *)
Lemma music_mix_does_not_read_muxed_video :
  let t := (Studio.pipeline (Studio.world_of scene_with_music)).2 in
  scene_with_music !! "./static/scene_1/speech.srt" = None
  /\ In (Printed NoSubtitleFile) t
  /\ In (Ran (mix_cmd "./static/scene_1/movie_subtitled.mp4"
                "./static/scene_1/music_trimmed.mp3"
                "./static/scene_1/movie_final.mp4")
           (Some (Studio.failed "No such file or directory"))) t
  /\ ~ mixes_read_muxed_video Studio.cfg t.
Proof.
  intros t.
  assert (Hmix : In (Ran (mix_cmd "./static/scene_1/movie_subtitled.mp4"
                "./static/scene_1/music_trimmed.mp3"
                "./static/scene_1/movie_final.mp4")
           (Some (Studio.failed "No such file or directory"))) t).
  { vm_compute. find_in_trace. }
  split; [reflexivity|]. split; [vm_compute; find_in_trace|].
  split; [exact Hmix|].
  intros H. specialize (H _ Hmix).
  destruct H as (trimmed & o & Heq).
  - exists "./static/scene_1/movie_subtitled.mp4". eexists _, _. reflexivity.
  - vm_compute in Heq. discriminate Heq.
Qed.

(** ** The statements at work on the example scenes *)

Lemma zoompan_short_clip_witness :
  (1 <> 0)%nat
  /\ (0.07 / inject_Z (Z.of_nat 1) < 0.08)%Q
  /\ frames_per_image 0.07 1 = 1%Z
  /\ (forall rpow on,
        eval rpow on (zoom_denominator (frames_per_image 0.07 1))
        = (inject_Z (frames_per_image 0.07 1) - 1)%Q
        /\ (eval rpow on (zoom_denominator (frames_per_image 0.07 1)) <= 0)%Q).
Proof.
  assert (H1 : (1 <> 0)%nat) by discriminate.
  assert (H2 : (0.07 / inject_Z (Z.of_nat 1) < 0.08)%Q) by reflexivity.
  split; [exact H1|]. split; [exact H2|]. split; [reflexivity|].
  exact (proj2 (proj2 (proj2 (proj2
    (short_clips_divide_by_nothing (E := unit) Studio.repr Studio.float
       Studio.json_duration Studio.abspath Studio.glob Studio.process
       0.07 1 H1 H2))))).
Defined.

Lemma concat_stage_checks_clips_witness :
  let clips := clips_of "./static/scene_1/" 3 in
  let w := Studio.world_of two_clips in
  let missing := filter (fun clip => files w !! clip = None) clips in
  missing = ["./static/scene_1/temp_clip_03.mp4"]
  /\ concat_stage Studio.abspath Studio.process "./static/scene_1/" clips w
     = (Exit 1, w, [Printed (MissingClips missing)])
  /\ exists r w' rest,
       concat_stage Studio.abspath Studio.process "./static/scene_1/" clips
         (Studio.world_of three_clips)
       = (r, w',
          Wrote "./static/scene_1/concat_list.txt"
            (manifest Studio.abspath clips)
          :: Ran (cmd_concat Studio.abspath "./static/scene_1/")
               (Some (Completed 0 "" "")) :: rest).
Proof.
  intros clips w missing.
  assert (Hm : missing = ["./static/scene_1/temp_clip_03.mp4"])
    by (vm_compute; reflexivity).
  split; [exact Hm|]. split.
  - apply (concat_stage_checks_clips Studio.abspath Studio.process
             "./static/scene_1/" clips w).
    fold missing. rewrite Hm. discriminate.
  - destruct (concat_stage_checks_clips Studio.abspath Studio.process
                "./static/scene_1/" clips (Studio.world_of three_clips))
      as (_ & Hall & _).
    destruct Hall as (r & w' & rest & Hrun & _); [vm_compute; reflexivity|].
    exists r, w', rest. exact Hrun.
Defined.

Lemma mux_stage_silence_check_witness :
  exists w1 probes,
    mux_stage Studio.float Studio.process Studio.cfg
      (Studio.world_of scene_with_silence)
    = (Exit 1, w1, probes ++ [Printed AudioSilentOrInvalid])%list
    /\ Forall (is_probe (audio_file Studio.cfg)) probes.
Proof.
  destruct (mux_stage_silence_check Studio.float Studio.process Studio.cfg
              (Studio.world_of scene_with_silence))
    as [(silent & w1 & probes & Hrun & Hp & _ & Hs & _) _].
  exists w1, probes. split; [|exact Hp]. apply Hs.
  vm_compute in Hrun. now injection Hrun as <- _ _.
Defined.

Lemma is_audio_silent_lenient_witness :
  (is_audio_silent Studio.float Studio.process (audio_file Studio.cfg)
     (Studio.world_of scene_without_volume)).1.1 = Value false.
Proof.
  destruct (is_audio_silent_lenient Studio.float Studio.process Studio.cfg
              (Studio.world_of scene_without_volume) 12) as [H _].
  - reflexivity.
  - discriminate.
  - right. eexists. split; [reflexivity|]. right. constructor.
  - rewrite H. reflexivity.
Defined.


Lemma cleanup_exactly_on_success_witness :
  match Studio.pipeline (Studio.world_of Studio.scene) with
  | (r, w', t) =>
      r = Value tt
      /\ cleaned_up t
      /\ files w' !! "./static/scene_1/temp_clip_01.mp4" = None
      /\ files w' !! "./static/scene_1/temp_clip_02.mp4" = None
      /\ files w' !! "./static/scene_1/temp_clip_03.mp4" = None
      /\ files w' !! "./static/scene_1/concat_list.txt" = None
      /\ is_Some (files w' !! "./static/scene_1/temp_video.mp4")
  end.
Proof.
  pose proof (cleanup_exactly_on_success Studio.repr Studio.float
                Studio.json_duration Studio.abspath Studio.glob Studio.process
                Studio.cfg (Studio.world_of Studio.scene)) as H.
  cbv zeta in H. unfold Studio.pipeline.
  destruct (pipeline _ _ _ _ _ _ _ _) as [[r w'] t] eqn:Hrun.
  destruct H as (_ & _ & Habsent & _).
  assert (Hc : cleaned_up t).
  { vm_compute in Hrun. injection Hrun as _ _ <-. unfold cleaned_up. find_in_trace. }
  destruct (Habsent Hc) as [Hclips Hconcat].
  split; [vm_compute in Hrun; now injection Hrun as <- _ _|].
  split; [exact Hc|].
  split; [apply Hclips; vm_compute; tauto|].
  split; [apply Hclips; vm_compute; tauto|].
  split; [apply Hclips; vm_compute; tauto|].
  split; [exact Hconcat|].
  vm_compute in Hrun. injection Hrun as _ <- _. vm_compute. eauto.
Defined.

Lemma music_mix_reads_subtitled_output_witness :
  exists o3 rest,
    (music_stage Studio.repr Studio.json_duration Studio.glob Studio.process
       Studio.cfg (Studio.world_of scene_with_music)).2
    = ([Ran (cmd_ffprobe_json "./static/scene_1/speech.mp3")
          (Some (Completed 0 ("12.0" ++ newline) ""));
        Ran (trim_cmd Studio.repr "./static/scene_1/music_calm.mp3" 12
               "./static/scene_1/music_trimmed.mp3")
          (Some (Completed 0 "" ""));
        Ran (mix_cmd "./static/scene_1/movie_subtitled.mp4"
               "./static/scene_1/music_trimmed.mp3"
               "./static/scene_1/movie_final.mp4") o3] ++ rest)%list.
Proof.
  destruct (music_mix_reads_subtitled_output Studio.repr Studio.float
              Studio.json_duration Studio.abspath Studio.glob Studio.process
              Studio.cfg (Studio.world_of scene_with_music)) as [_ H].
  destruct (H "./static/scene_1/music_calm.mp3" []) as (T & w1 & o1 & HT & Hmix);
    [vm_compute; reflexivity|].
  vm_compute in HT. injection HT as <- <- <-.
  destruct (Hmix (Completed 0 "" "")
              (<["./static/scene_1/music_trimmed.mp3" := "200.0 -18.0"]>
                 scene_with_music) tt)
    as (o3 & rest & Hrun & _); [vm_compute; reflexivity | reflexivity |].
  exists o3, rest. exact Hrun.
Defined.

(** The whole module on the example scene: the music is fetched, the three
    clips rendered, joined and muxed; there is no subtitle file, and the mix
    fails for want of [movie_subtitled.mp4]; cleanup runs. *)
Example studio_main_run :
  match Studio.main (Studio.world_of Studio.scene) with
  | (r, w', t) =>
      r = Value tt
      /\ map fst (map_to_list (files w'))
         = ["./static/scene_1/speech.mp3"; "./static/scene_1/movie.mp4";
            "./static/scene_1/music_calm.mp3";
            "./static/scene_1/music_trimmed.mp3";
            "./static/scene_1/beat_03.png"; "./static/scene_1/beat_01.png";
            "./static/scene_1/beat_02.png"; "./static/scene_1/temp_video.mp4";
            "./static/scene_1/"]
      /\ In (Printed MusicMixError) t
  end.
Proof. vm_compute. split; [reflexivity|]. split; [reflexivity|]. find_in_trace. Qed.

(** * Further properties *)

(** ** The pan and the zoom *)

Lemma Qlt_bool_false a b : Qlt_bool a b = false -> (b <= a)%Q.
Proof.
  unfold Qlt_bool. rewrite negb_false_iff. apply Qle_bool_iff.
Qed.

Lemma clamp_up a : (0 <= a)%Q -> (a <= 0.1)%Q -> (Qmax 0 (Qmin 0.3 (a + 0.2)) == a + 0.2)%Q.
Proof.
  intros H0 H1. rewrite Q.min_r by lra. apply Q.max_r. lra.
Qed.

Lemma clamp_up_bound a : (0.1 <= a)%Q -> (Qmax 0 (Qmin 0.3 (a + 0.2)) == 0.3)%Q.
Proof.
  intros H1. rewrite Q.min_l by lra. apply Q.max_r. lra.
Qed.

Lemma clamp_down a : (0.2 <= a)%Q -> (a <= 0.3)%Q -> (Qmax 0 (Qmin 0.3 (a + - 0.2)) == a + - 0.2)%Q.
Proof.
  intros H0 H1. rewrite Q.min_r by lra. apply Q.max_r. lra.
Qed.

Lemma clamp_down_bound a : (a <= 0.2)%Q -> (Qmax 0 (Qmin 0.3 (a + - 0.2)) == 0)%Q.
Proof.
  intros H1. rewrite Q.min_r by lra. apply Q.max_l. lra.
Qed.

Lemma Qabs_ge_l x c : (c <= x)%Q -> (c <= Qabs x)%Q.
Proof. intros H. eapply Qle_trans; [exact H | apply Qle_Qabs]. Qed.

Lemma Qabs_ge_r x c : (c <= - x)%Q -> (c <= Qabs x)%Q.
Proof. intros H. rewrite <- Qabs_opp. now apply Qabs_ge_l. Qed.

Lemma ensures_ensure_movement_moves a b :
  (0 <= a /\ a <= 0.3)%Q -> (0 <= b /\ b <= 0.3)%Q ->
  ensures (ensure_movement a b)
    (fun e => (0 <= e /\ e <= 0.3)%Q /\ moves_or_clamped a e).
Proof.
  intros Ha Hb. unfold ensure_movement.
  destruct (Qlt_bool (Qabs (b - a)) 0.1) eqn:Hnear.
  - eapply ensures_bind; [apply ensures_choice|].
    intros up _. apply ensures_ret. split.
    { split; [apply Q.le_max_l | apply Q.max_lub; [lra | apply Q.le_min_l]]. }
    unfold moves_or_clamped. destruct up.
    + destruct (Qlt_le_dec 0.1 a) as [Hgt|Hle].
      * rewrite (clamp_up_bound a) by lra.
        destruct (Qlt_le_dec 0.2 a) as [Hfar|Hok].
        -- right; left. split; [exact Hfar | reflexivity].
        -- left. apply Qabs_ge_l. lra.
      * rewrite (clamp_up a) by lra. left. apply Qabs_ge_l. lra.
    + destruct (Qlt_le_dec a 0.2) as [Hlt|Hge].
      * rewrite (clamp_down_bound a) by lra.
        destruct (Qlt_le_dec a 0.1) as [Hfar|Hok].
        -- right; right. split; [exact Hfar | reflexivity].
        -- left. apply Qabs_ge_r. lra.
      * rewrite (clamp_down a) by lra. left. apply Qabs_ge_r. lra.
  - apply ensures_ret. split; [exact Hb|]. left. now apply Qlt_bool_false.
Qed.

Lemma draw_motion_moves_or_clamped :
  ensures draw_motion
    (fun m => moves_or_clamped (x_start m) (x_end m)
              /\ moves_or_clamped (y_start m) (y_end m)).
Proof.
  unfold draw_motion.
  eapply ensures_bind; [apply (ensures_uniform 1.0 1.4); lra|]. intros zs _.
  eapply ensures_bind; [apply (ensures_uniform 1.2 1.5); lra|]. intros ze _.
  eapply ensures_bind; [apply ensures_choice|]. intros swap _.
  destruct (if swap then (ze, zs) else (zs, ze)) as [z1 z2].
  eapply ensures_bind; [apply (ensures_uniform 0 0.3); lra|]. intros xs Hxs.
  eapply ensures_bind; [apply (ensures_uniform 0 0.3); lra|]. intros ys Hys.
  eapply ensures_bind; [apply (ensures_uniform 0 0.3); lra|]. intros xe Hxe.
  eapply ensures_bind; [apply (ensures_uniform 0 0.3); lra|]. intros ye Hye.
  eapply ensures_bind; [apply (ensures_ensure_movement_moves xs xe); assumption|].
  intros xe' [_ Hx].
  eapply ensures_bind; [apply (ensures_ensure_movement_moves ys ye); assumption|].
  intros ye' [_ Hy].
  apply ensures_ret. cbn. split; assumption.
Qed.

(** X1. On every run of the synthesizer, the pan along each axis ends at
    least 0.1 from its start, unless it started within 0.1 of the bound it
    was nudged toward, and then it ends on that bound.  So the pan moves by
    at least 0.1 on both axes whenever both starts lie in [0.1, 0.2]. *)
Theorem pan_moves_unless_clamped (s : Rng.state) :
  unit_floats s ->
  let m := fst (draw_motion s) in
  moves_or_clamped (x_start m) (x_end m)
  /\ moves_or_clamped (y_start m) (y_end m)
  /\ ((0.1 <= x_start m /\ x_start m <= 0.2)%Q ->
      (0.1 <= y_start m /\ y_start m <= 0.2)%Q -> moves m).
Proof.
  intros Hs m.
  destruct (draw_motion_moves_or_clamped s Hs) as [[Hx Hy] _].
  fold m in Hx, Hy. split; [exact Hx|]. split; [exact Hy|].
  intros Hxs Hys. unfold moves.
  destruct Hx as [Hx|[[Hx _]|[Hx _]]], Hy as [Hy|[[Hy _]|[Hy _]]];
    try (exfalso; lra).
  split; assumption.
Qed.

Lemma central_draws_unit : unit_floats central_draws.
Proof.
  intros i. unfold central_draws, rng_of. cbn [floats].
  do 6 (destruct i as [|i]; [cbn; split; lra|]).
  destruct i; cbn; split; lra.
Qed.

Lemma pan_moves_unless_clamped_witness :
  unit_floats central_draws
  /\ (x_start (fst (draw_motion central_draws)) == 0.15)%Q
  /\ moves (fst (draw_motion central_draws)).
Proof.
  split; [exact central_draws_unit|]. split; [reflexivity|].
  apply (pan_moves_unless_clamped central_draws central_draws_unit);
    split; vm_compute; discriminate.
Defined.

Lemma unit_progress (n d : Q) :
  (0 < d)%Q -> (0 <= n)%Q -> (n <= d)%Q -> (0 <= n / d /\ n / d <= 1)%Q.
Proof.
  intros Hd H0 H1. split.
  - apply Qle_shift_div_l; [exact Hd | lra].
  - apply Qle_shift_div_r; [exact Hd | lra].
Qed.

Lemma between_when_unit (a b q : Q) (lo hi : Q) :
  (lo <= a /\ a <= hi)%Q -> (lo <= b /\ b <= hi)%Q -> (0 <= q /\ q <= 1)%Q ->
  (lo <= a + (b - a) * q /\ a + (b - a) * q <= hi)%Q.
Proof. intros Ha Hb Hq. split; nra. Qed.

(** X2. For a clip of at least two frames and values within their ranges,
    the zoom factor of the emitted expression lies in [1, 1.5] at every
    frame number from 0 to the frame count; it is [zoom_start] up to frame
    1 and reaches [zoom_end] at the last frame. *)
Theorem zoom_curve_stays_in_range (repr : Q -> string) (rpow : Q -> Q -> Q)
    (m : motion) (D : Z) (on : Q) :
  (2 <= D)%Z -> in_ranges m -> (0 <= on)%Q -> (on <= inject_Z D)%Q ->
  (1 <= eval rpow on (zoom_curve repr m D)
   /\ eval rpow on (zoom_curve repr m D) <= 1.5)%Q
  /\ ((on <= 1)%Q -> eval rpow on (zoom_curve repr m D) = zoom_start m)
  /\ (eval rpow (inject_Z D) (zoom_curve repr m D) == zoom_end m)%Q.
Proof.
  intros HD (Hzs & Hze & _) H0 HDon.
  assert (Hd : (0 < inject_Z D - 1)%Q).
  { assert (H : (inject_Z 2 <= inject_Z D)%Q) by (rewrite <- Zle_Qle; exact HD).
    change (inject_Z 2) with 2%Q in H. lra. }
  assert (Heval : forall x,
    eval rpow x (zoom_curve repr m D)
    = if Qle_bool x 1 then zoom_start m
      else (zoom_start m + (zoom_end m - zoom_start m)
            * ((x - 1) / (inject_Z D - 1)) ^ 2)%Q).
  { intros x. unfold zoom_curve, zoom_denominator, lit_float, lit_int.
    cbn [eval]. change (inject_Z 1) with 1%Q.
    destruct (Qle_bool x 1); reflexivity. }
  split; [|split].
  - rewrite Heval. destruct (Qle_bool on 1) eqn:Hle; [lra|].
    assert (H1 : (1 < on)%Q).
    { apply Qnot_le_lt. intros H. apply Qle_bool_iff in H. congruence. }
    destruct (unit_progress (on - 1) (inject_Z D - 1)) as [Hp0 Hp1]; try lra.
    set (p := ((on - 1) / (inject_Z D - 1))%Q) in *.
    assert (Hq : (0 <= p ^ 2 /\ p ^ 2 <= 1)%Q).
    { change (p ^ 2)%Q with (p * p)%Q. split; nra. }
    apply between_when_unit; assumption.
  - intros Hle. rewrite Heval. apply Qle_bool_iff in Hle. now rewrite Hle.
  - rewrite Heval. destruct (Qle_bool (inject_Z D) 1) eqn:Hle.
    + apply Qle_bool_iff in Hle. exfalso. lra.
    + assert (Hone : ((inject_Z D - 1) / (inject_Z D - 1) == 1)%Q)
        by (field; lra).
      rewrite Hone. change (1 ^ 2)%Q with (1 * 1)%Q. ring.
Qed.

Lemma zoom_curve_stays_in_range_witness :
  let m := fst (draw_motion central_draws) in
  (1 <= eval (fun _ _ => 0) 50 (zoom_curve Studio.repr m 100)
   /\ eval (fun _ _ => 0) 50 (zoom_curve Studio.repr m 100) <= 1.5)%Q
  /\ (eval (fun _ _ => 0) (inject_Z 100) (zoom_curve Studio.repr m 100)
      == zoom_end m)%Q.
Proof.
  intros m.
  destruct (zoom_curve_stays_in_range Studio.repr (fun _ _ => 0%Q) m 100 50)
    as (H1 & _ & H2).
  - discriminate.
  - apply draw_motion_in_ranges, central_draws_unit.
  - discriminate.
  - discriminate.
  - split; [exact H1 | exact H2].
Defined.

(** X3. For a clip of at least one frame, pan values within [0, 0.3], and a
    power function that keeps the unit interval, each pan coordinate of the
    emitted expression lies in [0, 0.3] at every frame number from 0 to the
    frame count. *)
Theorem pan_curve_stays_in_range (repr : Q -> string) (rpow : Q -> Q -> Q)
    (start end_ : Q) (D : Z) (on : Q) :
  (forall x, (0 <= x)%Q -> (x <= 1)%Q ->
             (0 <= rpow x 1.5 /\ rpow x 1.5 <= 1)%Q) ->
  (1 <= D)%Z ->
  (0 <= start /\ start <= 0.3)%Q -> (0 <= end_ /\ end_ <= 0.3)%Q ->
  (0 <= on)%Q -> (on <= inject_Z D)%Q ->
  (0 <= eval rpow on (pan_curve repr start end_ D)
   /\ eval rpow on (pan_curve repr start end_ D) <= 0.3)%Q.
Proof.
  intros Hpow HD Hs He H0 HDon.
  assert (Hd : (0 < inject_Z D)%Q).
  { assert (H : (inject_Z 1 <= inject_Z D)%Q) by (rewrite <- Zle_Qle; exact HD).
    change (inject_Z 1) with 1%Q in H. lra. }
  assert (Heval : eval rpow on (pan_curve repr start end_ D)
                  = (start + (end_ - start) * rpow (on / inject_Z D) 1.5)%Q)
    by reflexivity.
  rewrite Heval.
  destruct (unit_progress on (inject_Z D)) as [Hp0 Hp1]; try assumption.
  apply between_when_unit; try assumption. now apply Hpow.
Qed.

Lemma pan_curve_stays_in_range_witness :
  (0 <= eval (fun x _ => x) 50 (pan_curve Studio.repr 0.1 0.3 100)
   /\ eval (fun x _ => x) 50 (pan_curve Studio.repr 0.1 0.3 100) <= 0.3)%Q.
Proof.
  apply (pan_curve_stays_in_range Studio.repr (fun x _ => x) 0.1 0.3 100 50).
  - intros x H0 H1. split; assumption.
  - discriminate.
  - split; discriminate.
  - split; discriminate.
  - discriminate.
  - discriminate.
Defined.

(** ** The probes and the discovery of the scene *)

(** X4. [get_audio_duration] never raises and never exits: it runs the
    probe once and returns the duration read from its output, whatever its
    exit status, and 30.0 when the probe cannot be started or its output
    cannot be read. *)
Theorem get_audio_duration_falls_back {E : Type}
    (json_duration : string -> option Q)
    (process : list string -> gmap string string -> E ->
               option completed * gmap string string * E)
    (audio_file : string) (w : world E) :
  let o := process (cmd_ffprobe_json audio_file) (files w) (outside w) in
  get_audio_duration json_duration process audio_file w
  = (Value match o.1.1 with
           | Some c => default 30.0%Q (json_duration (stdout c))
           | None => 30.0%Q
           end,
     World o.1.2 (rng w) o.2,
     [Ran (cmd_ffprobe_json audio_file) o.1.1]).
Proof.
  intros o. subst o.
  unfold get_audio_duration, try_except, bind, subprocess_run.
  destruct (process _ (files w) (outside w)) as [[[c|] fs] e]; cbn.
  - destruct (json_duration (stdout c)); reflexivity.
  - reflexivity.
Qed.

(** X5. [get_image_files] returns the paths that match, each as often as
    [glob] gives it, in ascending order of name; it changes nothing. *)
Theorem get_image_files_sorted {E : Type}
    (glob : string -> gmap string string -> list string)
    (image_folder : string) (w : world E) :
  exists images,
    get_image_files glob image_folder w = (Value images, w, [])
    /\ images ≡ₚ glob (Py.path_join image_folder "beat_*.png") (files w)
    /\ StronglySorted String.le images.
Proof.
  eexists. split; [reflexivity|]. split.
  - apply merge_sort_Permutation.
  - apply StronglySorted_merge_sort; apply _.
Qed.

Lemma latest_scene_from {E : Type} (getmtime : string -> E -> Q) (e : E)
    (others : list string) : forall best,
  let x := latest_scene getmtime e best others in
  In x (best :: others)
  /\ (getmtime best e <= getmtime x e)%Q
  /\ forall y, In y others -> (getmtime y e <= getmtime x e)%Q.
Proof.
  induction others as [|d ds IH]; intros best; cbn.
  - split; [now left|]. split; [apply Qle_refl | tauto].
  - unfold latest_scene in *. cbn [fold_left].
    destruct (Qlt_bool (getmtime best e) (getmtime d e)) eqn:Hlt.
    + apply Qlt_bool_iff in Hlt.
      destruct (IH d) as (Hin & Hd & Hall). cbn in Hin.
      split; [tauto|]. split; [lra|].
      intros y [<-|Hy]; [exact Hd | now apply Hall].
    + apply Qlt_bool_false in Hlt.
      destruct (IH best) as (Hin & Hb & Hall). cbn in Hin.
      split; [tauto|]. split; [exact Hb|].
      intros y [<-|Hy]; [lra | now apply Hall].
Qed.

(** X6. The scene the script works on is one of the directories found, and
    none of them was modified later; without any directory there is no
    scene.  Finding it changes nothing. *)
Theorem find_scene_is_latest {E : Type}
    (glob : string -> gmap string string -> list string)
    (getmtime : string -> E -> Q) (w : world E) :
  let scene_dirs := glob "./static/scene_*/" (files w) in
  exists scene,
    find_scene glob getmtime w = (Value scene, w, [])
    /\ match scene with
       | None => scene_dirs = []
       | Some dir =>
           In dir scene_dirs
           /\ forall other, In other scene_dirs ->
                (getmtime other (outside w) <= getmtime dir (outside w))%Q
       end.
Proof.
  intros scene_dirs. unfold find_scene, bind, glob_glob. fold scene_dirs.
  destruct scene_dirs as [|d ds]; cbn.
  - exists None. split; reflexivity.
  - exists (Some (latest_scene getmtime (outside w) d ds)).
    split; [reflexivity|].
    destruct (latest_scene_from getmtime (outside w) ds d) as (Hin & Hd & Hall).
    split; [exact Hin|]. intros other [<-|Ho]; [exact Hd | now apply Hall].
Qed.

(** ** The music catalogue and the start of the script *)

Section Fetching.

Context {E : Type}.
Variable jamendo_tracks : string -> E -> option (list track) * E.
Variable download : string -> E -> option string * E.

(** What fetching does to the files, by the way it ends. *)
Lemma fetch_jamendo_track_run id sp (w : world E) :
  match fetch_jamendo_track jamendo_tracks download id sp w with
  | (Value _, w', t) =>
      exists dir tracks e track content,
        sp = Some dir
        /\ jamendo_tracks id (outside w) = (Some tracks, e)
        /\ In track tracks
        /\ let path := Py.path_join dir ("music_" ++ track_name track ++ ".mp3") in
           t = [Wrote path content]
           /\ files w' = <[path := content]> (files w)
  | (Exit _, _, _) => False
  | (Raised, w', t) => t = [] /\ files w' = files w
  end.
Proof.
  unfold fetch_jamendo_track, bind at 1, request_tracks.
  destruct (jamendo_tracks id (outside w)) as [[[|t0 ts]|] e] eqn:Hj;
    cbn [raise]; try (split; reflexivity).
  unfold bind at 1, draw at 1. cbn [rng files outside].
  assert (Hin : In (choice t0 ts (rng w)).1 (t0 :: ts)).
  { unfold choice, Rng.bind, randbelow, Rng.ret. cbn [fst].
    set (k := (_ mod _)%nat). destruct k as [|k]; [now left|].
    cbn [nth]. destruct (Nat.lt_ge_cases k (length ts)) as [Hlt|Hge].
    - right. now apply nth_In.
    - left. now rewrite nth_overflow. }
  destruct (choice t0 ts (rng w)) as [track s]. cbn [fst] in Hin.
  unfold bind at 1, request_content. cbn [outside files rng app].
  destruct (download (track_audio track) e) as [[content|] e'];
    [|split; reflexivity].
  destruct sp as [dir|]; cbn; [|split; reflexivity].
  exists dir, (t0 :: ts), e, track, content. auto 10.
Qed.

End Fetching.

(** X7. Fetching the music either writes one file into the scene
    directory, [music_<name>.mp3] with the audio of one of the tracks of the
    catalogue, or raises having written nothing: so it does when the
    catalogue cannot be read or is empty, when the download fails, and
    always when there is no scene directory.  It never exits. *)
Theorem fetch_jamendo_track_writes_or_raises {E : Type}
    (jamendo_tracks : string -> E -> option (list track) * E)
    (download : string -> E -> option string * E)
    (client_id : string) (scene_path : option string) (w : world E) :
  match fetch_jamendo_track jamendo_tracks download client_id scene_path w with
  | (Value _, w', t) =>
      exists dir tracks e track content,
        scene_path = Some dir
        /\ jamendo_tracks client_id (outside w) = (Some tracks, e)
        /\ In track tracks
        /\ let path := Py.path_join dir ("music_" ++ track_name track ++ ".mp3") in
           t = [Wrote path content]
           /\ files w' = <[path := content]> (files w)
  | (Exit _, _, _) => False
  | (Raised, w', t) => t = [] /\ files w' = files w
  end.
Proof. apply fetch_jamendo_track_run. Qed.

(** X8. Started without the variable [JAMENDO_CLIENT], or with an empty
    one, the script raises at once.  Started where no scene directory is
    found, it raises after the catalogue requests, having written nothing
    and run no process: the configuration of lines 105-108 is never used. *)
Theorem main_needs_client_and_scene {E : Type} (repr : Q -> string)
    (float json_duration : string -> option Q) (abspath : string -> string)
    (glob : string -> gmap string string -> list string)
    (getmtime : string -> E -> Q)
    (process : list string -> gmap string string -> E ->
               option completed * gmap string string * E)
    (jamendo_tracks : string -> E -> option (list track) * E)
    (download : string -> E -> option string * E)
    (w : world E) :
  let run := main repr float json_duration abspath glob getmtime process
               jamendo_tracks download in
  run None w = (Raised, w, [])
  /\ run (Some "") w = (Raised, w, [])
  /\ (forall client_id,
        glob "./static/scene_*/" (files w) = [] ->
        exists w', run client_id w = (Raised, w', [])
                   /\ files w' = files w).
Proof.
  intros run. split; [reflexivity|]. split; [reflexivity|].
  intros client_id Hg. subst run. unfold main.
  destruct client_id as [id|]; [|eauto].
  destruct (String.eqb id ""); [eauto|].
  unfold bind at 1, find_scene, bind at 1, glob_glob. rewrite Hg. cbn [app].
  pose proof (fetch_jamendo_track_run jamendo_tracks download id None w) as H.
  unfold bind.
  destruct (fetch_jamendo_track _ _ id None w) as [[[[]|code|] w'] t].
  - destruct H as (dir & ? & ? & ? & ? & Hsp & _). discriminate Hsp.
  - contradiction.
  - destruct H as [-> Hf]. eauto.
Qed.

Lemma main_needs_client_and_scene_witness :
  exists w',
    Studio.main (Studio.world_of ∅) = (Raised, w', [])
    /\ files w' = ∅.
Proof.
  destruct (main_needs_client_and_scene Studio.repr Studio.float
              Studio.json_duration Studio.abspath Studio.glob Studio.getmtime
              Studio.process Studio.jamendo_tracks Studio.download
              (Studio.world_of ∅)) as (_ & _ & H).
  apply (H (Some "id")). reflexivity.
Defined.

(** ** The clips *)

Lemma commands_app t1 t2 : commands (t1 ++ t2) = (commands t1 ++ commands t2)%list.
Proof.
  induction t1 as [|[] t1 IH]; cbn; [reflexivity | now rewrite IH | auto ..].
Qed.

Section Rendering.

Context {E : Type}.
Variable repr : Q -> string.
Variable process :
  list string -> gmap string string -> E ->
  option completed * gmap string string * E.
Hypothesis started : always_starts process.

Lemma render_clips_all folder T N images : forall i clips (w : world E),
  exists w' t,
    render_clips repr process folder T N i images clips w
    = (Value (clips ++ map (temp_clip_path folder) (seq i (length images)))%list,
       w', t)
    /\ map clip_input (commands t) = images
    /\ map clip_output (commands t)
       = map (temp_clip_path folder) (seq i (length images)).
Proof.
  induction images as [|img rest IH]; intros i clips w.
  - cbn. eexists _, _. split; [now rewrite app_nil_r|]. split; reflexivity.
  - cbn [render_clips]. unfold bind at 1, draw at 1.
    destruct (generate_random_zoompan repr _ (rng w)) as [filter s].
    set (w0 := World _ _ _).
    unfold bind at 1.
    destruct (subprocess_run_returns process started
                (cmd_clip repr img filter (time_per_image T N)
                   (temp_clip_path folder i)) w0) as (c & w1 & ->).
    unfold bind at 1.
    destruct (IH (S i) (clips ++ [temp_clip_path folder i])%list w1)
      as (w' & t & Hrun & Hin & Hout).
    destruct (negb (returncode c =? 0)%Z); cbn [print pure app];
      rewrite Hrun; eexists _, _;
      (split; [cbn [length seq map]; now rewrite <- app_assoc|]);
      cbn [app commands map]; rewrite Hin, Hout; split; reflexivity.
Qed.

End Rendering.

(** X9. When every encoder process can be started, the loop over the images
    returns one clip path per image, numbered in order, whatever the exit
    statuses: a clip that fails to encode is reported and the loop goes on.
    It starts exactly one process per image, in the order of the images,
    each writing to the path of its number. *)
Theorem render_clips_goes_through_all {E : Type} (repr : Q -> string)
    (process : list string -> gmap string string -> E ->
               option completed * gmap string string * E)
    (image_folder : string) (audio_duration : Q) (num_images : nat)
    (image_files : list string) (w : world E) :
  always_starts process ->
  exists w' t,
    render_clips repr process image_folder audio_duration num_images 0
      image_files [] w
    = (Value (clips_of image_folder (length image_files)), w', t)
    /\ map clip_input (commands t) = image_files
    /\ map clip_output (commands t)
       = clips_of image_folder (length image_files).
Proof.
  intros started.
  exact (render_clips_all repr process started image_folder audio_duration
           num_images image_files 0 [] w).
Qed.

Lemma render_clips_goes_through_all_witness :
  exists w' t,
    render_clips Studio.repr failing_process "./static/scene_1/" 12 3 0
      ["./static/scene_1/beat_01.png"; "./static/scene_1/beat_02.png";
       "./static/scene_1/beat_03.png"] [] (Studio.world_of Studio.scene)
    = (Value ["./static/scene_1/temp_clip_01.mp4";
              "./static/scene_1/temp_clip_02.mp4";
              "./static/scene_1/temp_clip_03.mp4"], w', t)
    /\ In (Printed ClipError) t.
Proof.
  destruct (render_clips_goes_through_all Studio.repr failing_process
              "./static/scene_1/" 12 3
              ["./static/scene_1/beat_01.png"; "./static/scene_1/beat_02.png";
               "./static/scene_1/beat_03.png"] (Studio.world_of Studio.scene))
    as (w' & t & Hrun & _).
  - intros argv fs e. eexists. reflexivity.
  - exists w', t. split; [exact Hrun|].
    vm_compute in Hrun. injection Hrun as _ <-. find_in_trace.
Defined.

(** ** The names of the intermediate files *)

Lemma pretty_N_go_length x : forall s,
  (String.length s <= String.length (pretty_N_go x s))%nat.
Proof.
  induction (N.lt_wf_0 x) as [x _ IH]; intros s.
  destruct (decide (x = 0)%N) as [->|Hx]; [now rewrite pretty_N_go_0|].
  rewrite pretty_N_go_step by lia.
  etransitivity; [|apply IH; apply N.div_lt; lia]. cbn. lia.
Qed.

Lemma pretty_N_char_zero x : (0 < x < 10)%N -> pretty_N_char x <> "0"%char.
Proof.
  intros Hx.
  assert (x = 1 \/ x = 2 \/ x = 3 \/ x = 4 \/ x = 5 \/ x = 6
          \/ x = 7 \/ x = 8 \/ x = 9)%N as H by lia.
  destruct H as [->|[->|[->|[->|[->|[->|[->|[->| ->]]]]]]]]; discriminate.
Qed.

(** A number of two digits or more is not printed with a leading zero
    followed by one more character. *)
Lemma pretty_two_digits (b : N) (c : ascii) :
  (10 <= b)%N -> pretty b <> String "0" (String c "").
Proof.
  intros Hb. unfold pretty, pretty_N.
  rewrite decide_False by lia.
  rewrite 2!pretty_N_go_step by (try apply N.div_str_pos_iff; lia).
  destruct (decide (b < 100)%N) as [Hsmall|Hbig].
  - assert (H0 : ((b `div` 10) `div` 10 = 0)%N).
    { apply N.div_small. apply N.Div0.div_lt_upper_bound. lia. }
    rewrite H0, pretty_N_go_0. intros [= Hc _].
    revert Hc. apply pretty_N_char_zero.
    assert ((b `div` 10) `mod` 10 = b `div` 10)%N as ->.
    { apply N.mod_small. apply N.Div0.div_lt_upper_bound. lia. }
    split; [apply N.div_str_pos; lia | apply N.Div0.div_lt_upper_bound; lia].
  - intros Heq. apply (f_equal String.length) in Heq.
    change (String.length (String "0" (String c ""))) with 2%nat in Heq.
    assert (Hpos : (0 < (b `div` 10) `div` 10)%N).
    { apply N.div_str_pos. split; [lia|].
      apply N.div_le_lower_bound; lia. }
    rewrite pretty_N_go_step in Heq by exact Hpos.
    match type of Heq with
    | String.length (pretty_N_go ?y ?s) = _ =>
        pose proof (pretty_N_go_length y s) as Hlen
    end.
    rewrite Heq in Hlen. cbn in Hlen. lia.
Qed.

Lemma str_int_of_nat n : str_int (Z.of_nat n) = pretty (N.of_nat n).
Proof.
  unfold str_int, pretty, pretty_Z.
  destruct n as [|n]; [reflexivity|].
  cbn [Z.of_nat N.of_nat]. reflexivity.
Qed.

Lemma fmt_02d_inj i j : fmt_02d i = fmt_02d j -> i = j.
Proof.
  unfold fmt_02d. rewrite !str_int_of_nat.
  destruct (i <? 10)%nat eqn:Hi, (j <? 10)%nat eqn:Hj;
    apply Nat.ltb_lt in Hi || apply Nat.ltb_ge in Hi;
    apply Nat.ltb_lt in Hj || apply Nat.ltb_ge in Hj; intros H.
  - apply String.app_inj in H. apply pretty_N_inj in H. lia.
  - exfalso. symmetry in H. revert H.
    assert (exists c, pretty (N.of_nat i) = String c "") as [c ->].
    { do 10 (destruct i as [|i]; [eexists; reflexivity|]). lia. }
    apply pretty_two_digits. lia.
  - exfalso. revert H.
    assert (exists c, pretty (N.of_nat j) = String c "") as [c ->].
    { do 10 (destruct j as [|j]; [eexists; reflexivity|]). lia. }
    apply pretty_two_digits. lia.
  - apply pretty_N_inj in H. lia.
Qed.

Lemma append_length (a b : string) :
  String.length (a ++ b) = (String.length a + String.length b)%nat.
Proof.
  induction a as [|c a IH]; [reflexivity|].
  change (S (String.length (a ++ b)) = S (String.length a + String.length b)).
  now rewrite IH.
Qed.

Lemma append_inj_r (c : string) : forall a b : string, a ++ c = b ++ c -> a = b.
Proof.
  assert (Hlen : forall a b : string, a ++ c = b ++ c ->
                 String.length a = String.length b).
  { intros a b H. apply (f_equal String.length) in H.
    rewrite !append_length in H. lia. }
  induction a as [|x a IH]; intros [|y b] H.
  - reflexivity.
  - apply Hlen in H. discriminate H.
  - apply Hlen in H. discriminate H.
  - change (String x (a ++ c) = String y (b ++ c)) in H.
    injection H as -> H. f_equal. now apply IH.
Qed.

Lemma manifest_not_a_clip folder i : concat_file folder <> temp_clip_path folder i.
Proof.
  unfold concat_file, temp_clip_path. intros H.
  apply path_join_inj in H; [|reflexivity|reflexivity].
  cbv [String.append] in H. discriminate.
Qed.

(** X10. The intermediate files of a run never share a name: the clips of
    two different images have different paths, whatever their number, and
    none of them is the path of the manifest or of the joined video. *)
Theorem intermediate_paths_distinct (image_folder : string) (i j : nat) :
  (i <> j -> temp_clip_path image_folder i <> temp_clip_path image_folder j)
  /\ temp_clip_path image_folder i <> concat_file image_folder
  /\ temp_clip_path image_folder i <> temp_video image_folder
  /\ concat_file image_folder <> temp_video image_folder.
Proof.
  split; [|split; [|split]].
  - intros Hne H. apply Hne. unfold temp_clip_path in H.
    apply path_join_inj in H; [|reflexivity|reflexivity].
    apply (String.app_inj "temp_clip_") in H.
    assert (Hf : fmt_02d (i + 1) = fmt_02d (j + 1))
      by (revert H; apply append_inj_r).
    apply fmt_02d_inj in Hf. lia.
  - intros H. symmetry in H. revert H. apply manifest_not_a_clip.
  - intros H. symmetry in H. revert H. apply temp_video_not_a_clip.
  - intros H. symmetry in H. revert H. apply temp_video_not_the_manifest.
Qed.

(** ** What the stages leave behind *)

(** X11. The concatenation stage returns only when every clip was there,
    the encoder exited with status zero on the manifest it wrote, and
    [temp_video.mp4] exists afterwards; every other way out is [exit(1)],
    or the exception of an encoder that could not be started. *)
Theorem concat_stage_postcondition {E : Type} (abspath : string -> string)
    (process : list string -> gmap string string -> E ->
               option completed * gmap string string * E)
    (image_folder : string) (temp_clips : list string) (w : world E) :
  match concat_stage abspath process image_folder temp_clips w with
  | (r, w', t) =>
      (r = Value tt ->
       (forall clip, In clip temp_clips -> is_Some (files w !! clip))
       /\ (exists c,
             t = [Wrote (concat_file image_folder) (manifest abspath temp_clips);
                  Ran (cmd_concat abspath image_folder) (Some c)]
             /\ returncode c = 0%Z)
       /\ is_Some (files w' !! temp_video image_folder))
      /\ (forall code, r = Exit code -> code = 1%Z)
      /\ (r = Raised ->
          t = [Wrote (concat_file image_folder) (manifest abspath temp_clips);
               Ran (cmd_concat abspath image_folder) None])
  end.
Proof.
  unfold concat_stage, bind at 1, find_missing_clips.
  destruct (filter _ temp_clips) as [|m ms] eqn:Hmiss.
  - assert (Hall : forall clip, In clip temp_clips -> is_Some (files w !! clip)).
    { intros clip Hin. destruct (files w !! clip) eqn:Hc; [eauto|].
      exfalso. assert (Hel : clip ∈ filter (fun c => files w !! c = None) temp_clips).
      { apply list_elem_of_filter. split; [exact Hc | now apply list_elem_of_In]. }
      rewrite Hmiss in Hel. now apply not_elem_of_nil in Hel. }
    cbn [app]. unfold bind at 1. cbn [write_file].
    set (w1 := World _ _ _). unfold bind at 1, subprocess_run.
    destruct (process _ (files w1) (outside w1)) as [[[c|] fs] e].
    + destruct (returncode c =? 0)%Z eqn:Hz; cbn [negb].
      * unfold bind, path_exists. cbn [files].
        destruct (fs !! temp_video image_folder) as [v|] eqn:Hv.
        -- rewrite bool_decide_eq_true_2 by eauto. cbn.
           split; [|split; [discriminate | discriminate]].
           intros _. split; [exact Hall|]. split; [|rewrite Hv; eauto].
           exists c. split; [reflexivity | now apply Z.eqb_eq].
        -- rewrite bool_decide_eq_false_2 by (intros [? ?]; discriminate).
           cbn. split; [discriminate|]. split; [|discriminate].
           now intros code [= <-].
      * cbn. split; [discriminate|]. split; [|discriminate].
        now intros code [= <-].
    + cbn. split; [discriminate|]. split; [discriminate|]. reflexivity.
  - cbn. split; [discriminate|]. split; [|discriminate].
    now intros code [= <-].
Qed.

Lemma subprocess_run_run {E : Type}
    (process : list string -> gmap string string -> E ->
               option completed * gmap string string * E)
    (argv : list string) (w : world E) :
  subprocess_run process argv w
  = (match outcome_of process argv w with
     | Some c => Value c
     | None => Raised
     end,
     world_after process argv w,
     [Ran argv (outcome_of process argv w)]).
Proof.
  unfold subprocess_run, outcome_of, world_after.
  destruct (process argv (files w) (outside w)) as [[[c|] fs] e]; reflexivity.
Qed.

(** X12. Without a subtitle file the subtitle stage runs nothing and
    changes nothing.  With one it runs the burn-in once, from the muxed
    video to [movie_subtitled.mp4] with the audio copied, and returns
    whatever the exit status: a failed burn-in is only reported.  The stage
    never exits. *)
Theorem subtitle_stage_is_optional {E : Type} (abspath : string -> string)
    (process : list string -> gmap string string -> E ->
               option completed * gmap string string * E)
    (cfg : config) (w : world E) :
  let srt_file := Py.path_join (image_folder cfg) "speech.srt" in
  let argv :=
    ["ffmpeg"; "-y"; "-i"; output_file cfg;
     "-vf"; subtitle_filter_arg abspath srt_file; "-c:a"; "copy";
     subtitled_output (image_folder cfg)] in
  (files w !! srt_file = None ->
   subtitle_stage abspath process cfg w = (Value tt, w, [Printed NoSubtitleFile]))
  /\ (is_Some (files w !! srt_file) ->
      forall c, outcome_of process argv w = Some c ->
        subtitle_stage abspath process cfg w
        = (Value tt, world_after process argv w,
           Ran argv (Some c)
           :: if (returncode c =? 0)%Z then [] else [Printed SubtitleError]))
  /\ (forall code, (subtitle_stage abspath process cfg w).1.1 <> Exit code).
Proof.
  intros srt_file argv.
  assert (Hargv : cmd_sub (output_file cfg) (subtitle_filter_arg abspath srt_file)
                    (subtitled_output (image_folder cfg)) = argv) by reflexivity.
  unfold subtitle_stage. fold srt_file. rewrite Hargv.
  unfold path_exists.
  split; [|split].
  - intros Hnone. unfold bind at 1. rewrite Hnone.
    rewrite bool_decide_eq_false_2 by (intros [? ?]; discriminate). reflexivity.
  - intros Hsome c Hc. unfold bind at 1.
    rewrite bool_decide_eq_true_2 by exact Hsome.
    cbn [app]. unfold bind. rewrite subprocess_run_run, Hc.
    destruct (returncode c =? 0)%Z; reflexivity.
  - intros code. unfold bind at 1.
    case_bool_decide; [|intros Hr; discriminate Hr].
    cbn [app]. unfold bind. rewrite subprocess_run_run.
    destruct (outcome_of process argv w) as [c|]; [|intros Hr; discriminate Hr].
    destruct (returncode c =? 0)%Z; intros Hr; discriminate Hr.
Qed.

Lemma subtitle_stage_is_optional_witness :
  subtitle_stage Studio.abspath Studio.process Studio.cfg
    (Studio.world_of Studio.scene)
  = (Value tt, Studio.world_of Studio.scene, [Printed NoSubtitleFile])
  /\ exists w',
       subtitle_stage Studio.abspath Studio.process Studio.cfg
         (Studio.world_of scene_with_subtitles)
       = (Value tt, w',
          [Ran ["ffmpeg"; "-y"; "-i"; "./static/scene_1/movie.mp4";
                "-vf"; "subtitles='/work/static/scene_1/speech.srt'";
                "-c:a"; "copy"; "./static/scene_1/movie_subtitled.mp4"]
             (Some (Completed 0 "" ""))])
       /\ is_Some (files w' !! "./static/scene_1/movie_subtitled.mp4").
Proof.
  split.
  - apply (subtitle_stage_is_optional Studio.abspath Studio.process Studio.cfg
             (Studio.world_of Studio.scene)). reflexivity.
  - eexists. split.
    + apply (proj1 (proj2 (subtitle_stage_is_optional Studio.abspath
               Studio.process Studio.cfg (Studio.world_of scene_with_subtitles)))).
      * vm_compute. eauto.
      * reflexivity.
    + vm_compute. eauto.
Defined.

(** ** The path of the subtitle file *)

Lemma replace_backslash_go s :
  Py.replace_go "\" "/" 0 s
  = match s with
    | "" => ""
    | String c rest =>
        String (if Ascii.eqb c "\" then "/"%char else c)
          (Py.replace_go "\" "/" 0 rest)
    end.
Proof.
  destruct s as [|c rest]; [reflexivity|].
  cbn [Py.replace_go String.prefix String.length Nat.sub].
  destruct (ascii_dec "\" c) as [<-|Hne].
  - cbn. destruct rest; reflexivity.
  - rewrite (proj2 (Ascii.eqb_neq c "\")) by congruence. reflexivity.
Qed.

Lemma contains_backslash c rest :
  Py.contains "\" (String c rest) = Ascii.eqb c "\" || Py.contains "\" rest.
Proof.
  cbn [Py.contains String.prefix].
  destruct (ascii_dec "\" c) as [<-|Hne].
  - destruct rest; reflexivity.
  - rewrite (proj2 (Ascii.eqb_neq c "\")) by congruence. reflexivity.
Qed.

Lemma replace_backslash_clean s :
  Py.contains "\" (Py.replace "\" "/" s) = false.
Proof.
  unfold Py.replace. induction s as [|c rest IH];
    rewrite replace_backslash_go; [reflexivity|].
  rewrite contains_backslash, IH, orb_false_r.
  destruct (Ascii.eqb c "\") eqn:Hc; [reflexivity|exact Hc].
Qed.

Lemma replace_backslash_id s :
  Py.contains "\" s = false -> Py.replace "\" "/" s = s.
Proof.
  unfold Py.replace. induction s as [|c rest IH]; intros H;
    rewrite replace_backslash_go; [reflexivity|].
  rewrite contains_backslash in H. apply orb_false_iff in H as [Hc Hrest].
  rewrite Hc, IH by exact Hrest. reflexivity.
Qed.

Lemma substring_all s : String.substring 0 (String.length s) s = s.
Proof. induction s as [|c rest IH]; cbn; [reflexivity|]. now rewrite IH. Qed.

Lemma substring_none s : String.substring 0 0 s = "".
Proof. destruct s; reflexivity. Qed.

(** X13. In the filter argument of the burn-in the absolute path of the
    subtitle file has every backslash turned into a slash.  A path that
    then reads as a drive letter, a colon and a slash gets one backslash
    back, before the colon; every other path is quoted as it is, and a
    path that had no backslash is the absolute path itself. *)
Theorem subtitle_filter_arg_escapes (abspath : string -> string)
    (srt_file : string) :
  let abs_srt := Py.replace "\" "/" (abspath srt_file) in
  Py.contains "\" abs_srt = false
  /\ (Py.contains "\" (abspath srt_file) = false -> abs_srt = abspath srt_file)
  /\ (forall drive rest,
        abs_srt = String drive (":/" ++ rest) ->
        subtitle_filter_arg abspath srt_file
        = "subtitles='" ++ String drive ("\:/" ++ rest) ++ "'")
  /\ ((forall drive rest, abs_srt <> String drive (":/" ++ rest)) ->
      subtitle_filter_arg abspath srt_file = "subtitles='" ++ abs_srt ++ "'").
Proof.
  intros abs_srt. split; [apply replace_backslash_clean|].
  split; [apply replace_backslash_id|].
  unfold subtitle_filter_arg. fold abs_srt. split.
  - intros drive rest H.
    change (":/" ++ rest) with (String ":" (String "/" rest)) in H.
    rewrite H. unfold Py.slice, Py.slice_from.
    cbn [String.length Nat.sub String.substring].
    rewrite ?substring_none, ?Nat.sub_0_r, substring_all. reflexivity.
  - intros Hno.
    destruct (String.eqb (Py.slice 1 3 abs_srt) ":/") eqn:Hs; [|reflexivity].
    exfalso. apply String.eqb_eq in Hs. unfold Py.slice in Hs.
    destruct abs_srt as [|d [|c1 [|c2 rest]]]; try discriminate Hs.
    cbn in Hs. rewrite substring_none in Hs.
    injection Hs as -> ->. now apply (Hno d rest).
Qed.

Lemma subtitle_filter_arg_escapes_witness :
  subtitle_filter_arg (fun p => "C:\clips\" ++ p) "speech.srt"
  = "subtitles='C\:/clips/speech.srt'"
  /\ subtitle_filter_arg Studio.abspath "./static/scene_1/speech.srt"
     = "subtitles='/work/static/scene_1/speech.srt'".
Proof.
  split.
  - apply (proj1 (proj2 (proj2
             (subtitle_filter_arg_escapes (fun p => "C:\clips\" ++ p)
                "speech.srt"))) "C"%char "clips/speech.srt").
    reflexivity.
  - rewrite (proj2 (proj2 (proj2
             (subtitle_filter_arg_escapes Studio.abspath
                "./static/scene_1/speech.srt")))).
    + reflexivity.
    + intros drive rest H. vm_compute in H. discriminate H.
Defined.

(** ** The background music *)

(** X14. Without a file [music_*.mp3] the music stage runs nothing and
    changes nothing.  With one it asks for the duration of the narration
    and trims the first candidate; when the trim exits with a status other
    than zero the stage reports it and returns without running the mix,
    and when the trim cannot be started the exception is not caught.  The
    stage never exits. *)
Theorem music_stage_stops_after_failed_trim {E : Type} (repr : Q -> string)
    (json_duration : string -> option Q)
    (glob : string -> gmap string string -> list string)
    (process : list string -> gmap string string -> E ->
               option completed * gmap string string * E)
    (cfg : config) (w : world E) :
  let stage := music_stage repr json_duration glob process cfg in
  let trimmed := Py.path_join (image_folder cfg) "music_trimmed.mp3" in
  (glob (Py.path_join (image_folder cfg) "music_*.mp3") (files w) = [] ->
   stage w = (Value tt, w, []))
  /\ (forall music_file others,
        glob (Py.path_join (image_folder cfg) "music_*.mp3") (files w)
        = music_file :: others ->
        exists T w1 o1,
          get_audio_duration json_duration process (audio_file cfg) w
          = (Value T, w1, [Ran (cmd_ffprobe_json (audio_file cfg)) o1])
          /\ let trim := trim_cmd repr music_file T trimmed in
             (forall c,
                outcome_of process trim w1 = Some c ->
                returncode c <> 0%Z ->
                stage w
                = (Value tt, world_after process trim w1,
                   [Ran (cmd_ffprobe_json (audio_file cfg)) o1;
                    Ran trim (Some c); Printed MusicTrimError]))
             /\ (outcome_of process trim w1 = None ->
                 stage w
                 = (Raised, world_after process trim w1,
                    [Ran (cmd_ffprobe_json (audio_file cfg)) o1;
                     Ran trim None])))
  /\ (forall code, (stage w).1.1 <> Exit code).
Proof.
  intros stage trimmed. subst stage. split; [|split].
  - intros Hg. unfold music_stage, bind at 1, glob_glob. rewrite Hg.
    reflexivity.
  - intros music_file others Hg.
    destruct (get_audio_duration_returns json_duration process (audio_file cfg) w)
      as (T & w1 & o1 & HT).
    exists T, w1, o1. split; [exact HT|]. intros trim.
    split.
    + intros c Hc Hnz.
      unfold music_stage, bind at 1, glob_glob. rewrite Hg. cbn [app].
      unfold bind at 1. rewrite HT. unfold bind at 1. fold trimmed trim.
      rewrite subprocess_run_run, Hc.
      rewrite (proj2 (Z.eqb_neq _ _) Hnz). reflexivity.
    + intros Hc.
      unfold music_stage, bind at 1, glob_glob. rewrite Hg. cbn [app].
      unfold bind at 1. rewrite HT. unfold bind at 1. fold trimmed trim.
      rewrite subprocess_run_run, Hc. reflexivity.
  - intros code. unfold music_stage, bind at 1, glob_glob.
    destruct (glob _ (files w)) as [|music_file others];
      [intros Hr; discriminate Hr|].
    cbn [app]. unfold bind at 1.
    destruct (get_audio_duration_returns json_duration process (audio_file cfg) w)
      as (T & w1 & o1 & ->).
    unfold bind at 1. rewrite subprocess_run_run.
    destruct (outcome_of process _ w1) as [c|]; [|intros Hr; discriminate Hr].
    destruct (returncode c =? 0)%Z; cbn [negb];
      [|intros Hr; discriminate Hr].
    unfold bind. rewrite subprocess_run_run.
    destruct (outcome_of process _ _) as [c3|]; [|intros Hr; discriminate Hr].
    destruct (returncode c3 =? 0)%Z; intros Hr; discriminate Hr.
Qed.

Lemma music_stage_stops_after_failed_trim_witness :
  music_stage Studio.repr Studio.json_duration Studio.glob failing_process
    Studio.cfg (Studio.world_of scene_with_music)
  = (Value tt, Studio.world_of scene_with_music,
     [Ran (cmd_ffprobe_json "./static/scene_1/speech.mp3")
        (Some (Studio.failed "Invalid data found when processing input"));
      Ran (trim_cmd Studio.repr "./static/scene_1/music_calm.mp3" 30.0
             "./static/scene_1/music_trimmed.mp3")
        (Some (Studio.failed "Invalid data found when processing input"));
      Printed MusicTrimError]).
Proof.
  destruct (proj1 (proj2
    (music_stage_stops_after_failed_trim Studio.repr Studio.json_duration
       Studio.glob failing_process Studio.cfg
       (Studio.world_of scene_with_music)))
    "./static/scene_1/music_calm.mp3" []) as (T & w1 & o1 & HT & Hfail & _).
  - reflexivity.
  - vm_compute in HT. injection HT as <- <- <-.
    rewrite (Hfail (Studio.failed "Invalid data found when processing input")).
    + reflexivity.
    + reflexivity.
    + discriminate.
Defined.
